(** * Profile manager: orchestration layer

  A shallow embedding of the orchestration code of the profile manager
  (src/main.ts, src/credentials-reader.ts, src/tiktok-login.ts) and the
  properties its specification states about it.

  Conventions of the embedding:
  - JavaScript numbers that the code uses as integers are [Z];
  - strings are [string] (sequences of 8-bit code units, ASCII text);
  - a [Set<number>] is a [gset Z];
  - an [async] function that talks to the outside world takes the answers
    of the outside world as an explicit argument (an environment record)
    and returns its result together with the trace of the calls it made;
  - a JavaScript exception is the [Throw] constructor of [outcome]. *)

From Stdlib Require Import ZArith String Ascii List Lia Bool.
From stdpp Require Import gmap strings list pretty.
From Equations Require Import Equations.

Local Open Scope Z_scope.

(* ===================================================================== *)
(** * Part I: the model                                                   *)
(* ===================================================================== *)

(** ** JavaScript strings *)

Module JsString.

(** [s.length === 0], the only falsy string. *)
Definition is_empty (s : string) : bool :=
  match s with EmptyString => true | String _ _ => false end.

(** [String.prototype.includes] *)
Fixpoint includes (s needle : string) : bool :=
  String.prefix needle s ||
  match s with
  | EmptyString => false
  | String _ s' => includes s' needle
  end.

Fixpoint trimStart (s : string) : string :=
  match s with
  | EmptyString => EmptyString
  | String c s' => if Ascii.is_space c then trimStart s' else s
  end.

Fixpoint trimEnd (s : string) : string :=
  match s with
  | EmptyString => EmptyString
  | String c s' =>
      match trimEnd s' with
      | EmptyString => if Ascii.is_space c then EmptyString else String c EmptyString
      | r => String c r
      end
  end.

(** [String.prototype.trim] on ASCII text, whose white space is TAB, LF,
    VT, FF, CR and SPACE. *)
Definition trim (s : string) : string := trimEnd (trimStart s).

Definition toLowerChar (c : ascii) : ascii :=
  let n := nat_of_ascii c in
  if ((65 <=? n) && (n <=? 90))%nat then ascii_of_nat (n + 32) else c.

(** [String.prototype.toLowerCase] on ASCII text. *)
Fixpoint toLowerCase (s : string) : string :=
  match s with
  | EmptyString => EmptyString
  | String c s' => String (toLowerChar c) (toLowerCase s')
  end.

(** [s.replace(/\s+/g, '')] on ASCII text. *)
Fixpoint removeWhiteSpace (s : string) : string :=
  match s with
  | EmptyString => EmptyString
  | String c s' =>
      if Ascii.is_space c then removeWhiteSpace s' else String c (removeWhiteSpace s')
  end.



(** The text is ASCII: every code unit is below 128.  On such text
    [trim], [toLowerCase] and [removeWhiteSpace] above are the functions of
    JavaScript; on other text JavaScript also strips the white space of
    Unicode (U+00A0, U+FEFF, ...) and folds the other cased letters. *)
Fixpoint is_ascii (s : string) : bool :=
  match s with
  | EmptyString => true
  | String c s' => (nat_of_ascii c <? 128)%nat && is_ascii s'
  end.

End JsString.

(** ** JSON values of the HTTP responses *)

Module Json.

#[warnings="-register-all"]
Inductive json : Type :=
| JNull
| JBool (b : bool)
| JNum (n : Z)
| JStr (s : string)
| JArr (items : list json)
| JObj (fields : list (string * json)).

(** JavaScript truthiness. *)
Definition truthy (v : json) : bool :=
  match v with
  | JNull => false
  | JBool b => b
  | JNum n => negb (n =? 0)
  | JStr s => negb (JsString.is_empty s)
  | JArr _ | JObj _ => true
  end.

Fixpoint assoc (name : string) (fields : list (string * json)) : option json :=
  match fields with
  | [] => None
  | (k, v) :: rest => if decide (k = name) then Some v else assoc name rest
  end.

(** [v?.name]: [None] is [undefined]. *)
Definition get (name : string) (v : option json) : option json :=
  match v with
  | Some (JObj fields) => assoc name fields
  | _ => None
  end.

(** [v?.a?.b?.c] for the path [[a; b; c]]. *)
Definition path (names : list string) (v : json) : option json :=
  fold_left (fun acc name => get name acc) names (Some v).

(** [v || fallback] *)
Definition or_default (v : option json) (fallback : string) : json :=
  match v with
  | Some x => if truthy x then x else JStr fallback
  | None => JStr fallback
  end.

End Json.

(** ** Time values and calendar arithmetic of ECMAScript [Date] *)

Module JsDate.

Definition msPerDay : Z := 86400000.
Definition msPerHour : Z := 3600000.
Definition msPerMinute : Z := 60000.
Definition msPerSecond : Z := 1000.

Definition Day (t : Z) : Z := t / msPerDay.
Definition TimeWithinDay (t : Z) : Z := t mod msPerDay.

Definition DaysInYear (y : Z) : Z :=
  if negb (y mod 4 =? 0) then 365
  else if negb (y mod 100 =? 0) then 366
  else if negb (y mod 400 =? 0) then 365
  else 366.

Definition DayFromYear (y : Z) : Z :=
  365 * (y - 1970) + (y - 1969) / 4 - (y - 1901) / 100 + (y - 1601) / 400.

(** The largest [y] with [DayFromYear y <= Day t]: an estimate from the
    mean length of a year, corrected by at most one year. *)
Definition YearFromTime (t : Z) : Z :=
  let d := Day t in
  let y := 1970 + (400 * d) / 146097 in
  if DayFromYear (y + 1) <=? d then y + 1
  else if DayFromYear y <=? d then y
  else y - 1.

Definition InLeapYearOf (y : Z) : Z := if DaysInYear y =? 365 then 0 else 1.
Definition InLeapYear (t : Z) : Z := InLeapYearOf (YearFromTime t).
Definition DayWithinYear (t : Z) : Z := Day t - DayFromYear (YearFromTime t).

Definition MonthFromTime (t : Z) : Z :=
  let d := DayWithinYear t in
  let L := InLeapYear t in
  if d <? 31 then 0
  else if d <? 59 + L then 1
  else if d <? 90 + L then 2
  else if d <? 120 + L then 3
  else if d <? 151 + L then 4
  else if d <? 181 + L then 5
  else if d <? 212 + L then 6
  else if d <? 243 + L then 7
  else if d <? 273 + L then 8
  else if d <? 304 + L then 9
  else if d <? 334 + L then 10
  else 11.

Definition DateFromTime (t : Z) : Z :=
  let d := DayWithinYear t in
  let L := InLeapYear t in
  match MonthFromTime t with
  | 0 => d + 1
  | 1 => d - 30
  | 2 => d - 58 - L
  | 3 => d - 89 - L
  | 4 => d - 119 - L
  | 5 => d - 150 - L
  | 6 => d - 180 - L
  | 7 => d - 211 - L
  | 8 => d - 242 - L
  | 9 => d - 272 - L
  | 10 => d - 303 - L
  | _ => d - 333 - L
  end.

(** Day number, within a year, of the first day of month [mn]. *)
Definition monthStart (mn L : Z) : Z :=
  match mn with
  | 0 => 0 | 1 => 31 | 2 => 59 + L | 3 => 90 + L | 4 => 120 + L | 5 => 151 + L
  | 6 => 181 + L | 7 => 212 + L | 8 => 243 + L | 9 => 273 + L | 10 => 304 + L
  | _ => 334 + L
  end.

Definition MakeDay (year month date : Z) : Z :=
  let ym := year + month / 12 in
  let mn := month mod 12 in
  DayFromYear ym + monthStart mn (InLeapYearOf ym) + date - 1.

Definition MakeTime (hour min sec ms : Z) : Z :=
  hour * msPerHour + min * msPerMinute + sec * msPerSecond + ms.

Definition MakeDate (day time : Z) : Z := day * msPerDay + time.

(** [None] is [NaN]. *)
Definition TimeClip (t : Z) : option Z :=
  if 8640000000000000 <? Z.abs t then None else Some t.

(** Years 0 to 99 mean 1900 to 1999 in [Date.UTC] and [new Date(y, m, d)]. *)
Definition fullYear (year : Z) : Z :=
  if (0 <=? year) && (year <=? 99) then 1900 + year else year.

(** [Date.UTC(year, month, date, hours, minutes, seconds, ms)] *)
Definition Date_UTC (year month date hours minutes seconds ms : Z) : option Z :=
  TimeClip (MakeDate (MakeDay (fullYear year) month date)
                     (MakeTime hours minutes seconds ms)).

(** The host's time zone.  Its rules give the offset of local time from
    UTC in milliseconds, east of Greenwich positive:
    - [offsetAt t] at the instant with time value [t];
    - [offsetOf t] for the local time value [t]; for a local time that the
      zone's clocks skip, the offset in force before the transition, and
      for a local time that they show twice, the earlier of the two
      instants. *)
Record TimeZone : Type := {
  offsetAt : Z → Z;
  offsetOf : Z → Z
}.

(** A zone whose clocks always run [tza] milliseconds ahead of UTC. *)
Definition fixedOffset (tza : Z) : TimeZone :=
  {| offsetAt := λ _, tza; offsetOf := λ _, tza |}.

Definition LocalTime (tz : TimeZone) (t : Z) : Z := t + offsetAt tz t.
Definition UTC (tz : TimeZone) (t : Z) : Z := t - offsetOf tz t.

(** [new Date(year, month, date)]: the time value of local midnight. *)
Definition Date_local (tz : TimeZone) (year month date : Z) : option Z :=
  TimeClip (UTC tz (MakeDate (MakeDay (fullYear year) month date) (MakeTime 0 0 0 0))).

Definition getDate (tz : TimeZone) (tv : option Z) : option Z :=
  t ← tv; Some (DateFromTime (LocalTime tz t)).
Definition getFullYear (tz : TimeZone) (t : Z) : Z := YearFromTime (LocalTime tz t).
Definition getMonth (tz : TimeZone) (t : Z) : Z := MonthFromTime (LocalTime tz t).

(** The clocks of the zone never skip a whole day: the offsets are at
    most a day, and a local time that is read as an instant and back is
    found on the clock at most a day later, never earlier.  (A local time
    that exists is read back as itself; one that is skipped when the
    clocks are put forward is read back later by the length of the
    skip.) *)
Definition keeps_every_day (tz : TimeZone) : Prop :=
  ∀ t, Z.abs (offsetOf tz t) ≤ msPerDay ∧
       0 ≤ offsetAt tz (t - offsetOf tz t) - offsetOf tz t < msPerDay.

(** Length of month [m] (0 = January) of year [y] in the Gregorian
    calendar. *)
Definition DaysInMonth (y m : Z) : Z :=
  match m with
  | 1 => 28 + InLeapYearOf y
  | 3 | 5 | 8 | 10 => 30
  | _ => 31
  end.

(** Calendar month of the instant [t] on a clock that runs [offset]
    milliseconds ahead of UTC. *)
Definition in_month (offset y m t : Z) : Prop :=
  YearFromTime (t + offset) = y ∧ MonthFromTime (t + offset) = m.

(** The reporting time zone of the target system, UTC-8. *)
Definition utc_minus_8 : Z := - 8 * msPerHour.

(** The month after and the month before month [m] of year [y]. *)
Definition nextMonth (y m : Z) : Z * Z := if decide (m = 11) then (y + 1, 0) else (y, m + 1).
Definition prevMonth (y m : Z) : Z * Z := if decide (m = 0) then (y - 1, 11) else (y, m - 1).

(** 00:00:00.000 UTC-8 on day 1, and 23:59:59.999 UTC-8 on the last day,
    of month [m] of year [y], as time values. *)
Definition monthLower (y m : Z) : Z :=
  MakeDate (MakeDay y m 1) 0 - utc_minus_8.
Definition monthUpper (y m : Z) : Z :=
  MakeDate (MakeDay y m (DaysInMonth y m)) (msPerDay - 1) - utc_minus_8.

Definition first_instant_of_month (y m t : Z) : Prop :=
  in_month utc_minus_8 y m t ∧ ¬ in_month utc_minus_8 y m (t - 1).

Definition last_instant_of_month (y m t : Z) : Prop :=
  in_month utc_minus_8 y m t ∧ ¬ in_month utc_minus_8 y m (t + 1).

End JsDate.

(** ** Exceptions, calls to the outside world, and their trace *)

Module Effects.

(** A thrown [Error]; [status] is [error.response?.status], present on the
    errors that the HTTP client raises for an HTTP error response. *)
Record error : Type := Error { message : string; status : option Z }.

(** [new Error(msg)] *)
Definition mkError (msg : string) : error := Error msg None.

Inductive outcome (A : Type) : Type :=
| Ok (a : A)
| Throw (e : error).
Arguments Ok {A} a.
Arguments Throw {A} e.

(** What the program does to the outside world, in the order it does it.
    [EvStarted] is not a call: it marks the assignment [port = ...] after
    a successful start or status request.  [EvTwoFactorForm] marks the
    branch [if (twoFAInput)] of the login flow. *)
Inductive event : Type :=
| EvStart (profileId : string)             (* POST /profiles/start/{id} *)
| EvStatus (profileId : string)            (* GET /profiles/status/{id} *)
| EvStarted (profileId : string) (port : Z)
| EvStop (profileId : string)              (* POST /profiles/stop/{id} *)
| EvSleep (ms : Z)
| EvConnect (port : Z)                     (* puppeteer.connect *)
| EvPages                                  (* browser.pages() *)
| EvNewPage                                (* browser.newPage() *)
| EvGoto (url : string)                    (* page.goto *)
| EvEvaluate                               (* page.evaluate *)
| EvCookies                                (* page.cookies *)
| EvPageClose                              (* page.close() *)
| EvDisconnect                             (* browser.disconnect() *)
| EvStatApi (oecSellerId sellerId : string)
| EvPaymentApi (oecSellerId sellerId : string)
| EvMonthApi (oecSellerId sellerId : string) (lower upper : option Z)
| EvWaitSelector (selector : string)       (* page.waitForSelector *)
| EvType (selector text : string)          (* humanType / keyboard.type *)
| EvQuery (selector : string)              (* page.$ *)
| EvClick (selector : string)              (* click *)
| EvPressEnter                             (* keyboard.press('Enter') *)
| EvTotp (secret : string)                 (* GET https://2fa.live/tok/{secret} *)
| EvWaitRedirect                           (* page.waitForFunction *)
| EvTwoFactorForm
| EvProgress (current total : Z) (profileId status : string).

Global Instance event_eq_dec : EqDecision event.
Proof. solve_decision. Defined.

(** A computation with local variables of type [S]: it returns the local
    variables at its end, the calls it made, and its value or the
    exception that ended it. *)
Definition M (S A : Type) : Type := S → S * list event * outcome A.

Global Instance M_ret {S} : MRet (M S) := λ A a s, (s, [], Ok a).

Global Instance M_bind {S} : MBind (M S) := λ A B k m s,
  match m s with
  | (s1, t1, Ok a) => let '(s2, t2, r) := k a s1 in (s2, t1 ++ t2, r)
  | (s1, t1, Throw e) => (s1, t1, Throw e)
  end.

Definition throw {S A} (e : error) : M S A := λ s, (s, [], Throw e).
Definition emit {S} (ev : event) : M S unit := λ s, (s, [ev], Ok tt).
Definition get {S} : M S S := λ s, (s, [], Ok s).
Definition modify {S} (f : S → S) : M S unit := λ s, (f s, [], Ok tt).

(** An answer of the outside world: the call is recorded, then it returns
    or throws. *)
Definition call {S A} (ev : event) (answer : outcome A) : M S A :=
  λ s, (s, [ev], answer).

(** [try { m } catch (e) { handler e }] *)
Definition try_catch {S A} (m : M S A) (handler : error → M S A) : M S A := λ s,
  match m s with
  | (s1, t1, Ok a) => (s1, t1, Ok a)
  | (s1, t1, Throw e) => let '(s2, t2, r) := handler e s1 in (s2, t1 ++ t2, r)
  end.

(** [try { m } catch (e) { }] *)
Definition attempt {S} (m : M S unit) : M S unit := try_catch m (λ _, mret tt).

(** A function call: the callee runs with local variables of its own. *)
Definition invoke {S S' A} (m : M S' A) (locals : S') : M S A := λ s,
  let '(_, t, r) := m locals in (s, t, r).

Definition trace_of {S A} (x : S * list event * outcome A) : list event := x.1.2.
Definition result_of {S A} (x : S * list event * outcome A) : outcome A := x.2.
Definition locals_of {S A} (x : S * list event * outcome A) : S := x.1.1.

(** Every call that [m] makes satisfies [P]. *)
Definition emits {S A} (P : event → Prop) (m : M S A) : Prop :=
  ∀ s, Forall P (trace_of (m s)).

Definition not_started (e : event) : Prop :=
  match e with EvStarted _ _ => False | _ => True end.

Definition is_start (e : event) : bool :=
  match e with EvStart _ => true | _ => false end.

(** Number of start requests in a trace. *)
Definition count_starts (t : list event) : nat := length (List.filter is_start t).

(** Every point of the trace at which profile [id] was started is
    followed, later in the trace, by a stop request for [id]. *)
Fixpoint started_then_stopped (id : string) (t : list event) : Prop :=
  match t with
  | [] => True
  | e :: t' =>
      match e with
      | EvStarted id' _ => id' = id → EvStop id ∈ t'
      | _ => True
      end ∧ started_then_stopped id t'
  end.

End Effects.

(** ** Credential store (credentials-reader.ts) *)

Module CredentialsReader.
Import JsString Effects.

Record ProfileCredentials : Type := {
  profileId : string;
  profileName : string;
  email : string;
  password : string;
  twoFactorSecret : option string      (* [None] is [undefined] *)
}.

Global Instance ProfileCredentials_eq_dec : EqDecision ProfileCredentials.
Proof. solve_decision. Defined.

(** A cell value as [XLSX.utils.sheet_to_json] yields it. *)
Inductive cell : Type :=
| CStr (s : string)
| CNum (n : Z)
| CBool (b : bool).

Definition truthy (c : cell) : bool :=
  match c with
  | CStr s => negb (is_empty s)
  | CNum n => negb (n =? 0)
  | CBool b => b
  end.

(** [String(c)].  A number cell holds an integer, printed in full: what
    JavaScript prints for the integers that a double holds exactly. *)
Definition String_ (c : cell) : string :=
  match c with
  | CStr s => s
  | CNum n => pretty n
  | CBool true => "true"
  | CBool false => "false"
  end.

(** One row of the sheet: its columns in [Object.keys] order. *)
Definition row : Type := list (string * cell).

(** [key.trim().toLowerCase().replace(/\s+/g, '')] *)
Definition cleanKey (key : string) : string :=
  removeWhiteSpace (toLowerCase (trim key)).

(** The loop that fills [normalizedRow]. *)
Definition normalizeRow (r : row) : gmap string cell :=
  fold_left (λ normalizedRow kv, <[cleanKey kv.1 := kv.2]> normalizedRow) r ∅.

(** [a || b] on cells that may be [undefined]. *)
Definition or_else (a b : option cell) : option cell :=
  match a with
  | Some c => if truthy c then a else b
  | None => b
  end.

Definition truthy_opt (a : option cell) : bool :=
  match a with Some c => truthy c | None => false end.

(** [String(a || '')] *)
Definition String_or_empty (a : option cell) : string :=
  match a with
  | Some c => if truthy c then String_ c else ""
  | None => ""
  end.

(** The body of [for (const row of rawData)]: the profile pushed for
    this row, if any. *)
Definition parseRow (r : row) : option ProfileCredentials :=
  let normalizedRow := normalizeRow r in
  let pId := or_else (normalizedRow !! "profileid") (normalizedRow !! "id") in
  let pName := or_else (normalizedRow !! "profilename") (normalizedRow !! "name") in
  let email := or_else (or_else (normalizedRow !! "email") (normalizedRow !! "username"))
                       (normalizedRow !! "user") in
  let pass := or_else (normalizedRow !! "password") (normalizedRow !! "pass") in
  match pId, email, pass with
  | Some i, Some e, Some p =>
      if truthy i && truthy e && truthy p then
        Some {| profileId := trim (String_ i);
                profileName := trim (String_or_empty pName);
                email := trim (String_ e);
                password := trim (String_ p);
                twoFactorSecret :=
                  match normalizedRow !! "twofactorsecret" with
                  | Some c => if truthy c then Some (trim (String_ c)) else None
                  | None => None
                  end |}
      else None
  | _, _, _ => None
  end.

Record LoadResult : Type := { success : bool; count : Z; message : string }.

(** [parseExcelWorkbook]: the result and the session store afterwards.
    [rawData] is what [sheet_to_json] returned for the first sheet. *)
Definition parseExcelWorkbook (sessionCredentials : list ProfileCredentials)
    (rawData : list row) : LoadResult * list ProfileCredentials :=
  match rawData with
  | [] => ({| success := false; count := 0; message := "Excel file is empty" |},
           sessionCredentials)
  | _ =>
      let profiles := omap parseRow rawData in
      if (0 <? Z.of_nat (length profiles)) then
        ({| success := true; count := Z.of_nat (length profiles);
            message := "Loaded " +:+ pretty (Z.of_nat (length profiles))
                       +:+ " profiles from Excel" |},
         profiles)
      else
        ({| success := false; count := 0;
            message := "No valid profiles found (Check headers: profileId, email, password)" |},
         sessionCredentials)
  end.

(** [loadCredentialsFromExcelBuffer]: [workbook] is the outcome of reading
    the buffer and converting its first sheet ([XLSX.read] and
    [sheet_to_json] may throw). *)
Definition loadCredentialsFromExcelBuffer (sessionCredentials : list ProfileCredentials)
    (workbook : outcome (list row)) : LoadResult * list ProfileCredentials :=
  match workbook with
  | Ok rawData => parseExcelWorkbook sessionCredentials rawData
  | Throw e =>
      ({| success := false; count := 0;
          message := "Excel Buffer Error: " +:+ Effects.message e |},
       sessionCredentials)
  end.

(** [loadCredentialsFromExcel] *)
Definition loadCredentialsFromExcel (sessionCredentials : list ProfileCredentials)
    (workbook : outcome (list row)) : LoadResult * list ProfileCredentials :=
  match workbook with
  | Ok rawData => parseExcelWorkbook sessionCredentials rawData
  | Throw e =>
      ({| success := false; count := 0;
          message := "Excel Error: " +:+ Effects.message e |},
       sessionCredentials)
  end.

(** [getCredentialsByProfileId]; [None] is [null]. *)
Definition getCredentialsByProfileId (sessionCredentials : list ProfileCredentials)
    (id : string) : option ProfileCredentials :=
  let normalizedId := trim id in
  List.find (λ p, bool_decide (profileId p = normalizedId)) sessionCredentials.

(** [getCredentialsByProfileName] *)
Definition getCredentialsByProfileName (sessionCredentials : list ProfileCredentials)
    (name : string) : option ProfileCredentials :=
  if is_empty name then None
  else
    let searchName := trim (toLowerCase name) in
    List.find (λ p, bool_decide (trim (toLowerCase (profileName p)) = searchName))
              sessionCredentials.

End CredentialsReader.

(** ** The sheet and the store: vocabulary for the lookups *)

Module Sheet.
Import JsString CredentialsReader.

(** The cells that the loop of [parseExcelWorkbook] reads from a row: its
    locals [pId], [pName], [email] and [pass], and the cell under
    [twofactorsecret]. *)
Definition pId (r : row) : option cell :=
  or_else (normalizeRow r !! "profileid") (normalizeRow r !! "id").
Definition pName (r : row) : option cell :=
  or_else (normalizeRow r !! "profilename") (normalizeRow r !! "name").
Definition email (r : row) : option cell :=
  or_else (or_else (normalizeRow r !! "email") (normalizeRow r !! "username"))
          (normalizeRow r !! "user").
Definition pass (r : row) : option cell :=
  or_else (normalizeRow r !! "password") (normalizeRow r !! "pass").
Definition secret (r : row) : option cell := normalizeRow r !! "twofactorsecret".

(** [if (pId && email && pass)]: the row is a valid credential row. *)
Definition valid (r : row) : bool :=
  truthy_opt (pId r) && truthy_opt (email r) && truthy_opt (pass r).



(** The comparison of [getCredentialsByProfileName]:
    [a.toLowerCase().trim() === b.toLowerCase().trim()]. *)
Definition same_name (a b : string) : Prop :=
  trim (toLowerCase a) = trim (toLowerCase b).

(** [x] is the first element of [l] with the property [P]: what
    [Array.prototype.find] returns. *)
Definition first_with {A} (P : A → Prop) (l : list A) (x : A) : Prop :=
  ∃ before after, l = before ++ x :: after ∧ P x ∧ ∀ y, y ∈ before → ¬ P y.




(** A stored row and a request for which the same holds. *)
Definition plain_profile (c : ProfileCredentials) : bool :=
  is_ascii (profileId c) && is_ascii (profileName c).

Definition plain_store (sessionCredentials : list ProfileCredentials) : bool :=
  forallb plain_profile sessionCredentials.

End Sheet.

(** ** Hybrid fetch: session extraction and direct data client
     (main.ts, [extractSellerIdFromUrl] and [fetchTikTokDataFast]) *)

Module Fast.
Import JsString Json JsDate Effects.

(** A URL as the program sees it: its text, and the query parameters that
    [new URL(text).searchParams] holds ([None]: [new URL] throws). *)
Record url : Type := Url { href : string; searchParams : option (list (string * string)) }.

(** [searchParams.get(name)] *)
Fixpoint searchParams_get (name : string) (params : list (string * string))
    : option string :=
  match params with
  | [] => None
  | (k, v) :: rest => if decide (k = name) then Some v else searchParams_get name rest
  end.

Record SellerInfo : Type := { sellerId : string; oecSellerId : string }.

Definition extractSellerIdFromUrl (u : url) : option SellerInfo :=
  match searchParams u with
  | None => None
  | Some params =>
      match searchParams_get "seller_id" params,
            searchParams_get "oec_seller_id" params with
      | Some s, Some o =>
          if negb (is_empty s) && negb (is_empty o)
          then Some {| sellerId := s; oecSellerId := o |}
          else None
      | _, _ => None
      end
  end.

Record CookieData : Type := { name : string; value : string; domain : string }.

(** What the page-state probe of [page.evaluate] returns when it finds a
    seller id in the page. *)
Record PageData : Type := { id : string; src : string }.

(** One round of the polling loop, as the outside world plays it. *)
Record PollCycle : Type := {
  isClosed : bool;                          (* page.isClosed() *)
  currentUrl : url;                         (* page.url() *)
  pageData : outcome (option PageData);     (* page.evaluate(...) *)
  responsesDuringEvaluate : list url;       (* responses seen while awaiting evaluate *)
  responsesDuringSleep : list url           (* responses seen while awaiting the 1s sleep *)
}.

Record MonthEntry : Type := {
  date_time_lower : option Z;               (* [None] is [NaN] *)
  date_time_upper : option Z;
  settlement : json
}.

Record Summary : Type := {
  onHoldAmount : json;
  sumAmount : json;
  monthly : list MonthEntry
}.

Record TikTokFinanceResult : Type := {
  result_sellerId : string;
  result_oecSellerId : string;
  financeData : json;
  paymentData : option json;                (* [None] is [null] *)
  monthlyData : list MonthEntry;
  summary : Summary
}.

(** The answers of the outside world to one run of [fetchTikTokDataFast]. *)
Record FetchEnv : Type := {
  connect : outcome unit;
  newPage : outcome unit;
  goto : outcome unit;
  responsesDuringNavigation : list url;     (* responses seen before the polling loop *)
  cycles : list PollCycle;                  (* the rounds that start before the deadline *)
  cookiesAnswer : outcome (list CookieData);
  pageClose : outcome unit;
  cleanupPageClose : outcome unit;
  stopAnswer : outcome unit;
  statApi : outcome json;
  paymentApi : outcome json;
  monthApi : option Z → option Z → outcome json;
  now : Z;                                  (* time value of [new Date()] *)
  timeZone : TimeZone                       (* the host's time zone *)
}.

(** The [page.on('response', ...)] listener. *)
Definition onResponse (sellerInfo : option SellerInfo) (u : url) : option SellerInfo :=
  match sellerInfo with
  | Some _ => sellerInfo
  | None =>
      if includes (href u) "seller-us.tiktok.com" && includes (href u) "seller_id="
      then extractSellerIdFromUrl u
      else None
  end.

Definition deliver (responses : list url) (sellerInfo : option SellerInfo)
    : option SellerInfo :=
  fold_left onResponse responses sellerInfo.

(** [while (!sellerInfo && Date.now() < deadline)]: the list of cycles ends
    when the deadline has passed. *)
Fixpoint poll {S} (rounds : list PollCycle) (sellerInfo : option SellerInfo)
    : M S (option SellerInfo) :=
  match sellerInfo with
  | Some _ => mret sellerInfo
  | None =>
      match rounds with
      | [] => mret None
      | c :: rest =>
          if isClosed c then mret None
          else
            match (if includes (href (currentUrl c)) "seller_id="
                   then extractSellerIdFromUrl (currentUrl c) else None) with
            | Some info => mret (Some info)
            | None =>
                found ← try_catch (call EvEvaluate (pageData c)) (λ _, mret None);
                match found with
                | Some d => mret (Some {| sellerId := id d; oecSellerId := id d |})
                | None =>
                    emit (EvSleep 1000);;
                    poll rest (deliver (responsesDuringSleep c)
                                 (deliver (responsesDuringEvaluate c) None))
                end
            end
      end
  end.

(** The polling loop of a run, and the seller it finds ([None]: no
    identifier was found before the deadline). *)
Definition pollRun (env : FetchEnv) : unit * list event * outcome (option SellerInfo) :=
  poll (cycles env) (deliver (responsesDuringNavigation env) None) tt.

Definition foundSeller (env : FetchEnv) : option SellerInfo :=
  match result_of (pollRun env) with
  | Ok r => r
  | Throw _ => None
  end.

(** The browser is reached and the page opens, but no identifier is found
    before the deadline. *)
Definition extractionTimesOut (env : FetchEnv) : Prop :=
  connect env = Ok tt ∧ newPage env = Ok tt ∧ goto env = Ok tt ∧
  foundSeller env = None.

(** All URLs that a run gets to see: of the responses and of the page. *)
Definition observedUrls (env : FetchEnv) : list url :=
  responsesDuringNavigation env ++
  flat_map (λ c, currentUrl c :: responsesDuringEvaluate c ++ responsesDuringSleep c)
           (cycles env).

(** The URL has a non-empty query parameter of that name. *)
Definition has_param (name : string) (u : url) : bool :=
  match searchParams u with
  | Some params =>
      match searchParams_get name params with
      | Some v => negb (is_empty v)
      | None => false
      end
  | None => false
  end.

(** The same answers, with another answer to the stop request. *)
Definition with_stopAnswer (a : outcome unit) (env : FetchEnv) : FetchEnv :=
  {| connect := connect env; newPage := newPage env; goto := goto env;
     responsesDuringNavigation := responsesDuringNavigation env;
     cycles := cycles env; cookiesAnswer := cookiesAnswer env;
     pageClose := pageClose env; cleanupPageClose := cleanupPageClose env;
     stopAnswer := a;
     statApi := statApi env; paymentApi := paymentApi env; monthApi := monthApi env;
     now := now env; timeZone := timeZone env |}.

(** The variables of [fetchTikTokDataFast] that outlive its [try] block. *)
Record Locals : Type := {
  browser : bool;                           (* [browser] is not null *)
  page : bool;                              (* [page] is not null *)
  cookies : list CookieData;
  l_sellerId : string;
  l_oecSellerId : string;
  lastNetworkError : string
}.

Definition initial : Locals :=
  {| browser := false; page := false; cookies := [];
     l_sellerId := ""; l_oecSellerId := ""; lastNetworkError := "" |}.

Definition set_browser (l : Locals) : Locals :=
  {| browser := true; page := page l; cookies := cookies l;
     l_sellerId := l_sellerId l; l_oecSellerId := l_oecSellerId l;
     lastNetworkError := lastNetworkError l |}.
Definition set_page (l : Locals) : Locals :=
  {| browser := browser l; page := true; cookies := cookies l;
     l_sellerId := l_sellerId l; l_oecSellerId := l_oecSellerId l;
     lastNetworkError := lastNetworkError l |}.
Definition set_cookies (cs : list CookieData) (l : Locals) : Locals :=
  {| browser := browser l; page := page l; cookies := cs;
     l_sellerId := l_sellerId l; l_oecSellerId := l_oecSellerId l;
     lastNetworkError := lastNetworkError l |}.
Definition set_seller (info : SellerInfo) (l : Locals) : Locals :=
  {| browser := browser l; page := page l; cookies := cookies l;
     l_sellerId := sellerId info; l_oecSellerId := oecSellerId info;
     lastNetworkError := lastNetworkError l |}.
Definition set_lastNetworkError (msg : string) (l : Locals) : Locals :=
  {| browser := browser l; page := page l; cookies := cookies l;
     l_sellerId := l_sellerId l; l_oecSellerId := l_oecSellerId l;
     lastNetworkError := msg |}.

Definition financeUrl : string :=
  "https://seller-us.tiktok.com/finance/bills?lng=en&shop_region=US&subTab=on-hold&tab=overview".

Definition extractionFailed : string := "Failed to extract seller_id or cookies".

Definition timeoutMessage : string :=
  "Timeout: Could not find seller_id in Network, URL, or Page Content".

(** The [try] block: connect, navigate, find the seller, take the cookies. *)
Definition extract (env : FetchEnv) (debugPort : Z) : M Locals unit :=
  call (EvConnect debugPort) (connect env);;
  modify set_browser;;
  call EvNewPage (newPage env);;
  modify set_page;;
  call (EvGoto financeUrl) (goto env);;
  emit (EvSleep 2000);;
  sellerInfo ← poll (cycles env) (deliver (responsesDuringNavigation env) None);
  match sellerInfo with
  | None => throw (mkError timeoutMessage)
  | Some info =>
      modify (set_seller info);;
      cs ← call EvCookies (cookiesAnswer env);
      modify (set_cookies cs);;
      call EvPageClose (pageClose env);;
      emit EvDisconnect
  end.

(** The [catch] block: remember a network failure, release the browser. *)
Definition classify (errorMsg : string) (l : Locals) : Locals :=
  if includes errorMsg "ERR_PROXY_CONNECTION_FAILED"
  then set_lastNetworkError "⚠ Proxy dead/unavailable" l
  else if includes errorMsg "ERR_TIMED_OUT"
  then set_lastNetworkError "⚠ Network timeout" l
  else if includes errorMsg "ERR_CONNECTION_REFUSED"
  then set_lastNetworkError "⚠ Connection refused" l
  else if includes errorMsg "ERR_NAME_NOT_RESOLVED"
  then set_lastNetworkError "⚠ DNS resolution failed" l
  else l.

Definition cleanup (env : FetchEnv) (e : error) : M Locals unit :=
  modify (classify (message e));;
  l ← get;
  (if page l then attempt (call EvPageClose (cleanupPageClose env)) else mret tt);;
  (if browser l then emit EvDisconnect else mret tt).

(** [getMonthTimestamps(year, month)] *)
Definition getMonthTimestamps (tz : TimeZone) (year month : Z) : option Z * option Z :=
  let startDate := Date_UTC year month 1 8 0 0 0 in
  let lastDay := getDate tz (Date_local tz year (month + 1) 0) in
  let endDate := d ← lastDay; Date_UTC year month d 31 59 59 999 in
  (startDate, endDate).

(** An entry of the series that carries the window of month [month] of
    year [year]. *)
Definition entry_for (tz : TimeZone) (year month : Z) (e : MonthEntry) : Prop :=
  (date_time_lower e, date_time_upper e) = getMonthTimestamps tz year month.

Definition settlementPath : list string :=
  ["data"; "finance_report_stat"; "total_settlement"; "format_with_symbol"].

(** [fetchMonth(year, month)] *)
Definition fetchMonth {S} (env : FetchEnv) (seller oec : string) (year month : Z)
    : M S MonthEntry :=
  let '(lower, upper) := getMonthTimestamps (timeZone env) year month in
  try_catch
    (response ← call (EvMonthApi oec seller lower upper) (monthApi env lower upper);
     mret {| date_time_lower := lower; date_time_upper := upper;
             settlement := or_default (path settlementPath response) "$0" |})
    (λ _, mret {| date_time_lower := lower; date_time_upper := upper;
                  settlement := JStr "Error" |}).

(** The part after the profile was stopped: the direct data client. *)
Definition directClient {S} (env : FetchEnv) (seller oec : string)
    : M S TikTokFinanceResult :=
  finance ← call (EvStatApi oec seller) (statApi env);
  let onHold :=
    or_default (path ["data"; "to_settle_amount_stat"; "amount"; "format_with_symbol"]
                     finance) "N/A" in
  payment ← try_catch (d ← call (EvPaymentApi oec seller) (paymentApi env); mret (Some d))
                      (λ _, mret None);
  let sum :=
    match payment with
    | Some d => or_default (path ["data"; "sum_amount"; "format_with_symbol"] d) "N/A"
    | None => JStr "N/A"
    end in
  let currentYear := getFullYear (timeZone env) (now env) in
  let currentMonth := getMonth (timeZone env) (now env) in
  let prevYear := currentYear - 1 in
  lastYear ← mapM (fetchMonth env seller oec prevYear) (seqZ 0 12);
  thisYear ← mapM (fetchMonth env seller oec currentYear) (seqZ 0 (currentMonth + 1));
  let months := lastYear ++ thisYear in
  mret {| result_sellerId := seller; result_oecSellerId := oec;
          financeData := finance; paymentData := payment;
          monthlyData := months;
          summary := {| onHoldAmount := onHold; sumAmount := sum; monthly := months |} |}.

Definition fetchTikTokDataFast_body (env : FetchEnv) (debugPort : Z) (profileId : string)
    : M Locals TikTokFinanceResult :=
  try_catch (extract env debugPort) (cleanup env);;
  attempt (call (EvStop profileId) (stopAnswer env));;
  l ← get;
  if is_empty (l_sellerId l) || (length (cookies l) =? 0)%nat then
    if negb (is_empty (lastNetworkError l))
    then throw (mkError (lastNetworkError l))
    else throw (mkError extractionFailed)
  else directClient env (l_sellerId l) (l_oecSellerId l).

(** [fetchTikTokDataFast(debugPort, profileId)] *)
Definition fetchTikTokDataFast {S} (env : FetchEnv) (debugPort : Z) (profileId : string)
    : M S TikTokFinanceResult :=
  invoke (fetchTikTokDataFast_body env debugPort profileId) initial.

End Fast.

(** ** Login automaton (tiktok-login.ts, [loginTikTokSeller]) *)

Module TiktokLogin.
Import JsString Effects.

Record LoginCredentials : Type := {
  email : string;
  password : string;
  twoFactorSecret : option string           (* [None] is [undefined] *)
}.

Record LoginResult : Type := {
  success : bool;
  message : string;
  requires2FA : option bool                 (* [None]: the field is absent *)
}.

(** The answers of the browser and of the TOTP service to one login.
    [browser.disconnect()] only closes the local transport; it is a call
    that returns. *)
Record LoginEnv : Type := {
  connect : outcome unit;
  pages : outcome nat;                      (* number of open pages *)
  newPage : outcome unit;
  goto : outcome unit;
  urlAfterNavigate : string;
  waitEmailInput : outcome unit;
  urlAfterWait : string;
  clearInputs : outcome unit;
  typeEmail : outcome unit;
  pauseAfterEmail : Z;                      (* 500 + Math.random() * 500 *)
  typePassword : outcome unit;
  pauseBeforeSubmit : Z;
  queryButton : string → outcome bool;      (* page.$(selector) found a button *)
  clickButton : string → outcome unit;
  pressEnter : outcome unit;
  waitTwoFactorInput : outcome unit;
  totp : outcome (option string);           (* response.data?.token *)
  clickTwoFactorInput : outcome unit;
  typeCode : outcome unit;
  querySubmit : outcome bool;
  clickSubmit : outcome unit;
  pressEnterTwoFactor : outcome unit;
  waitRedirect : outcome unit;
  urlAfterTwoFactor : string;
  urlFinal : string;
  errorText : outcome (option string)       (* text of the error element, if any *)
}.

Definition dq : string := String "034"%char EmptyString.

Definition submitSelector : string :=
  "button[data-tid=" +:+ dq +:+ "m4b_button" +:+ dq +:+ "][type=" +:+ dq +:+ "submit" +:+ dq +:+ "]".

Definition loginButtonSelectors : list string :=
  [ submitSelector;
    "button[data-uid^=" +:+ dq +:+ "loginform:redbutton" +:+ dq +:+ "]";
    "button.RedButton-Hx7b_O[type=" +:+ dq +:+ "submit" +:+ dq +:+ "]";
    "form button[type=" +:+ dq +:+ "submit" +:+ dq +:+ "]" ].

Definition twoFAInputSelector : string := "#two_step_verification_totp_code_input".

Definition truthy (s : option string) : bool :=
  match s with Some x => negb (is_empty x) | None => false end.

(** [get2FACode(secret)] *)
Definition get2FACode {S} (env : LoginEnv) (secret : string) : M S (option string) :=
  try_catch
    (code ← call (EvTotp secret) (totp env);
     if truthy code then mret code else mret None)
    (λ _, mret None).

(** The loop over [loginButtonSelectors]; its value is [clicked]. *)
Fixpoint clickLoginButton {S} (env : LoginEnv) (selectors : list string) : M S bool :=
  match selectors with
  | [] => mret false
  | selector :: rest =>
      clicked ← try_catch
        (button ← call (EvQuery selector) (queryButton env selector);
         if button : bool
         then call (EvClick selector) (clickButton env selector);; mret true
         else mret false)
        (λ _, mret false);
      if clicked : bool then mret true else clickLoginButton env rest
  end.

Definition ok (msg : string) : LoginResult :=
  {| success := true; message := msg; requires2FA := None |}.
Definition failed (msg : string) : LoginResult :=
  {| success := false; message := msg; requires2FA := None |}.
Definition pending (msg : string) : LoginResult :=
  {| success := true; message := msg; requires2FA := Some true |}.

(** The TOTP service gives no code: the request fails, or the answer has
    no token. *)
Definition noCode (env : LoginEnv) : Prop :=
  match totp env with
  | Ok code => truthy code = false
  | Throw _ => True
  end.

(** The inner [try] that enters and submits the TOTP code. *)
Definition submitCode {S} (env : LoginEnv) (code : string) : M S LoginResult :=
  try_catch
    (emit (EvSleep 500);;
     call (EvClick twoFAInputSelector) (clickTwoFactorInput env);;
     emit (EvSleep 300);;
     call (EvType twoFAInputSelector code) (typeCode env);;
     emit (EvSleep 500);;
     submitBtn ← call (EvQuery submitSelector) (querySubmit env);
     (if submitBtn : bool
      then call (EvClick submitSelector) (clickSubmit env)
      else call EvPressEnter (pressEnterTwoFactor env));;
     redirected ← try_catch (call EvWaitRedirect (waitRedirect env);; mret true)
                            (λ _, mret false);
     if redirected : bool then
       emit EvDisconnect;; mret (ok "Login successful with 2FA!")
     else
       let newUrl := urlAfterTwoFactor env in
       if includes newUrl "homepage" || includes newUrl "dashboard" then
         emit EvDisconnect;; mret (ok "Login successful with 2FA!")
       else
         emit EvDisconnect;; mret (pending "2FA submitted - verifying in browser..."))
    (λ e, emit EvDisconnect;;
          mret (failed ("2FA error: " +:+ Effects.message e))).

(** From the start to the press of the login button.  [Some r] is an
    early [return r]. *)
Definition openAndSubmit (env : LoginEnv) (debugPort : Z) (credentials : LoginCredentials)
    : M bool (option LoginResult) :=
  call (EvConnect debugPort) (connect env);;
  modify (λ _, true);;
  n ← call EvPages (pages env);
  (if (0 <? n)%nat then mret tt else call EvNewPage (newPage env));;
  call (EvGoto "https://seller-us.tiktok.com/account/login") (goto env);;
  emit (EvSleep 3000);;
  let afterNavigateUrl := urlAfterNavigate env in
  if includes afterNavigateUrl "homepage" || includes afterNavigateUrl "dashboard" ||
     (includes afterNavigateUrl "seller-us.tiktok.com" && includes afterNavigateUrl "setup=")
  then emit EvDisconnect;; mret (Some (ok "Already logged in!"))
  else
    early ← try_catch
      (call (EvWaitSelector "#email_input") (waitEmailInput env);; mret None)
      (λ _, let currentUrl := urlAfterWait env in
            if includes currentUrl "homepage" || includes currentUrl "dashboard" ||
               includes currentUrl "setup="
            then emit EvDisconnect;; mret (Some (ok "Already logged in!"))
            else throw (mkError "Login form not found and not logged in"));
    match early with
    | Some r => mret (Some r)
    | None =>
        emit (EvSleep 1000);;
        call EvEvaluate (clearInputs env);;
        call (EvType "#email_input" (email credentials)) (typeEmail env);;
        emit (EvSleep (pauseAfterEmail env));;
        call (EvType "#email_password_input" (password credentials)) (typePassword env);;
        emit (EvSleep (pauseBeforeSubmit env));;
        clicked ← clickLoginButton env loginButtonSelectors;
        (if clicked : bool then mret tt else call EvPressEnter (pressEnter env));;
        mret None
    end.

(** From the wait for the two-factor input to the result. *)
Definition afterSubmit (env : LoginEnv) (credentials : LoginCredentials)
    : M bool LoginResult :=
  twoFAInput ← try_catch
    (call (EvWaitSelector twoFAInputSelector) (waitTwoFactorInput env);; mret true)
    (λ _, mret false);
  if twoFAInput : bool then
    emit EvTwoFactorForm;;
    done ← match twoFactorSecret credentials with
           | Some secret =>
               if negb (is_empty secret) then
                 code ← get2FACode env secret;
                 match code with
                 | Some c => r ← submitCode env c; mret (Some r)
                 | None => mret None
                 end
               else mret None
           | None => mret None
           end;
    match done with
    | Some r => mret r
    | None =>
        emit EvDisconnect;;
        mret (pending "2FA required - please enter code manually")
    end
  else
    let currentUrl := urlFinal env in
    if includes currentUrl "homepage" || includes currentUrl "dashboard" ||
       includes currentUrl "seller-us.tiktok.com/homepage"
    then emit EvDisconnect;; mret (ok "Login successful!")
    else if includes currentUrl "login" then
      errorMsg ← call EvEvaluate (errorText env);
      emit EvDisconnect;;
      (if truthy errorMsg
       then mret (failed ("Login failed: " +:+ default "" errorMsg))
       else mret (failed "Login failed - still on login page"))
    else
      emit EvDisconnect;; mret (ok "Login submitted - check browser for result").

Definition loginFlow (env : LoginEnv) (debugPort : Z) (credentials : LoginCredentials)
    : M bool LoginResult :=
  try_catch
    (early ← openAndSubmit env debugPort credentials;
     match early with
     | Some r => mret r
     | None => afterSubmit env credentials
     end)
    (λ e, browser ← get;
          (if browser : bool then emit EvDisconnect else mret tt);;
          mret (failed (Effects.message e))).

(** [loginTikTokSeller(debugPort, credentials)] *)
Definition loginTikTokSeller {S} (env : LoginEnv) (debugPort : Z)
    (credentials : LoginCredentials) : M S LoginResult :=
  invoke (loginFlow env debugPort credentials) false.

End TiktokLogin.

(** ** Window slot allocator (main.ts, lines 12-29) *)

Module WindowSlots.

(** [const MAX_WINDOWS = 5] *)
Definition MAX_WINDOWS : nat := 5.

(** The body of [for (let i = 0; i < MAX_WINDOWS; i++)]: [i] is the loop
    counter, [n] the number of iterations that remain.  [Some i] is the
    [return i] inside the loop, [None] is leaving the loop. *)
Fixpoint scan (usedWindowPositions : gset Z) (i : Z) (n : nat) : option Z :=
  match n with
  | O => None
  | S n' =>
      if decide (i ∈ usedWindowPositions) then scan usedWindowPositions (i + 1) n'
      else Some i
  end.

(** [getNextWindowPosition()]: the returned index and the set afterwards. *)
Definition getNextWindowPosition (usedWindowPositions : gset Z) : Z * gset Z :=
  match scan usedWindowPositions 0 MAX_WINDOWS with
  | Some i => (i, {[i]} ∪ usedWindowPositions)
  | None => (0, usedWindowPositions)
  end.

(** [releaseWindowPosition(index)] *)
Definition releaseWindowPosition (index : Z) (usedWindowPositions : gset Z) : gset Z :=
  usedWindowPositions ∖ {[index]}.

(** The allocator together with its clients: [used] is the global set of
    the code, [held] lists the slots that in-flight logins currently hold
    (one entry per acquisition that has not been released yet). *)
Record alloc : Type := Alloc { used : gset Z; held : list Z }.

Definition init : alloc := Alloc ∅ [].

Inductive op : Type :=
| Acquire
| Release (index : Z).

(** Removes one acquisition of [s] from the list of held slots. *)
Fixpoint drop_one (s : Z) (l : list Z) : list Z :=
  match l with
  | [] => []
  | x :: l' => if decide (x = s) then l' else x :: drop_one s l'
  end.

Definition step (st : alloc) (o : op) : alloc :=
  match o with
  | Acquire =>
      let '(s, u) := getNextWindowPosition (used st) in
      Alloc u (s :: held st)
  | Release s =>
      Alloc (releaseWindowPosition s (used st)) (drop_one s (held st))
  end.

Definition run (st : alloc) (ops : list op) : alloc := fold_left step ops st.

(** At most [MAX_WINDOWS] acquisitions are held at any time: every
    [Acquire] of the sequence starts with fewer than [MAX_WINDOWS] held. *)
Fixpoint within_capacity (st : alloc) (ops : list op) : bool :=
  match ops with
  | [] => true
  | o :: ops' =>
      match o with
      | Acquire => bool_decide ((length (held st) < MAX_WINDOWS)%nat)
      | Release _ => true
      end && within_capacity (step st o) ops'
  end.

(** The slots of the grid, as a set. *)
Definition grid : gset Z := list_to_set (map Z.of_nat (seq 0 MAX_WINDOWS)).

(** The invariant of disciplined use: the set of the code is exactly the
    set of held slots, nobody holds a slot twice, all slots are on the grid. *)
Definition consistent (st : alloc) : Prop :=
  NoDup (held st) ∧ used st = list_to_set (held st) ∧ used st ⊆ grid.

End WindowSlots.

(** ** The handlers of main.ts: batch orchestrator and single-profile login *)

Module Handlers.
Import JsString Json Effects.

(** Body of a successful answer to [POST /profiles/start/{id}]:
    [data.code], [data.data.success], [data.data.port]. *)
Record StartProfileData : Type := { code : Z; started : bool; port : Z }.

(** The answers of the control plane to one start of a profile:
    [statusPort] is [data?.data?.port] of the status answer. *)
Record StartEnv : Type := {
  startAnswer : outcome StartProfileData;
  statusAnswer : outcome (option Z)
}.

(** "Start the profile, handling 409 and 400", as all handlers have it;
    they differ in the texts of their errors.  [None]: the control plane
    answered 400 and the handler returns its own result. *)
Definition startProfile {S} (env : StartEnv) (profileId : string)
    (startFailed noPort conflict : string) : M S (option Z) :=
  try_catch
    (response ← call (EvStart profileId) (startAnswer env);
     if negb (code response =? 1) || negb (started response)
     then throw (mkError startFailed)
     else emit (EvStarted profileId (port response));; mret (Some (port response)))
    (λ startError,
       let statusCode := status startError in
       if decide (statusCode = Some 409) then
         try_catch
           (statusPort ← call (EvStatus profileId) (statusAnswer env);
            match statusPort with
            | Some p =>
                if negb (p =? 0)
                then emit (EvStarted profileId p);; mret (Some p)
                else throw (mkError noPort)
            | None => throw (mkError noPort)
            end)
           (λ _, throw (mkError conflict))
       else if decide (statusCode = Some 400) then mret None
       else throw startError).

(** *** [batch-fetch-tiktok] *)

Record BatchRecord : Type := {
  profileId : string;
  success : bool;
  sellerId : option string;
  onHoldAmount : option json;
  sumAmount : option json;
  monthlyData : option (list Fast.MonthEntry);
  message : string
}.

Definition failure (id msg : string) : BatchRecord :=
  {| profileId := id; success := false; sellerId := None; onHoldAmount := None;
     sumAmount := None; monthlyData := None; message := msg |}.

Definition skippedMessage : string := "⚠ Skipped - Profile in use by another user".

(** The answers of the outside world to one attempt of [processProfile]. *)
Record AttemptEnv : Type := {
  start : StartEnv;
  fetch : Fast.FetchEnv;
  cleanupStop : outcome unit      (* the stop request of the [catch] block *)
}.

Definition CHUNK_SIZE : nat := 3.
Definition MAX_RETRIES : nat := 1.

(** The same answers, with other answers to the two stop requests. *)
Definition with_stops (a b : outcome unit) (env : AttemptEnv) : AttemptEnv :=
  {| start := start env; fetch := Fast.with_stopAnswer a (fetch env);
     cleanupStop := b |}.

(** The [try] block of [processProfile]. *)
Definition processProfile_try (env : AttemptEnv) (id : string) : M unit BatchRecord :=
  p ← startProfile (start env) id "Start failed"
        "Profile running but no port available"
        "Profile conflict (409) - could not get port";
  match p with
  | None => mret (failure id skippedMessage)
  | Some debugPort =>
      emit (EvSleep 3000);;
      tiktokData ← Fast.fetchTikTokDataFast (fetch env) debugPort id;
      mret {| profileId := id; success := true;
              sellerId := Some (Fast.result_sellerId tiktokData);
              onHoldAmount :=
                Some (or_default (Some (Fast.onHoldAmount (Fast.summary tiktokData))) "N/A");
              sumAmount :=
                Some (or_default (Some (Fast.sumAmount (Fast.summary tiktokData))) "N/A");
              monthlyData := Some (Fast.monthly (Fast.summary tiktokData));
              message := "Data retrieval successful" |}
  end.

(** The start step of an attempt obtains a debug port. *)
Definition obtainsPort (env : AttemptEnv) (id : string) : Prop :=
  ∃ debugPort,
    result_of (startProfile (S:=unit) (start env) id "Start failed"
                 "Profile running but no port available"
                 "Profile conflict (409) - could not get port" tt)
    = Ok (Some debugPort).

(** The test that keeps an error from being retried. *)
Definition notRetried (msg : string) : bool :=
  includes msg "Skipped" || includes msg "in use".

(** The stop request of the [catch] block; its failure is ignored. *)
Definition stopAfterError (env : AttemptEnv) (id : string) : list event :=
  trace_of (attempt (call (EvStop id) (cleanupStop env)) tt).

(** [processProfile(profileId, index, retryCount)]: the calls made and the
    record returned.  [env k] holds the answers to attempt number [k]. *)
Equations processProfile (env : nat → AttemptEnv) (id : string) (index : nat)
    (retryCount : nat) : list event * BatchRecord
    by wf (MAX_RETRIES - retryCount)%nat lt :=
  processProfile env id index retryCount
    with processProfile_try (env retryCount) id tt := {
    | (_, t, Ok r) => (t, r);
    | (_, t, Throw e) with notRetried (Effects.message e) := {
        | true => (t ++ stopAfterError (env retryCount) id,
                   failure id (Effects.message e));
        | false with decide (retryCount < MAX_RETRIES)%nat := {
            | left _ with processProfile env id index (S retryCount) := {
                | (t', r) =>
                    (t ++ stopAfterError (env retryCount) id ++ [EvSleep 5000] ++ t', r) };
            | right _ => (t ++ stopAfterError (env retryCount) id,
                          failure id (Effects.message e)) } } }.
Next Obligation. lia. Qed.

(** [Promise.all]: every promise stores its value at its own index when
    it settles; the array is handed over once all have settled.
    [completion] lists the indices in the order in which the promises
    settle.  [None]: some promise never settles. *)
Definition settle {A} (jobs : list A) (values : list (option A)) (k : nat)
    : list (option A) :=
  match jobs !! k with
  | Some r => <[k := Some r]> values
  | None => values
  end.

Definition promise_all {A} (jobs : list A) (completion : list nat) : option (list A) :=
  mapM id (fold_left (settle jobs) completion (replicate (length jobs) None)).

Definition chunkLabel (i : nat) : string :=
  "Chunk " +:+ pretty (Z.of_nat (i / CHUNK_SIZE) + 1) +:+ " running...".

Definition progressOf (current total : nat) (r : BatchRecord) : event :=
  EvProgress (Z.of_nat current) (Z.of_nat total) (profileId r)
             (if success r then "success" else "error").

(** The loop [for (let i = 0; i < profileIds.length; i += CHUNK_SIZE)].
    [env j] holds the answers to the job of the profile at position [j];
    [completion i] is the order in which the jobs of the chunk that starts
    at [i] finish.  The result is the [results] array and the progress
    messages sent. *)
Equations batchLoop (env : nat → nat → AttemptEnv) (completion : nat → list nat)
    (profileIds : list string) (i : nat) (results : list BatchRecord)
    (sent : list event) : option (list BatchRecord * list event)
    by wf (length profileIds - i)%nat lt :=
  batchLoop env completion profileIds i results sent
    with decide (i < length profileIds)%nat := {
    | right _ => Some (results, sent);
    | left _
        with promise_all
               (imap (λ idx id, (processProfile (env (i + idx)%nat) id (i + idx) 0).2)
                     (take CHUNK_SIZE (drop i profileIds)))
               (completion i) := {
        | None => None;
        | Some chunkResults =>
            batchLoop env completion profileIds (i + CHUNK_SIZE)
              (results ++ chunkResults)
              (sent ++ [EvProgress (Z.of_nat i) (Z.of_nat (length profileIds))
                                   (chunkLabel i) "running"]
                    ++ map (progressOf (length (results ++ chunkResults))
                                       (length profileIds)) chunkResults
                    ++ (if decide (i + CHUNK_SIZE < length profileIds)%nat
                        then [EvSleep 2000] else [])) } }.
Next Obligation. unfold CHUNK_SIZE. lia. Qed.

(** [ipcMain.handle('batch-fetch-tiktok', ...)]: the [results] of the
    returned [{ success: true, results }]. *)
Definition batch_fetch_tiktok (env : nat → nat → AttemptEnv) (completion : nat → list nat)
    (profileIds : list string) : option (list BatchRecord * list event) :=
  batchLoop env completion profileIds 0 [] [].

(** *** [login-tiktok] *)

Record LoginJobEnv : Type := {
  loginStart : StartEnv;
  login : TiktokLogin.LoginEnv
}.

(** [try { m } finally { release }] *)
Definition try_finally {S A} (m : M S A) (release : M S unit) : M S A := λ s,
  match m s with
  | (s1, t1, r) =>
      match release s1 with
      | (s2, t2, Ok _) => (s2, t1 ++ t2, r)
      | (s2, t2, Throw e) => (s2, t1 ++ t2, Throw e)
      end
  end.

(** [ipcMain.handle('login-tiktok', ...)]; the local state is the global
    [usedWindowPositions]. *)
Definition login_tiktok (sessionCredentials : list CredentialsReader.ProfileCredentials)
    (env : LoginJobEnv) (id : string) (profileName : option string)
    : M (gset Z) TiktokLogin.LoginResult :=
  try_catch
    (let byName :=
       match profileName with
       | Some n =>
           if is_empty n then None
           else CredentialsReader.getCredentialsByProfileName sessionCredentials n
       | None => None
       end in
     let credentials :=
       match byName with
       | Some c => Some c
       | None => CredentialsReader.getCredentialsByProfileId sessionCredentials id
       end in
     match credentials with
     | None =>
         mret (TiktokLogin.failed
                 ("Missing credentials for profile "
                  +:+ (if TiktokLogin.truthy profileName then default "" profileName else id)
                  +:+ ". Please upload the Excel file containing this profile!"))
     | Some c =>
         p ← startProfile (loginStart env) id "Failed to start profile"
               "Could not get port from running profile"
               "Profile conflict - could not get port";
         match p with
         | None => mret (TiktokLogin.failed "Profile is in use by another user")
         | Some debugPort =>
             emit (EvSleep 3000);;
             usedWindowPositions ← get;
             let '(windowIndex, used') :=
               WindowSlots.getNextWindowPosition usedWindowPositions in
             modify (λ _, used');;
             try_finally
               (TiktokLogin.loginTikTokSeller (login env) debugPort
                  {| TiktokLogin.email := CredentialsReader.email c;
                     TiktokLogin.password := CredentialsReader.password c;
                     TiktokLogin.twoFactorSecret := CredentialsReader.twoFactorSecret c |})
               (modify (WindowSlots.releaseWindowPosition windowIndex))
         end
     end)
    (λ e, mret (TiktokLogin.failed (Effects.message e))).

End Handlers.

(** ** Concrete environments, used to run the model *)

Module Samples.
Import Json Effects.

Definition cookie : Fast.CookieData :=
  {| Fast.name := "sid_guard"; Fast.value := "abc"; Fast.domain := ".tiktok.com" |}.

Definition statBody : json :=
  JObj [("data", JObj [("to_settle_amount_stat",
          JObj [("amount", JObj [("format_with_symbol", JStr "$12.00")])])])].

Definition idleCycle (u : string) : Fast.PollCycle :=
  {| Fast.isClosed := false; Fast.currentUrl := Fast.Url u (Some []);
     Fast.pageData := Ok None;
     Fast.responsesDuringEvaluate := []; Fast.responsesDuringSleep := [] |}.

(** The page never shows a seller id: two idle rounds, then the deadline. *)
Definition fetch_nothing_found : Fast.FetchEnv :=
  {| Fast.connect := Ok tt; Fast.newPage := Ok tt; Fast.goto := Ok tt;
     Fast.responsesDuringNavigation := [];
     Fast.cycles := [idleCycle "https://seller-us.tiktok.com/account/login";
                     idleCycle "https://seller-us.tiktok.com/account/login"];
     Fast.cookiesAnswer := Ok [cookie]; Fast.pageClose := Ok tt;
     Fast.cleanupPageClose := Ok tt; Fast.stopAnswer := Ok tt;
     Fast.statApi := Ok statBody; Fast.paymentApi := Ok statBody;
     Fast.monthApi := λ _ _, Ok statBody;
     Fast.now := 1709279999999; Fast.timeZone := JsDate.fixedOffset (-28800000) |}.

(** No URL carries an identifier; the page state holds a [seller_id]. *)
Definition fetch_page_content : Fast.FetchEnv :=
  {| Fast.connect := Ok tt; Fast.newPage := Ok tt; Fast.goto := Ok tt;
     Fast.responsesDuringNavigation :=
       [Fast.Url "https://seller-us.tiktok.com/api/v1/seller/common/get?locale=en"
                 (Some [("locale", "en")])];
     Fast.cycles :=
       [ {| Fast.isClosed := false;
            Fast.currentUrl :=
              Fast.Url "https://seller-us.tiktok.com/finance/bills?lng=en"
                       (Some [("lng", "en")]);
            Fast.pageData := Ok (Some {| Fast.id := "7495"; Fast.src := "atlas-data" |});
            Fast.responsesDuringEvaluate := []; Fast.responsesDuringSleep := [] |} ];
     Fast.cookiesAnswer := Ok [cookie]; Fast.pageClose := Ok tt;
     Fast.cleanupPageClose := Ok tt; Fast.stopAnswer := Ok tt;
     Fast.statApi := Ok statBody; Fast.paymentApi := Ok statBody;
     Fast.monthApi := λ _ _, Ok statBody;
     Fast.now := 1709279999999; Fast.timeZone := JsDate.fixedOffset (-28800000) |}.

Definition page_content_run : unit * list event * outcome Fast.TikTokFinanceResult :=
  Fast.fetchTikTokDataFast fetch_page_content 9222 "p1" tt.

Definition emptyResult : Fast.TikTokFinanceResult :=
  {| Fast.result_sellerId := ""; Fast.result_oecSellerId := "";
     Fast.financeData := JNull; Fast.paymentData := None; Fast.monthlyData := [];
     Fast.summary := {| Fast.onHoldAmount := JNull; Fast.sumAmount := JNull;
                        Fast.monthly := [] |} |}.

Definition page_content_result : Fast.TikTokFinanceResult :=
  match page_content_run.2 with Ok r => r | Throw _ => emptyResult end.




Definition start_ok : Handlers.StartEnv :=
  {| Handlers.startAnswer :=
       Ok {| Handlers.code := 1; Handlers.started := true; Handlers.port := 9222 |};
     Handlers.statusAnswer := Ok None |}.

(** The control plane answers 400: the profile is in use by another user. *)
Definition start_denied : Handlers.StartEnv :=
  {| Handlers.startAnswer :=
       Throw (Error "Request failed with status code 400" (Some 400));
     Handlers.statusAnswer := Ok None |}.

(** The request fails without an HTTP answer, and the text of the error
    happens to contain "in use". *)
Definition start_socket_error : Handlers.StartEnv :=
  {| Handlers.startAnswer := Throw (Error "socket hang up: address in use" None);
     Handlers.statusAnswer := Ok None |}.

(** Nobody listens on the port of the control plane. *)
Definition start_refused : Handlers.StartEnv :=
  {| Handlers.startAnswer := Throw (Error "connect ECONNREFUSED 127.0.0.1:2268" None);
     Handlers.statusAnswer := Ok None |}.

Definition attempt_with (s : Handlers.StartEnv) (f : Fast.FetchEnv) : Handlers.AttemptEnv :=
  {| Handlers.start := s; Handlers.fetch := f; Handlers.cleanupStop := Ok tt |}.

(** Two factor input appears after the credentials were submitted. *)
Definition login_two_factor : TiktokLogin.LoginEnv :=
  {| TiktokLogin.connect := Ok tt; TiktokLogin.pages := Ok 1%nat;
     TiktokLogin.newPage := Ok tt; TiktokLogin.goto := Ok tt;
     TiktokLogin.urlAfterNavigate := "https://seller-us.tiktok.com/account/login";
     TiktokLogin.waitEmailInput := Ok tt;
     TiktokLogin.urlAfterWait := "https://seller-us.tiktok.com/account/login";
     TiktokLogin.clearInputs := Ok tt; TiktokLogin.typeEmail := Ok tt;
     TiktokLogin.pauseAfterEmail := 700; TiktokLogin.typePassword := Ok tt;
     TiktokLogin.pauseBeforeSubmit := 800;
     TiktokLogin.queryButton := λ _, Ok true;
     TiktokLogin.clickButton := λ _, Ok tt;
     TiktokLogin.pressEnter := Ok tt;
     TiktokLogin.waitTwoFactorInput := Ok tt;
     TiktokLogin.totp := Ok None;
     TiktokLogin.clickTwoFactorInput := Ok tt; TiktokLogin.typeCode := Ok tt;
     TiktokLogin.querySubmit := Ok true; TiktokLogin.clickSubmit := Ok tt;
     TiktokLogin.pressEnterTwoFactor := Ok tt; TiktokLogin.waitRedirect := Ok tt;
     TiktokLogin.urlAfterTwoFactor := "https://seller-us.tiktok.com/account/login";
     TiktokLogin.urlFinal := "https://seller-us.tiktok.com/account/login";
     TiktokLogin.errorText := Ok None |}.

Definition credentials_without_secret : TiktokLogin.LoginCredentials :=
  {| TiktokLogin.email := "a@x.com"; TiktokLogin.password := "pw1";
     TiktokLogin.twoFactorSecret := None |}.

Definition store : list CredentialsReader.ProfileCredentials :=
  [ {| CredentialsReader.profileId := "p1"; CredentialsReader.profileName := "Shop One";
       CredentialsReader.email := "a@x.com"; CredentialsReader.password := "pw1";
       CredentialsReader.twoFactorSecret := None |} ].

Definition login_job : Handlers.LoginJobEnv :=
  {| Handlers.loginStart := start_ok; Handlers.login := login_two_factor |}.

Definition rows : list CredentialsReader.row :=
  [ [("Profile ID", CredentialsReader.CStr " p1 "); ("Name", CredentialsReader.CStr "Shop One");
     ("Email", CredentialsReader.CStr "a@x.com"); ("Password", CredentialsReader.CStr "pw1")];
    [("id", CredentialsReader.CStr "p2"); ("name", CredentialsReader.CStr "Shop");
     ("password", CredentialsReader.CStr "pw2")];
    [("ID", CredentialsReader.CNum 42); ("profileName", CredentialsReader.CStr "Other");
     ("user", CredentialsReader.CStr "b@x.com"); ("pass", CredentialsReader.CStr "pw3");
     ("Two Factor Secret", CredentialsReader.CStr "ABCD")] ].


End Samples.


(** ** Kinds of calls, used to state what a function does and in which order *)

Module Calls.
Import Effects.

(** A call through the debugging connection of the browser. *)
Definition is_browser_call (e : event) : bool :=
  match e with
  | EvConnect _ | EvPages | EvNewPage | EvGoto _ | EvEvaluate | EvCookies
  | EvPageClose | EvDisconnect | EvWaitSelector _ | EvType _ _ | EvQuery _
  | EvClick _ | EvPressEnter | EvWaitRedirect => true
  | _ => false
  end.

Definition is_sleep (e : event) : bool :=
  match e with EvSleep _ => true | _ => false end.

(** A request of the direct data client. *)
Definition is_data_request (e : event) : bool :=
  match e with
  | EvStatApi _ _ | EvPaymentApi _ _ | EvMonthApi _ _ _ _ => true
  | _ => false
  end.

Definition is_disconnect (e : event) : bool :=
  match e with EvDisconnect => true | _ => false end.

Definition is_stop (e : event) : bool :=
  match e with EvStop _ => true | _ => false end.

Definition is_progress (e : event) : bool :=
  match e with EvProgress _ _ _ _ => true | _ => false end.

Definition count (p : event → bool) (t : list event) : nat :=
  length (List.filter p t).

(** A progress message about a profile that is done: its status is not
    "running". *)
Definition is_finished (e : event) : bool :=
  match e with
  | EvProgress _ _ _ status => negb (String.eqb status "running")
  | _ => false
  end.

(** The counter and the profile of a progress message. *)
Definition announced (e : event) : Z * string :=
  match e with
  | EvProgress current _ profileId _ => (current, profileId)
  | _ => (0, EmptyString)
  end.

(** [Some r] stands for an early [return r]. *)
Definition returns {A} (early : option A) : bool :=
  match early with Some _ => true | None => false end.

(** The calls end with the one [browser.disconnect()] that they hold. *)
Definition ends_disconnected (t : list event) : Prop :=
  ∃ t0, t = t0 ++ [EvDisconnect] ∧ Forall (λ e, is_disconnect e = false) t0.

(** A part of a function that holds the browser: it leaves the variables
    alone; when it returns a value that ends the function ([final]), its
    last call is the only [browser.disconnect()] it makes; when it returns
    another value or throws, it has made none. *)
Definition disconnects_on {S A} (final : A → bool) (m : M S A) : Prop :=
  ∀ s, locals_of (m s) = s ∧
       match result_of (m s) with
       | Ok a =>
           if final a then ends_disconnected (trace_of (m s))
           else Forall (λ e, is_disconnect e = false) (trace_of (m s))
       | Throw _ => Forall (λ e, is_disconnect e = false) (trace_of (m s))
       end.

End Calls.

(** ** What a login may type *)

Module Typing.
Import JsString Effects TiktokLogin.

(** The event is no typing, or it types the e-mail address into the
    e-mail input, or the password into the password input after the
    e-mail address was typed without a failure, or into the two-factor
    input the code that the TOTP service returned for a non-empty secret. *)
Definition typed_by (env : LoginEnv) (credentials : LoginCredentials) (e : event)
    : Prop :=
  ∀ selector text, e = EvType selector text →
    (selector = "#email_input" ∧ text = email credentials) ∨
    (selector = "#email_password_input" ∧ text = password credentials ∧
     typeEmail env = Ok tt) ∨
    (selector = twoFAInputSelector ∧ totp env = Ok (Some text) ∧
     ∃ secret, twoFactorSecret credentials = Some secret ∧ secret ≠ EmptyString).

(** The object that the login handler passes to [loginTikTokSeller]. *)
Definition credentialsOf (c : CredentialsReader.ProfileCredentials) : LoginCredentials :=
  {| email := CredentialsReader.email c;
     password := CredentialsReader.password c;
     twoFactorSecret := CredentialsReader.twoFactorSecret c |}.

(** The stored row that the login handler takes: by name first, then by
    identifier. *)
Definition chosen (sessionCredentials : list CredentialsReader.ProfileCredentials)
    (id : string) (profileName : option string)
    : option CredentialsReader.ProfileCredentials :=
  match
    match profileName with
    | Some n =>
        if is_empty n then None
        else CredentialsReader.getCredentialsByProfileName sessionCredentials n
    | None => None
    end
  with
  | Some c => Some c
  | None => CredentialsReader.getCredentialsByProfileId sessionCredentials id
  end.

End Typing.

(** ** Conditions on the answers of the outside world to a fetch *)

Module Session.
Import JsString Effects Fast.

(** The extraction obtains a session: the browser is reached, the page
    opens, a seller is found and the cookie jar is not empty. *)
Definition sessionObtained (env : FetchEnv) : Prop :=
  connect env = Ok tt ∧ newPage env = Ok tt ∧ goto env = Ok tt ∧
  ∃ info cs, foundSeller env = Some info ∧ sellerId info ≠ EmptyString ∧
             cookiesAnswer env = Ok cs ∧ cs ≠ [].

(** The extraction fails with [err] before a cookie is stored. *)
Definition extractionFailsWith (env : FetchEnv) (err : error) : Prop :=
  connect env = Throw err ∨
  (connect env = Ok tt ∧ newPage env = Throw err) ∨
  (connect env = Ok tt ∧ newPage env = Ok tt ∧ goto env = Throw err) ∨
  (connect env = Ok tt ∧ newPage env = Ok tt ∧ goto env = Ok tt ∧
   (∃ info, foundSeller env = Some info) ∧ cookiesAnswer env = Throw err).

(** An attempt of the batch job that goes through: a port is obtained,
    the extraction obtains a session, and the first request of the direct
    data client is answered. *)
Definition attemptSucceeds (env : Handlers.AttemptEnv) (id : string) : Prop :=
  Handlers.obtainsPort env id ∧ sessionObtained (Handlers.fetch env) ∧
  ∃ finance, statApi (Handlers.fetch env) = Ok finance.

(** An attempt of the batch job that ends with an error that is tried
    again. *)
Definition attemptFailsRetryably (env : Handlers.AttemptEnv) (id : string) : Prop :=
  ∃ err, result_of (Handlers.processProfile_try env id tt) = Throw err ∧
         Handlers.notRetried (Effects.message err) = false.

End Session.

(** ** [run-all-profiles] (main.ts, lines 716-769) *)

Module RunAllProfiles.
Import JsString Effects.

Record RunResult : Type := {
  id : string;
  success : bool;
  message : string;
  port : option Z                           (* [None]: the field is absent *)
}.

(** The answer of the control plane to the start request of one profile;
    [rejectionText] is [error.response?.data?.message] of the error with
    which the request fails. *)
Record RunEnv : Type := {
  startAnswer : outcome Handlers.StartProfileData;
  rejectionText : option string
}.

(** The [try]/[catch] of the loop body; its value is the entry pushed. *)
Definition startOne {S} (env : RunEnv) (profileId : string) : M S RunResult :=
  try_catch
    (response ← call (EvStart profileId) (startAnswer env);
     if (Handlers.code response =? 1) && Handlers.started response
     then mret {| id := profileId; success := true; message := "Thành công";
                  port := Some (Handlers.port response) |}
     else mret {| id := profileId; success := false; message := "Không thể khởi động";
                  port := None |})
    (λ error,
       mret {| id := profileId; success := false;
               message := if TiktokLogin.truthy (rejectionText env)
                          then default "" (rejectionText env)
                          else Effects.message error;
               port := None |}).

(** [for (let i = 0; i < profileIds.length; i++)], from position [i] on:
    [rest] holds the profiles from [i] on, [total] is [profileIds.length].
    The progress messages are those handed to the main window; handing
    one over is a call that returns. *)
Fixpoint loop {S} (env : nat → RunEnv) (delayMs : Z) (total i : nat)
    (rest : list string) (results : list RunResult) : M S (list RunResult) :=
  match rest with
  | [] => mret results
  | profileId :: rest' =>
      emit (EvProgress (Z.of_nat i + 1) (Z.of_nat total) profileId "running");;
      r ← startOne (env i) profileId;
      emit (EvProgress (Z.of_nat i + 1) (Z.of_nat total) profileId
                       (if success r then "success" else "error"));;
      (if Z.of_nat i <? Z.of_nat total - 1 then emit (EvSleep delayMs) else mret tt);;
      loop env delayMs total (i + 1)%nat rest' (results ++ [r])
  end.

(** The [results] of the returned [{ success: true, results }]. *)
Definition run_all_profiles {S} (env : nat → RunEnv) (profileIds : list string)
    (delayMs : Z) : M S (list RunResult) :=
  loop env delayMs (length profileIds) 0 profileIds [].

End RunAllProfiles.

(** ** [run-and-fetch-tiktok] (main.ts, lines 797-861) *)

Module RunAndFetch.
Import JsString Json Effects.

(** A value inside a template literal: [String(v)]; a number is an
    integer that JavaScript prints in full. *)
Fixpoint toString (v : json) : string :=
  match v with
  | JNull => "null"
  | JBool b => if b then "true" else "false"
  | JNum n => pretty n
  | JStr s => s
  | JArr items =>
      String.concat ","
        (List.map (λ x, match x with JNull => EmptyString | _ => toString x end) items)
  | JObj _ => "[object Object]"
  end.

Record AutoResult : Type := {
  success : bool;
  port : option Z;
  tiktokData : option Fast.TikTokFinanceResult;
  message : string
}.

Record AutoEnv : Type := {
  start : Handlers.StartEnv;
  fetch : Fast.FetchEnv
}.

Definition inUse : AutoResult :=
  {| success := false; port := None; tiktokData := None;
     message := "Profile is in use by another user" |}.

Definition run_and_fetch_tiktok {S} (env : AutoEnv) (profileId : string)
    : M S AutoResult :=
  try_catch
    (p ← Handlers.startProfile (start env) profileId "Start failed"
           "Profile running but no port available"
           "Profile conflict (409) - could not get port";
     match p with
     | None => mret inUse
     | Some debugPort =>
         emit (EvSleep 3000);;
         data ← Fast.fetchTikTokDataFast (fetch env) debugPort profileId;
         mret {| success := true; port := Some debugPort; tiktokData := Some data;
                 message := "Hoàn tất! On Hold: "
                            +:+ toString (Fast.onHoldAmount (Fast.summary data))
                            +:+ ", Paid: "
                            +:+ toString (Fast.sumAmount (Fast.summary data)) |}
     end)
    (λ error, mret {| success := false; port := None; tiktokData := None;
                      message := Effects.message error |}).

End RunAndFetch.

(** ** [batchLoginTikTok] (tiktok-login.ts) *)

Module BatchLogin.
Import Effects.

Record Profile : Type := {
  id : string;
  port : Z;
  credentials : TiktokLogin.LoginCredentials
}.

Record BatchLoginResult : Type := {
  profileId : string;
  success : bool;
  message : string
}.

Definition resultOf (profile : Profile) (result : TiktokLogin.LoginResult)
    : BatchLoginResult :=
  {| profileId := id profile; success := TiktokLogin.success result;
     message := TiktokLogin.message result |}.

(** [for (const profile of profiles)]; [env i] holds the answers to the
    login of the profile at position [i]. *)
Fixpoint loop {S} (env : nat → TiktokLogin.LoginEnv) (i : nat) (profiles : list Profile)
    (results : list BatchLoginResult) : M S (list BatchLoginResult) :=
  match profiles with
  | [] => mret results
  | profile :: rest =>
      result ← TiktokLogin.loginTikTokSeller (env i) (port profile) (credentials profile);
      emit (EvSleep 2000);;
      loop env (i + 1)%nat rest (results ++ [resultOf profile result])
  end.

Definition batchLoginTikTok {S} (env : nat → TiktokLogin.LoginEnv)
    (profiles : list Profile) : M S (list BatchLoginResult) :=
  loop env 0 profiles [].

End BatchLogin.

(** ** Fetch through the page (main.ts, [fetchTikTokFinanceData] and
     [fetch-tiktok-data]) *)

Module FinanceData.
Import JsString Json Effects.

(** The three fields that [fetchTikTokFinanceData] fills. *)
Record FinanceResult : Type := {
  sellerId : string;
  oecSellerId : string;
  financeData : json
}.

(** A response of the network as the listener reads it. *)
Record Response : Type := {
  url : Fast.url;
  contentType : option string;              (* response.headers()['content-type'] *)
  body : outcome json                       (* response.json() *)
}.

(** What the event loop runs for the listener: with [Arrives r] the
    listener is called with [r] and runs up to its [await]; with
    [Parsed r] the awaited [response.json()] has settled and the listener
    runs to its end. *)
Inductive step : Type :=
| Arrives (r : Response)
| Parsed (r : Response).

(** The variables that the listener and the timer share; [settled] holds
    the value with which the promise was resolved. *)
Record Vars : Type := {
  sellerInfo : option Fast.SellerInfo;
  financeApiData : option json;
  settled : option FinanceResult
}.

Definition initialVars : Vars :=
  {| sellerInfo := None; financeApiData := None; settled := None |}.

(** The first [if] of the listener. *)
Definition onArrival (v : Vars) (r : Response) : Vars :=
  match sellerInfo v with
  | Some _ => v
  | None =>
      if includes (Fast.href (url r)) "seller-us.tiktok.com" &&
         includes (Fast.href (url r)) "seller_id="
      then
        match Fast.extractSellerIdFromUrl (url r) with
        | Some extracted =>
            {| sellerInfo := Some extracted; financeApiData := financeApiData v;
               settled := settled v |}
        | None => v
        end
      else v
  end.

(** The tests that lead the listener to [await response.json()]. *)
Definition wantsBody (r : Response) : bool :=
  includes (Fast.href (url r)) "/api/v1/pay/statement/stat/info" &&
  includes (Fast.href (url r)) "amount_stat_type=1" &&
  includes (default "" (contentType r)) "application/json".

(** [resolve(value)]: a promise keeps its first value. *)
Definition resolve (value : FinanceResult) (v : Vars) : Vars :=
  match settled v with
  | Some _ => v
  | None =>
      {| sellerInfo := sellerInfo v; financeApiData := financeApiData v;
         settled := Some value |}
  end.

Definition amountPath : list string :=
  ["data"; "to_settle_amount_stat"; "amount"; "amount"].

(** The listener after its [await]. *)
Definition onParsed (v : Vars) (r : Response) : Vars :=
  if wantsBody r then
    match body r with
    | Ok jsonData =>
        match path amountPath jsonData with
        | Some _ =>
            let v' := {| sellerInfo := sellerInfo v; financeApiData := Some jsonData;
                         settled := settled v |} in
            match sellerInfo v with
            | Some info =>
                resolve {| sellerId := Fast.sellerId info;
                           oecSellerId := Fast.oecSellerId info;
                           financeData := jsonData |} v'
            | None => v'
            end
        | None => v
        end
    | Throw _ => v
    end
  else v.

Definition run (v : Vars) (st : step) : Vars :=
  match st with
  | Arrives r => onArrival v r
  | Parsed r => onParsed v r
  end.

Definition placeholder : json :=
  JObj [("message", JStr "Finance API not captured, but seller_id found")].

Definition timeoutMessage : string :=
  "Timeout: Could not extract seller_id from TikTok (30s)".

(** The callback of [setTimeout(..., 30000)]. *)
Definition onTimeout (v : Vars) : outcome FinanceResult :=
  match sellerInfo v with
  | Some info =>
      Ok {| sellerId := Fast.sellerId info; oecSellerId := Fast.oecSellerId info;
            financeData := match financeApiData v with
                           | Some j => if truthy j then j else placeholder
                           | None => placeholder
                           end |}
  | None => Throw (mkError timeoutMessage)
  end.

(** How [dataPromise] settles: [steps] is what the event loop runs for the
    listener before the timer is due; the timer fires unless the promise
    was resolved, and with it cleared, before. *)
Definition dataPromise (steps : list step) : outcome FinanceResult :=
  let v := fold_left run steps initialVars in
  match settled v with
  | Some value => Ok value
  | None => onTimeout v
  end.

(** A response from which the listener takes the seller. *)
Definition names_seller (r : Response) (info : Fast.SellerInfo) : Prop :=
  includes (Fast.href (url r)) "seller-us.tiktok.com" = true ∧
  includes (Fast.href (url r)) "seller_id=" = true ∧
  Fast.extractSellerIdFromUrl (url r) = Some info.

(** A response from which the listener takes the finance data. *)
Definition carries_finance (r : Response) (j : json) : Prop :=
  wantsBody r = true ∧ body r = Ok j ∧ path amountPath j ≠ None.

Record FinanceEnv : Type := {
  connect : outcome unit;
  newPage : outcome unit;
  goto : outcome unit;
  steps : list step;
  pageClose : outcome unit
}.

(** [fetchTikTokFinanceData(debugPort)]; its [catch] throws the error on. *)
Definition fetchTikTokFinanceData {S} (env : FinanceEnv) (debugPort : Z)
    : M S FinanceResult :=
  try_catch
    (call (EvConnect debugPort) (connect env);;
     call EvNewPage (newPage env);;
     call (EvGoto Fast.financeUrl) (goto env);;
     result ← match dataPromise (steps env) with
              | Ok value => mret value
              | Throw e => throw e
              end;
     call EvPageClose (pageClose env);;
     emit EvDisconnect;;
     mret result)
    (λ error, throw error).

Record FetchDataResult : Type := {
  success : bool;
  data : option FinanceResult;
  message : string
}.

(** [ipcMain.handle('fetch-tiktok-data', ...)] *)
Definition fetch_tiktok_data {S} (env : FinanceEnv) (debugPort : Z)
    : M S FetchDataResult :=
  try_catch
    (emit (EvSleep 2000);;
     data ← fetchTikTokFinanceData env debugPort;
     mret {| success := true; data := Some data;
             message := "Đã lấy dữ liệu TikTok thành công!" |})
    (λ error, mret {| success := false; data := None;
                      message := Effects.message error |}).

End FinanceData.

(** ** The session store under all its operations (credentials-reader.ts) *)

Module CredentialsSession.
Import Effects CredentialsReader.

(** [readAllCredentials()]: the [profiles] of the returned object. *)
Definition readAllCredentials (sessionCredentials : list ProfileCredentials)
    : list ProfileCredentials :=
  sessionCredentials.

(** [saveCredentials(credentials)]: the value returned and the store
    afterwards. *)
Definition saveCredentials (sessionCredentials : list ProfileCredentials)
    (credentials : ProfileCredentials) : bool * list ProfileCredentials :=
  (false, sessionCredentials).

(** [deleteCredentials(profileId)] *)
Definition deleteCredentials (sessionCredentials : list ProfileCredentials)
    (profileId : string) : bool * list ProfileCredentials :=
  (false, sessionCredentials).

(** A call of one of the functions that the module exports to change the
    store. *)
Inductive op : Type :=
| LoadFile (workbook : outcome (list row))
| LoadBuffer (workbook : outcome (list row))
| Save (credentials : ProfileCredentials)
| Delete (profileId : string).

Definition apply (sessionCredentials : list ProfileCredentials) (o : op)
    : list ProfileCredentials :=
  match o with
  | LoadFile workbook => (loadCredentialsFromExcel sessionCredentials workbook).2
  | LoadBuffer workbook => (loadCredentialsFromExcelBuffer sessionCredentials workbook).2
  | Save credentials => (saveCredentials sessionCredentials credentials).2
  | Delete profileId => (deleteCredentials sessionCredentials profileId).2
  end.

(** The store after a sequence of calls, from the empty store of the
    module's start. *)
Definition session (ops : list op) : list ProfileCredentials :=
  fold_left apply ops [].

(** The rows that a call brings, when it is a load of a workbook with at
    least one valid row. *)
Definition accepted (o : op) : option (list ProfileCredentials) :=
  match o with
  | LoadFile (Ok rawData) | LoadBuffer (Ok rawData) =>
      match omap parseRow rawData with
      | [] => None
      | profiles => Some profiles
      end
  | _ => None
  end.

End CredentialsSession.

(** ** More concrete environments *)

Module MoreSamples.
Import Json Effects.

(** The proxy of the profile is dead: the navigation fails. *)
Definition fetch_proxy_down : Fast.FetchEnv :=
  {| Fast.connect := Ok tt; Fast.newPage := Ok tt;
     Fast.goto :=
       Throw (mkError "net::ERR_PROXY_CONNECTION_FAILED at https://seller-us.tiktok.com/finance/bills");
     Fast.responsesDuringNavigation := []; Fast.cycles := [];
     Fast.cookiesAnswer := Ok [Samples.cookie]; Fast.pageClose := Ok tt;
     Fast.cleanupPageClose := Ok tt; Fast.stopAnswer := Ok tt;
     Fast.statApi := Ok Samples.statBody; Fast.paymentApi := Ok Samples.statBody;
     Fast.monthApi := λ _ _, Ok Samples.statBody;
     Fast.now := 1709279999999; Fast.timeZone := JsDate.fixedOffset (-28800000) |}.

Definition sellerUrl : Fast.url :=
  Fast.Url "https://seller-us.tiktok.com/api/v1/seller/info?seller_id=7495&oec_seller_id=7496"
           (Some [("seller_id", "7495"); ("oec_seller_id", "7496")]).

Definition statResponse : FinanceData.Response :=
  {| FinanceData.url :=
       Fast.Url "https://seller-us.tiktok.com/api/v1/pay/statement/stat/info?amount_stat_type=1"
                (Some [("amount_stat_type", "1")]);
     FinanceData.contentType := Some "application/json; charset=utf-8";
     FinanceData.body :=
       Ok (JObj [("data", JObj [("to_settle_amount_stat",
             JObj [("amount", JObj [("amount", JStr "12.00")])])])]) |}.

(** The finance data is parsed before a response names the seller: the
    promise is resolved by the timer. *)
Definition finance_late_seller : FinanceData.FinanceEnv :=
  {| FinanceData.connect := Ok tt; FinanceData.newPage := Ok tt;
     FinanceData.goto := Ok tt;
     FinanceData.steps :=
       [ FinanceData.Arrives statResponse;
         FinanceData.Parsed statResponse;
         FinanceData.Arrives
           {| FinanceData.url := sellerUrl; FinanceData.contentType := None;
              FinanceData.body := Throw (mkError "no body") |} ];
     FinanceData.pageClose := Ok tt |}.

(** No response names the seller. *)
Definition finance_no_seller : FinanceData.FinanceEnv :=
  {| FinanceData.connect := Ok tt; FinanceData.newPage := Ok tt;
     FinanceData.goto := Ok tt;
     FinanceData.steps :=
       [ FinanceData.Arrives statResponse; FinanceData.Parsed statResponse ];
     FinanceData.pageClose := Ok tt |}.

Definition rows_plain_headers : list CredentialsReader.row :=
  [ [("profileid", CredentialsReader.CStr " p1 "); ("name", CredentialsReader.CStr "Shop One");
     ("email", CredentialsReader.CStr "a@x.com"); ("password", CredentialsReader.CStr "pw1")] ].

Definition rows_decorated_headers : list CredentialsReader.row :=
  [ [("Profile ID", CredentialsReader.CStr " p1 "); (" NAME ", CredentialsReader.CStr "Shop One");
     ("E mail", CredentialsReader.CStr "a@x.com"); ("PassWord", CredentialsReader.CStr "pw1")] ].

End MoreSamples.
(* ===================================================================== *)
(** * Part II: properties                                                 *)
(* ===================================================================== *)

Section WindowSlotsFacts.
Import WindowSlots.

Lemma scan_some U i n s :
  scan U i n = Some s →
  (i ≤ s < i + Z.of_nat n) ∧ s ∉ U ∧ ∀ j, i ≤ j < s → j ∈ U.
Proof.
  revert i. induction n as [|n IH]; intros i; simpl; [done|].
  case_decide as Hi.
  - intros Hs. apply IH in Hs as (Hr & Hn & Hl).
    split; [lia|]. split; [done|].
    intros j Hj. destruct (decide (j = i)) as [->|]; [done|]. apply Hl. lia.
  - intros [= <-]. split; [lia|]. split; [done|]. intros j Hj. lia.
Qed.

Lemma scan_none U i n :
  scan U i n = None ↔ ∀ j, i ≤ j < i + Z.of_nat n → j ∈ U.
Proof.
  revert i. induction n as [|n IH]; intros i; simpl.
  - split; [intros _ j Hj; lia | done].
  - case_decide as Hi.
    + rewrite IH. split; intros H j Hj.
      * destruct (decide (j = i)) as [->|]; [done|]. apply H. lia.
      * apply H. lia.
    + split; [done|]. intros H. exfalso. apply Hi, H. lia.
Qed.

Lemma elem_of_grid j : j ∈ grid ↔ 0 ≤ j < Z.of_nat MAX_WINDOWS.
Proof.
  unfold grid. rewrite elem_of_list_to_set, list_elem_of_In, in_map_iff.
  split.
  - intros (k & <- & Hk). apply in_seq in Hk. lia.
  - intros Hj. exists (Z.to_nat j). split; [lia|]. apply in_seq. lia.
Qed.

Lemma size_grid : size grid = MAX_WINDOWS.
Proof. reflexivity. Qed.

Lemma drop_one_notin s l : s ∉ l → drop_one s l = l.
Proof.
  induction l as [|x l IH]; simpl; [done|].
  intros Hn. apply not_elem_of_cons in Hn as [Hx Hl].
  case_decide; [congruence|]. by rewrite IH.
Qed.

Lemma drop_one_NoDup s l :
  NoDup l → NoDup (drop_one s l) ∧
  (list_to_set (drop_one s l) : gset Z) = list_to_set l ∖ {[s]}.
Proof.
  induction 1 as [|x l Hx Hl IH]; simpl.
  - split; [constructor | set_solver].
  - case_decide as Hs.
    + subst x. split; [done|]. set_solver.
    + destruct IH as [IH1 IH2]. split.
      * constructor; [|done]. intros Hin. apply Hx.
        assert (x ∈ (list_to_set (drop_one s l) : gset Z)) as Hin'
          by by apply elem_of_list_to_set.
        rewrite IH2 in Hin'. set_solver.
      * simpl. rewrite IH2. set_solver.
Qed.

Lemma consistent_free st :
  consistent st → (length (held st) < MAX_WINDOWS)%nat →
  ∃ s, scan (used st) 0 MAX_WINDOWS = Some s.
Proof.
  intros (Hnd & Hu & Hg) Hlen.
  destruct (scan (used st) 0 MAX_WINDOWS) as [s|] eqn:Hs; [by exists s|].
  exfalso. rewrite scan_none in Hs.
  assert (grid ⊆ used st) as Hsub.
  { intros j Hj. apply Hs. apply elem_of_grid in Hj. lia. }
  apply subseteq_size in Hsub. rewrite size_grid in Hsub.
  rewrite Hu, size_list_to_set in Hsub by done. lia.
Qed.

Lemma step_consistent st o :
  consistent st → within_capacity st [o] = true → consistent (step st o).
Proof.
  intros Hc Hcap. destruct o as [|s]; simpl in *.
  - rewrite andb_true_r in Hcap. apply bool_decide_eq_true in Hcap.
    destruct (consistent_free st Hc Hcap) as [s Hs].
    unfold getNextWindowPosition. rewrite Hs. simpl.
    destruct Hc as (Hnd & Hu & Hg).
    apply scan_some in Hs as (Hr & Hn & _).
    split; [|split]; simpl.
    + constructor; [|done]. rewrite Hu in Hn. by rewrite elem_of_list_to_set in Hn.
    + by rewrite Hu.
    + apply union_subseteq. split; [|done].
      apply singleton_subseteq_l, elem_of_grid. lia.
  - destruct Hc as (Hnd & Hu & Hg).
    destruct (drop_one_NoDup s _ Hnd) as [H1 H2].
    split; [|split]; simpl; [done| |].
    + unfold releaseWindowPosition. by rewrite H2, Hu.
    + unfold releaseWindowPosition. set_solver.
Qed.

Lemma run_consistent ops : ∀ st,
  consistent st → within_capacity st ops = true → consistent (run st ops).
Proof.
  induction ops as [|o ops IH]; intros st Hc Hcap; simpl in *; [done|].
  apply andb_true_iff in Hcap as [H1 H2].
  apply IH; [|done]. apply step_consistent; [done|].
  simpl. by rewrite H1.
Qed.

Lemma init_consistent : consistent init.
Proof. split; [constructor|]. split; [done|]. set_solver. Qed.

(** C7.  Window slot allocator with MAX_WINDOWS = 5.  In every sequence of
    acquire and release operations that never has more than MAX_WINDOWS
    acquisitions held at once, no slot is held twice and the set of the
    code is exactly the set of held slots; the next acquire (when a slot
    is free) returns the lowest unused integer of [0, MAX_WINDOWS), which
    nobody holds.  When all slots are taken, acquire returns slot 0 and
    leaves the set as it is.  Release is idempotent, and releasing a slot
    that is not in the set changes nothing. *)
Theorem window_slots_exclusive (ops : list op) (U : gset Z) (index : Z) :
  within_capacity init ops = true →
  (let st := run init ops in
   NoDup (held st) ∧ used st = list_to_set (held st) ∧
   ((length (held st) < MAX_WINDOWS)%nat →
    ∃ s, getNextWindowPosition (used st) = (s, {[s]} ∪ used st) ∧
         (0 ≤ s < Z.of_nat MAX_WINDOWS) ∧ s ∉ used st ∧ s ∉ held st ∧
         ∀ j, 0 ≤ j < s → j ∈ used st)) ∧
  ((∀ j, 0 ≤ j < Z.of_nat MAX_WINDOWS → j ∈ U) → getNextWindowPosition U = (0, U)) ∧
  releaseWindowPosition index (releaseWindowPosition index U)
    = releaseWindowPosition index U ∧
  (index ∉ U → releaseWindowPosition index U = U).
Proof.
  intros Hcap. split; [|split; [|split]].
  - pose proof (run_consistent ops init init_consistent Hcap) as Hc.
    cbv zeta. destruct Hc as (Hnd & Hu & Hg).
    split; [done|]. split; [done|]. intros Hlen.
    destruct (consistent_free (run init ops)) as [s Hs]; [by repeat split|done|].
    exists s. unfold getNextWindowPosition. rewrite Hs.
    apply scan_some in Hs as (Hr & Hn & Hl).
    split; [done|]. split; [lia|]. split; [done|]. split.
    + rewrite Hu in Hn. by rewrite elem_of_list_to_set in Hn.
    + intros j Hj. apply Hl. lia.
  - intros Hall. unfold getNextWindowPosition.
    assert (scan U 0 MAX_WINDOWS = None) as ->; [|done].
    apply scan_none. intros j Hj. apply Hall. lia.
  - unfold releaseWindowPosition. set_solver.
  - unfold releaseWindowPosition. set_solver.
Qed.

Lemma window_slots_exclusive_witness :
  within_capacity init [Acquire; Acquire; Release 0; Acquire] = true ∧
  NoDup (held (run init [Acquire; Acquire; Release 0; Acquire])).
Proof.
  split; [vm_compute; reflexivity|].
  apply (window_slots_exclusive [Acquire; Acquire; Release 0; Acquire] ∅ 7).
  vm_compute; reflexivity.
Defined.

End WindowSlotsFacts.

(** ** Strings *)

Section JsStringFacts.
Import JsString.






Lemma is_space_toLowerChar c : Ascii.is_space (toLowerChar c) = Ascii.is_space c.
Proof. by destruct c as [[] [] [] [] [] [] [] []]. Qed.

Lemma toLowerCase_empty s : toLowerCase s = EmptyString ↔ s = EmptyString.
Proof. by destruct s. Qed.

Lemma trimStart_toLowerCase s : trimStart (toLowerCase s) = toLowerCase (trimStart s).
Proof.
  induction s as [|c s IH]; simpl; [done|].
  rewrite is_space_toLowerChar. by destruct (Ascii.is_space c).
Qed.

Lemma trimEnd_toLowerCase s : trimEnd (toLowerCase s) = toLowerCase (trimEnd s).
Proof.
  induction s as [|c s IH]; simpl; [done|].
  rewrite IH, is_space_toLowerChar.
  destruct (trimEnd s) as [|d r]; simpl; [|done].
  by destruct (Ascii.is_space c).
Qed.

Lemma trim_toLowerCase s : trim (toLowerCase s) = toLowerCase (trim s).
Proof. unfold trim. by rewrite trimStart_toLowerCase, trimEnd_toLowerCase. Qed.









End JsStringFacts.

(** ** Credential store *)

Section CredentialsFacts.
Import JsString CredentialsReader.



Lemma parse_success old rawData res store :
  parseExcelWorkbook old rawData = (res, store) →
  (success res = true →
     store = omap parseRow rawData ∧ store ≠ [] ∧
     count res = Z.of_nat (length store)) ∧
  (success res = false → store = old ∧ count res = 0).
Proof.
  unfold parseExcelWorkbook. destruct rawData as [|r rows].
  - intros [= <- <-]. split; done.
  - generalize (omap parseRow (r :: rows)). intros profiles.
    destruct (Z.ltb_spec 0 (Z.of_nat (length profiles))) as [Hlt|Hge];
      intros [= <- <-]; cbn [success count]; (split; [|done]).
    + intros _. split; [done|]. split; [|done].
      intros ->. simpl in Hlt. lia.
    + done.
Qed.


Lemma valid_cells r :
  Sheet.valid r = true ↔
  ∃ i e p, Sheet.pId r = Some i ∧ truthy i = true ∧
           Sheet.email r = Some e ∧ truthy e = true ∧
           Sheet.pass r = Some p ∧ truthy p = true.
Proof.
  unfold Sheet.valid, truthy_opt. split.
  - destruct (Sheet.pId r) as [i|], (Sheet.email r) as [e|], (Sheet.pass r) as [p|];
      simpl; rewrite ?andb_false_r; try done.
    intros [[Hi He]%andb_true_iff Hp]%andb_true_iff. by exists i, e, p.
  - intros (i & e & p & -> & Hi & -> & He & -> & Hp). by rewrite Hi, He, Hp.
Qed.



Lemma find_first_with {A} (f : A → bool) (l : list A) x :
  List.find f l = Some x ↔ Sheet.first_with (λ y, f y = true) l x.
Proof.
  unfold Sheet.first_with. induction l as [|a l IH]; simpl.
  - split; [done|]. intros (before & after & H & _). by destruct before.
  - destruct (f a) eqn:Ha.
    + split.
      * intros [= ->]. exists [], l. split; [done|]. split; [done|].
        by intros y ?%elem_of_nil.
      * intros ([|b before] & after & H & Hx & Hb).
        -- by injection H as -> _.
        -- injection H as -> _. destruct (Hb b); [by left|done].
    + rewrite IH. split.
      * intros (before & after & -> & Hx & Hb). exists (a :: before), after.
        split; [done|]. split; [done|].
        intros y [->|Hy]%elem_of_cons; [by rewrite Ha|by apply Hb].
      * intros ([|b before] & after & H & Hx & Hb).
        -- injection H as -> _. by rewrite Hx in Ha.
        -- injection H as -> ->. exists before, after. split; [done|]. split; [done|].
           intros y Hy. apply Hb. by right.
Qed.

Lemma find_none_iff {A} (f : A → bool) (l : list A) :
  List.find f l = None ↔ ∀ y, y ∈ l → f y = false.
Proof.
  induction l as [|a l IH]; simpl.
  - split; [by intros _ y ?%elem_of_nil|done].
  - destruct (f a) eqn:Ha.
    + split; [done|]. intros H. rewrite H in Ha; [done|by left].
    + rewrite IH. split.
      * intros H y [->|Hy]%elem_of_cons; [done|by apply H].
      * intros H y Hy. apply H. by right.
Qed.

Lemma first_with_ext {A} (P Q : A → Prop) l x :
  (∀ y, P y ↔ Q y) → Sheet.first_with P l x ↔ Sheet.first_with Q l x.
Proof.
  intros H. unfold Sheet.first_with.
  split; intros (before & after & -> & Hx & Hb); exists before, after;
    (split; [done|]); (split; [by apply H|]); intros y Hy Hq; by apply (Hb y Hy), H.
Qed.


(** Lookup by identifier: the first row whose identifier is the trimmed
    query. *)
Lemma lookup_by_id store q :
  (getCredentialsByProfileId store q = None ↔
     ∀ c, c ∈ store → profileId c ≠ trim q) ∧
  (∀ c, getCredentialsByProfileId store q = Some c ↔
     Sheet.first_with (λ x, profileId x = trim q) store c).
Proof.
  unfold getCredentialsByProfileId. cbv zeta. split.
  - rewrite find_none_iff. split; intros H c Hc; specialize (H c Hc).
    + by apply bool_decide_eq_false in H.
    + by apply bool_decide_eq_false.
  - intros c. rewrite find_first_with. apply first_with_ext.
    intros y. apply bool_decide_eq_true.
Qed.

(** Lookup by name: the first row whose name is the query up to letter
    case and surrounding blanks; nothing for the empty query. *)
Lemma lookup_by_name store q :
  (getCredentialsByProfileName store q = None ↔
     q = EmptyString ∨ ∀ c, c ∈ store → ¬ Sheet.same_name (profileName c) q) ∧
  (∀ c, getCredentialsByProfileName store q = Some c ↔
     q ≠ EmptyString ∧ Sheet.first_with (λ x, Sheet.same_name (profileName x) q) store c).
Proof.
  unfold getCredentialsByProfileName, Sheet.same_name.
  destruct q as [|a q]; cbn [is_empty].
  - split; [split; [by left|done]|]. intros c. split; [done|]. by intros [? _].
  - cbv zeta. split.
    + rewrite find_none_iff. split.
      * intros H. right. intros c Hc. specialize (H c Hc).
        by apply bool_decide_eq_false in H.
      * intros [H|H]; [done|]. intros c Hc. apply bool_decide_eq_false. by apply H.
    + intros c. rewrite find_first_with. split.
      * intros H. split; [done|]. revert H. apply first_with_ext.
        intros y. symmetry. apply bool_decide_eq_true.
      * intros [_ H]. revert H. apply first_with_ext.
        intros y. apply bool_decide_eq_true.
Qed.






(** C10.  A load that fails (the workbook cannot be read, the sheet has no
    rows, or no row has all of id, email and password) leaves the session
    store as it was, so every lookup by ID or by name answers as before;
    the store is replaced only when at least one valid row was parsed, and
    then by exactly the parsed rows. *)
Theorem failed_load_keeps_store
    (old : list ProfileCredentials) (workbook : Effects.outcome (list row)) :
  let '(res, store) := loadCredentialsFromExcelBuffer old workbook in
  let '(res', store') := loadCredentialsFromExcel old workbook in
  (success res = false ↔
     match workbook with
     | Effects.Throw _ => True
     | Effects.Ok rawData => rawData = [] ∨ omap parseRow rawData = []
     end) ∧
  (success res = false →
     store = old ∧
     (∀ id, getCredentialsByProfileId store id = getCredentialsByProfileId old id) ∧
     (∀ name, getCredentialsByProfileName store name
              = getCredentialsByProfileName old name)) ∧
  (success res = true →
     ∃ rawData, workbook = Effects.Ok rawData ∧
                store = omap parseRow rawData ∧ store ≠ []) ∧
  success res' = success res ∧ store' = store.
Proof.
  unfold loadCredentialsFromExcelBuffer, loadCredentialsFromExcel.
  destruct workbook as [rawData|e].
  - destruct (parseExcelWorkbook old rawData) as [res store] eqn:Hp.
    destruct (parse_success _ _ _ _ Hp) as [Hs Hf].
    split; [|split; [|split; [|done]]].
    + split.
      * intros Hfail. destruct rawData as [|r rows]; [by left|right].
        unfold parseExcelWorkbook in Hp.
        destruct (Z.ltb_spec 0 (Z.of_nat (length (omap parseRow (r :: rows)))))
          as [Hlt|Hge]; injection Hp as <- <-; [done|].
        apply length_zero_iff_nil. lia.
      * intros Hcase. destruct (success res) eqn:Hb; [|done].
        destruct (Hs eq_refl) as (Hst & Hne & _).
        destruct Hcase as [->|E]; [by subst store|]. by rewrite <- Hst in E.
    + intros Hfail. destruct (Hf Hfail) as [-> _]. done.
    + intros Hok. destruct (Hs Hok) as (Hst & Hne & _). by exists rawData.
  - simpl. split; [done|]. split; [done|]. split; [done|]. done.
Qed.

End CredentialsFacts.

(** ** Calendar arithmetic *)

Section JsDateFacts.
Import JsDate.

Ltac case_eqb :=
  repeat match goal with
         | |- context [ (?a =? ?b) ] => destruct (Z.eqb_spec a b)
         end.

Lemma DaysInYear_range y : 365 ≤ DaysInYear y ≤ 366.
Proof. unfold DaysInYear. case_eqb; simpl; lia. Qed.

Lemma DayFromYear_succ y : DayFromYear (y + 1) = DayFromYear y + DaysInYear y.
Proof.
  unfold DayFromYear, DaysInYear.
  case_eqb; simpl negb; cbv iota; Z.to_euclidean_division_equations; lia.
Qed.

(** [DayFromYear] stays within two days of the mean Gregorian year. *)
Lemma DayFromYear_approx y :
  -506 ≤ 400 * DayFromYear y - 146097 * (y - 1970) ≤ 589.
Proof. unfold DayFromYear. Z.to_euclidean_division_equations. lia. Qed.

Lemma DayFromYear_lt a b : a < b → DayFromYear a + 365 * (b - a) ≤ DayFromYear b.
Proof.
  intros H. revert b H.
  apply (Z.lt_ind (λ b, DayFromYear a + 365 * (b - a) ≤ DayFromYear b)).
  - intros ? ? ->; tauto.
  - unfold Z.succ. rewrite DayFromYear_succ. pose proof (DaysInYear_range a). lia.
  - intros m Hm IH. unfold Z.succ. rewrite DayFromYear_succ.
    pose proof (DaysInYear_range m). lia.
Qed.

(** [YearFromTime] is what ECMAScript asks for: the year whose first day
    is the last one not after the day of [t]. *)
Lemma YearFromTime_spec t :
  DayFromYear (YearFromTime t) ≤ Day t < DayFromYear (YearFromTime t + 1).
Proof.
  unfold YearFromTime. set (d := Day t). set (y := 1970 + 400 * d / 146097).
  cbv zeta.
  assert (146097 * (y - 1970) ≤ 400 * d < 146097 * (y - 1970) + 146097) as Hy.
  { subst y. Z.to_euclidean_division_equations. lia. }
  pose proof (DayFromYear_approx (y - 1)).
  pose proof (DayFromYear_approx (y + 1 + 1)).
  destruct (Z.leb_spec (DayFromYear (y + 1)) d).
  - lia.
  - destruct (Z.leb_spec (DayFromYear y) d).
    + lia.
    + replace (y - 1 + 1) with y by lia. lia.
Qed.

Lemma YearFromTime_unique t y :
  DayFromYear y ≤ Day t < DayFromYear (y + 1) → YearFromTime t = y.
Proof.
  intros Hy. pose proof (YearFromTime_spec t) as Hs.
  destruct (Z.lt_trichotomy (YearFromTime t) y) as [Hlt|[->|Hgt]]; [|reflexivity|].
  - destruct (Z.eq_dec (YearFromTime t + 1) y) as [E|E]; [rewrite E in Hs; lia|].
    pose proof (DayFromYear_lt (YearFromTime t + 1) y ltac:(lia)). lia.
  - destruct (Z.eq_dec (y + 1) (YearFromTime t)) as [E|E]; [rewrite E in Hy; lia|].
    pose proof (DayFromYear_lt (y + 1) (YearFromTime t) ltac:(lia)). lia.
Qed.

Lemma InLeapYearOf_days y : DaysInYear y = 365 + InLeapYearOf y.
Proof.
  unfold InLeapYearOf. pose proof (DaysInYear_range y).
  destruct (Z.eqb_spec (DaysInYear y) 365); lia.
Qed.

Lemma InLeapYearOf_range y : 0 ≤ InLeapYearOf y ≤ 1.
Proof. unfold InLeapYearOf. destruct (_ =? _); lia. Qed.

Lemma Day_MakeDate d tm :
  0 ≤ tm < msPerDay →
  Day (MakeDate d tm) = d ∧ TimeWithinDay (MakeDate d tm) = tm.
Proof.
  unfold Day, TimeWithinDay, MakeDate, msPerDay. intros.
  Z.to_euclidean_division_equations. lia.
Qed.

Ltac month_cases mn :=
  let Hc := fresh "Hc" in
  assert (mn = 0 ∨ mn = 1 ∨ mn = 2 ∨ mn = 3 ∨ mn = 4 ∨ mn = 5 ∨ mn = 6 ∨
          mn = 7 ∨ mn = 8 ∨ mn = 9 ∨ mn = 10 ∨ mn = 11) as Hc by lia;
  repeat (destruct Hc as [->|Hc]); try subst mn.

(** The calendar fields of day [date] of month [mn] of year [y], at
    [tm] milliseconds after midnight. *)
Lemma fields_MakeDate y mn date tm :
  0 ≤ mn ≤ 11 → 1 ≤ date ≤ DaysInMonth y mn → 0 ≤ tm < msPerDay →
  let t := MakeDate (DayFromYear y + monthStart mn (InLeapYearOf y) + date - 1) tm in
  YearFromTime t = y ∧ MonthFromTime t = mn ∧ DateFromTime t = date ∧
  TimeWithinDay t = tm.
Proof.
  intros Hm Hd Htm t.
  destruct (Day_MakeDate (DayFromYear y + monthStart mn (InLeapYearOf y) + date - 1)
                         tm Htm) as [HD HT].
  fold t in HD, HT. clearbody t.
  pose proof (InLeapYearOf_range y) as HL.
  pose proof (InLeapYearOf_days y) as HY.
  assert (YearFromTime t = y) as Hy.
  { apply YearFromTime_unique. rewrite HD, DayFromYear_succ, HY.
    unfold DaysInMonth, monthStart in *.
    month_cases mn; cbv iota beta in *; lia. }
  split; [exact Hy|].
  assert (DayWithinYear t = monthStart mn (InLeapYearOf y) + date - 1) as Hw.
  { unfold DayWithinYear. rewrite HD, Hy. lia. }
  assert (MonthFromTime t = mn) as HM.
  { unfold MonthFromTime. rewrite Hw. unfold InLeapYear. rewrite Hy.
    unfold DaysInMonth, monthStart in *. cbv zeta.
    month_cases mn; cbv iota beta in *;
      repeat match goal with
             | |- context [ (?a <? ?b) ] => destruct (Z.ltb_spec a b); try lia
             end. }
  split; [exact HM|]. split; [|exact HT].
  unfold DateFromTime. rewrite HM, Hw. unfold InLeapYear. rewrite Hy.
  clear HM Hw HD. unfold monthStart.
  month_cases mn; cbv zeta iota beta; lia.
Qed.

Lemma MakeDay_month y m date :
  0 ≤ m ≤ 11 →
  MakeDay y m date = DayFromYear y + monthStart m (InLeapYearOf y) + date - 1.
Proof.
  intros Hm. unfold MakeDay.
  rewrite (Z.div_small m 12), (Z.mod_small m 12) by lia.
  by rewrite Z.add_0_r.
Qed.

(** Day 0 of the next month is the last day of this month. *)
Lemma MakeDay_day0 y m :
  0 ≤ m ≤ 11 → MakeDay y (m + 1) 0 = MakeDay y m (DaysInMonth y m).
Proof.
  intros Hm. rewrite (MakeDay_month y m) by done.
  destruct (decide (m = 11)) as [->|Hne].
  - unfold MakeDay. change ((11 + 1) / 12) with 1. change ((11 + 1) mod 12) with 0.
    rewrite DayFromYear_succ, InLeapYearOf_days. simpl. lia.
  - rewrite MakeDay_month by lia.
    month_cases m; try done;
      match goal with
      | |- context [monthStart (?a + 1) _] =>
          let v := eval vm_compute in (a + 1) in change (a + 1) with v
      end;
      unfold DaysInMonth, monthStart; cbv iota beta; lia.
Qed.

(** The day after the last day of a month is day 1 of the next month. *)
Lemma next_month_start y m :
  0 ≤ m ≤ 11 →
  MakeDay y m (DaysInMonth y m) + 1 =
  if decide (m = 11) then MakeDay (y + 1) 0 1 else MakeDay y (m + 1) 1.
Proof.
  intros Hm. rewrite <- MakeDay_day0 by done.
  case_decide as Hd.
  - subst m. unfold MakeDay.
    change ((11 + 1) / 12) with 1. change ((11 + 1) mod 12) with 0.
    change (0 / 12) with 0. change (0 mod 12) with 0.
    unfold monthStart. rewrite !Z.add_0_r. lia.
  - rewrite !MakeDay_month by lia. lia.
Qed.

Lemma prev_month_end y m :
  0 ≤ m ≤ 11 →
  MakeDay y m 1 - 1 =
  MakeDay (prevMonth y m).1 (prevMonth y m).2
          (DaysInMonth (prevMonth y m).1 (prevMonth y m).2).
Proof.
  intros Hm. unfold prevMonth. case_decide as Hd; cbn [fst snd].
  - subst m. pose proof (next_month_start (y - 1) 11 ltac:(lia)) as H.
    rewrite decide_True in H by done.
    replace (y - 1 + 1) with y in H by lia. lia.
  - pose proof (next_month_start y (m - 1) ltac:(lia)) as H.
    rewrite decide_False in H by lia.
    replace (m - 1 + 1) with m in H by lia. lia.
Qed.

Lemma DaysInMonth_range y m : 28 ≤ DaysInMonth y m ≤ 31.
Proof.
  pose proof (InLeapYearOf_range y). unfold DaysInMonth.
  repeat case_match; lia.
Qed.

Lemma fields_MakeDay y m date tm :
  0 ≤ m ≤ 11 → 1 ≤ date ≤ DaysInMonth y m → 0 ≤ tm < msPerDay →
  let t := MakeDate (MakeDay y m date) tm in
  YearFromTime t = y ∧ MonthFromTime t = m ∧ DateFromTime t = date ∧
  TimeWithinDay t = tm.
Proof. intros Hm Hd Ht. rewrite MakeDay_month by done. by apply fields_MakeDate. Qed.

Lemma prevMonth_range y m :
  0 ≤ m ≤ 11 → 0 ≤ (prevMonth y m).2 ≤ 11 ∧ prevMonth y m ≠ (y, m).
Proof.
  intros Hm. unfold prevMonth. case_decide; simpl; (split; [lia|]); intros [= ]; lia.
Qed.

Lemma nextMonth_range y m :
  0 ≤ m ≤ 11 → 0 ≤ (nextMonth y m).2 ≤ 11 ∧ nextMonth y m ≠ (y, m).
Proof.
  intros Hm. unfold nextMonth. case_decide; simpl; (split; [lia|]); intros [= ]; lia.
Qed.

(** [monthLower y m] is the first instant of month [m] of year [y] on the
    UTC-8 clock: 00:00:00.000 of day 1, and one millisecond earlier the
    clock shows another month. *)
Lemma monthLower_first y m :
  0 ≤ m ≤ 11 →
  first_instant_of_month y m (monthLower y m) ∧
  DateFromTime (monthLower y m + utc_minus_8) = 1 ∧
  TimeWithinDay (monthLower y m + utc_minus_8) = 0.
Proof.
  intros Hm. pose proof (DaysInMonth_range y m) as Hr.
  destruct (fields_MakeDay y m 1 0 Hm ltac:(lia) ltac:(unfold msPerDay; lia))
    as (Hy & Hmo & Hd & Ht).
  unfold first_instant_of_month, in_month, monthLower.
  replace (MakeDate (MakeDay y m 1) 0 - utc_minus_8 + utc_minus_8)
    with (MakeDate (MakeDay y m 1) 0) by lia.
  split; [split; [done|]|done].
  replace (MakeDate (MakeDay y m 1) 0 - utc_minus_8 - 1 + utc_minus_8)
    with (MakeDate (MakeDay y m 1 - 1) (msPerDay - 1))
    by (unfold MakeDate, msPerDay; lia).
  rewrite prev_month_end by done.
  destruct (prevMonth_range y m Hm) as [Hp Hne].
  pose proof (DaysInMonth_range (prevMonth y m).1 (prevMonth y m).2) as Hr'.
  destruct (fields_MakeDay (prevMonth y m).1 (prevMonth y m).2
              (DaysInMonth (prevMonth y m).1 (prevMonth y m).2) (msPerDay - 1)
              Hp ltac:(lia) ltac:(unfold msPerDay; lia)) as (Hy' & Hm' & _).
  intros [E1 E2]. apply Hne. rewrite Hy' in E1. rewrite Hm' in E2.
  destruct (prevMonth y m); simpl in *; congruence.
Qed.

(** [monthUpper y m] is the last instant of that month on the UTC-8
    clock: 23:59:59.999 of its last day; the next millisecond is
    [monthLower] of the following month. *)
Lemma monthUpper_last y m :
  0 ≤ m ≤ 11 →
  last_instant_of_month y m (monthUpper y m) ∧
  DateFromTime (monthUpper y m + utc_minus_8) = DaysInMonth y m ∧
  TimeWithinDay (monthUpper y m + utc_minus_8) = MakeTime 23 59 59 999 ∧
  monthUpper y m + 1 = monthLower (nextMonth y m).1 (nextMonth y m).2.
Proof.
  intros Hm. pose proof (DaysInMonth_range y m) as Hr.
  destruct (fields_MakeDay y m (DaysInMonth y m) (msPerDay - 1) Hm ltac:(lia)
              ltac:(unfold msPerDay; lia)) as (Hy & Hmo & Hd & Ht).
  assert (monthUpper y m + 1 = monthLower (nextMonth y m).1 (nextMonth y m).2) as Hnext.
  { unfold monthUpper, monthLower, nextMonth.
    pose proof (next_month_start y m Hm) as H.
    case_decide; cbn [fst snd]; unfold MakeDate, msPerDay in *; lia. }
  unfold last_instant_of_month, in_month.
  split; [split|split; [|split; [|done]]].
  - unfold monthUpper.
    replace (MakeDate (MakeDay y m (DaysInMonth y m)) (msPerDay - 1)
             - utc_minus_8 + utc_minus_8)
      with (MakeDate (MakeDay y m (DaysInMonth y m)) (msPerDay - 1)) by lia.
    done.
  - rewrite Hnext.
    destruct (nextMonth_range y m Hm) as [Hp Hne].
    destruct (monthLower_first (nextMonth y m).1 (nextMonth y m).2 Hp)
      as [[[E1 E2] _] _].
    intros [E3 E4]. apply Hne.
    destruct (nextMonth y m); simpl in *; congruence.
  - unfold monthUpper.
    replace (MakeDate (MakeDay y m (DaysInMonth y m)) (msPerDay - 1)
             - utc_minus_8 + utc_minus_8)
      with (MakeDate (MakeDay y m (DaysInMonth y m)) (msPerDay - 1)) by lia.
    done.
  - unfold monthUpper.
    replace (MakeDate (MakeDay y m (DaysInMonth y m)) (msPerDay - 1)
             - utc_minus_8 + utc_minus_8)
      with (MakeDate (MakeDay y m (DaysInMonth y m)) (msPerDay - 1)) by lia.
    rewrite Ht. reflexivity.
Qed.

(** Time values of the years 100 to 275759 are in the range of [Date]. *)
Lemma MakeDay_bounds y m date :
  100 ≤ y ≤ 275759 → 0 ≤ m ≤ 11 → 1 ≤ date ≤ DaysInMonth y m →
  -684000 ≤ MakeDay y m date ≤ 99999745.
Proof.
  intros Hy Hm Hd. rewrite MakeDay_month by done.
  pose proof (DayFromYear_approx y). pose proof (DayFromYear_approx (y + 1)) as H1.
  rewrite DayFromYear_succ, InLeapYearOf_days in H1.
  pose proof (InLeapYearOf_range y).
  unfold DaysInMonth, monthStart in *.
  month_cases m; cbv iota beta in *; lia.
Qed.

End JsDateFacts.

(** ** Computations with effects *)

Section EffectsFacts.
Import Effects.
Context {S : Type}.

Lemma bind_run {A B} (m : M S A) (k : A → M S B) s :
  (m ≫= k) s =
  match m s with
  | (s1, t1, Ok a) => let '(s2, t2, r) := k a s1 in (s2, t1 ++ t2, r)
  | (s1, t1, Throw e) => (s1, t1, Throw e)
  end.
Proof. reflexivity. Qed.

Lemma bind_Ok_inv {A B} (m : M S A) (k : A → M S B) s s' t b :
  (m ≫= k) s = (s', t, Ok b) →
  ∃ s1 t1 a t2, m s = (s1, t1, Ok a) ∧ k a s1 = (s', t2, Ok b) ∧ t = t1 ++ t2.
Proof.
  rewrite bind_run. destruct (m s) as [[s1 t1] [a|e]]; [|done].
  destruct (k a s1) as [[s2 t2] r] eqn:Hk. intros [= -> <- ->].
  by exists s1, t1, a, t2.
Qed.

Lemma bind_Ok {A B} (m : M S A) (k : A → M S B) s s1 t1 a :
  m s = (s1, t1, Ok a) →
  (m ≫= k) s = (let '(s2, t2, r) := k a s1 in (s2, t1 ++ t2, r)).
Proof. intros H. by rewrite bind_run, H. Qed.

Lemma bind_Throw {A B} (m : M S A) (k : A → M S B) s s1 t1 e :
  m s = (s1, t1, Throw e) → (m ≫= k) s = (s1, t1, Throw e).
Proof. intros H. by rewrite bind_run, H. Qed.

(** The calls of [m ≫= k] begin with the calls of [m]. *)
Lemma bind_trace_prefix {A B} (m : M S A) (k : A → M S B) s :
  ∃ t2, trace_of ((m ≫= k) s) = trace_of (m s) ++ t2.
Proof.
  rewrite bind_run. destruct (m s) as [[s1 t1] [a|e]]; simpl.
  - destruct (k a s1) as [[s2 t2] r]. by exists t2.
  - exists []. by rewrite app_nil_r.
Qed.

End EffectsFacts.

(** ** The monthly settlement series *)

Section MonthlySeries.
Import JsDate Effects Fast.

Lemma TimeClip_in_range t :
  -8640000000000000 ≤ t ≤ 8640000000000000 → TimeClip t = Some t.
Proof. intros H. unfold TimeClip. destruct (Z.ltb_spec 8640000000000000 (Z.abs t)); [lia|done]. Qed.

Lemma fullYear_id y : 100 ≤ y → fullYear y = y.
Proof.
  intros H. unfold fullYear.
  destruct (Z.leb_spec 0 y), (Z.leb_spec y 99); simpl; try done; lia.
Qed.

(** What [getMonthTimestamps] computes, for the years that [Date] can
    represent, on a host whose clocks never skip a whole day. *)
Lemma getMonthTimestamps_value tz y m :
  100 ≤ y ≤ 275759 → 0 ≤ m ≤ 11 → keeps_every_day tz →
  getMonthTimestamps tz y m = (Some (monthLower y m), Some (monthUpper y m)).
Proof.
  intros Hy Hm Htz. unfold getMonthTimestamps. cbv zeta.
  pose proof (DaysInMonth_range y m) as Hr.
  pose proof (MakeDay_bounds y m 1 Hy Hm ltac:(lia)) as Hb1.
  pose proof (MakeDay_bounds y m (DaysInMonth y m) Hy Hm ltac:(lia)) as Hb2.
  assert (getDate tz (Date_local tz y (m + 1) 0) = Some (DaysInMonth y m)) as ->.
  { unfold Date_local. rewrite fullYear_id, MakeDay_day0 by lia.
    set (midnight := MakeDate (MakeDay y m (DaysInMonth y m)) (MakeTime 0 0 0 0)).
    destruct (Htz midnight) as [Hof Hback].
    rewrite TimeClip_in_range
      by (unfold UTC; subst midnight;
          unfold MakeDate, MakeTime, msPerDay, msPerHour, msPerMinute,
            msPerSecond in *; lia).
    simpl. f_equal. unfold LocalTime, UTC.
    set (skip := offsetAt tz (midnight - offsetOf tz midnight) - offsetOf tz midnight)
      in Hback.
    replace (midnight - offsetOf tz midnight
             + offsetAt tz (midnight - offsetOf tz midnight))
      with (MakeDate (MakeDay y m (DaysInMonth y m)) skip)
      by (subst midnight skip; unfold MakeDate, MakeTime; lia).
    by destruct (fields_MakeDay y m (DaysInMonth y m) skip Hm ltac:(lia) Hback)
      as (_ & _ & Hd & _). }
  simpl. unfold Date_UTC. rewrite fullYear_id by lia.
  rewrite !TimeClip_in_range
    by (unfold MakeDate, MakeTime, msPerDay, msPerHour, msPerMinute,
          msPerSecond in *; lia).
  unfold monthLower, monthUpper, utc_minus_8.
  f_equal; f_equal;
    unfold MakeDate, MakeTime, msPerDay, msPerHour, msPerMinute, msPerSecond; lia.
Qed.

Lemma MonthFromTime_range t : 0 ≤ MonthFromTime t ≤ 11.
Proof. unfold MonthFromTime. cbv zeta. repeat case_match; lia. Qed.

Lemma fetchMonth_entry {S} env seller oec y m (s : S) :
  ∃ t e, fetchMonth env seller oec y m s = (s, t, Ok e) ∧ entry_for (timeZone env) y m e.
Proof.
  unfold fetchMonth, entry_for.
  destruct (getMonthTimestamps (timeZone env) y m) as [lower upper].
  unfold try_catch. rewrite bind_run. unfold call.
  destruct (monthApi env lower upper) as [response|e]; simpl; eauto.
Qed.

Lemma mapM_fetchMonth {S} env seller oec y (months : list Z) (s : S) :
  ∃ t es, mapM (fetchMonth env seller oec y) months s = (s, t, Ok es) ∧
          Forall2 (entry_for (timeZone env) y) months es.
Proof.
  induction months as [|m months IH]; simpl.
  - exists [], []. split; [done|constructor].
  - destruct (fetchMonth_entry env seller oec y m s) as (t1 & e & H1 & He).
    destruct IH as (t2 & es & H2 & Hes).
    rewrite (bind_Ok _ _ _ _ _ _ H1), (bind_Ok _ _ _ _ _ _ H2). simpl.
    exists (t1 ++ t2 ++ []), (e :: es). split; [done|by constructor].
Qed.

Lemma directClient_months {S} env seller oec (s s' : S) t res :
  directClient env seller oec s = (s', t, Ok res) →
  let currentYear := getFullYear (timeZone env) (now env) in
  let currentMonth := getMonth (timeZone env) (now env) in
  monthly (summary res) = monthlyData res ∧
  ∃ lastYear thisYear,
    monthlyData res = lastYear ++ thisYear ∧
    Forall2 (entry_for (timeZone env) (currentYear - 1)) (seqZ 0 12) lastYear ∧
    Forall2 (entry_for (timeZone env) currentYear) (seqZ 0 (currentMonth + 1)) thisYear.
Proof.
  unfold directClient. intros H.
  apply bind_Ok_inv in H as (s1 & t1 & finance & t2 & _ & H & _).
  cbv zeta in H.
  apply bind_Ok_inv in H as (s2 & t3 & payment & t4 & _ & H & _).
  apply bind_Ok_inv in H as (s3 & t5 & lastYear & t6 & H1 & H & _).
  apply bind_Ok_inv in H as (s4 & t7 & thisYear & t8 & H2 & H & _).
  destruct (mapM_fetchMonth env seller oec
              (getFullYear (timeZone env) (now env) - 1) (seqZ 0 12) s2)
    as (t9 & es1 & E1 & F1).
  rewrite E1 in H1. injection H1 as <- <- <-.
  destruct (mapM_fetchMonth env seller oec (getFullYear (timeZone env) (now env))
              (seqZ 0 (getMonth (timeZone env) (now env) + 1)) s2)
    as (t10 & es2 & E2 & F2).
  rewrite E2 in H2. injection H2 as <- <- <-.
  injection H as _ _ <-. simpl. split; [done|]. by exists es1, es2.
Qed.

Lemma fetchTikTokDataFast_Ok_inv {S} env debugPort profileId (s s' : S) t res :
  fetchTikTokDataFast env debugPort profileId s = (s', t, Ok res) →
  ∃ l l' t', directClient env (l_sellerId l) (l_oecSellerId l) l = (l', t', Ok res).
Proof.
  unfold fetchTikTokDataFast, invoke.
  destruct (fetchTikTokDataFast_body env debugPort profileId initial)
    as [[l' t'] r] eqn:Hb.
  intros [= _ _ ->]. unfold fetchTikTokDataFast_body in Hb.
  apply bind_Ok_inv in Hb as (s1 & t1 & [] & t2 & _ & Hb & _).
  apply bind_Ok_inv in Hb as (s2 & t3 & [] & t4 & _ & Hb & _).
  apply bind_Ok_inv in Hb as (s3 & t5 & l & t6 & Hg & Hb & _).
  injection Hg as <- _ <-.
  destruct (JsString.is_empty (l_sellerId s2) || (length (cookies s2) =? 0)%nat).
  - destruct (negb _); discriminate Hb.
  - eauto.
Qed.

(** X22.  On a host whose clocks never skip a whole day, every run of the
    direct data fetch that returns a result carries a monthly series of
    12 + (current month index + 1) entries: the twelve months of the
    previous calendar year, then the months of the current year up to the
    current month.  Entry [k] holds exactly the first instant
    (00:00:00.000 on day 1) and the last instant (23:59:59.999 on the last
    day) of its month on the UTC-8 clock, and the series is in
    chronological order: each lower bound is one millisecond after the
    upper bound of the entry before it.  The current year is between 101
    and 275759, so that all months are within the range of [Date].  The
    condition on the host is needed: the code reads the number of days of
    a month from the host's own calendar. *)
Theorem monthly_series_boundaries {S} (env : FetchEnv) (debugPort : Z)
    (profileId : string) (s s' : S) (tr : list event) (res : TikTokFinanceResult) :
  let currentYear := getFullYear (timeZone env) (now env) in
  let currentMonth := getMonth (timeZone env) (now env) in
  100 < currentYear < 275760 →
  keeps_every_day (timeZone env) →
  fetchTikTokDataFast env debugPort profileId s = (s', tr, Ok res) →
  monthly (summary res) = monthlyData res ∧
  Z.of_nat (length (monthlyData res)) = 12 + (currentMonth + 1) ∧
  ∀ k : nat, Z.of_nat k < 12 + (currentMonth + 1) →
    let y := if decide (k < 12)%nat then currentYear - 1 else currentYear in
    let m := if decide (k < 12)%nat then Z.of_nat k else Z.of_nat k - 12 in
    ∃ e, monthlyData res !! k = Some e ∧
         date_time_lower e = Some (monthLower y m) ∧
         date_time_upper e = Some (monthUpper y m) ∧
         first_instant_of_month y m (monthLower y m) ∧
         DateFromTime (monthLower y m + utc_minus_8) = 1 ∧
         TimeWithinDay (monthLower y m + utc_minus_8) = 0 ∧
         last_instant_of_month y m (monthUpper y m) ∧
         DateFromTime (monthUpper y m + utc_minus_8) = DaysInMonth y m ∧
         TimeWithinDay (monthUpper y m + utc_minus_8) = MakeTime 23 59 59 999 ∧
         monthLower y m < monthUpper y m ∧
         (∀ e', monthlyData res !! (k + 1)%nat = Some e' →
                date_time_lower e' = Some (monthUpper y m + 1)).
Proof.
  intros currentYear currentMonth Hyear Htz Hrun.
  apply fetchTikTokDataFast_Ok_inv in Hrun as (l & l' & t' & Hrun).
  apply directClient_months in Hrun as (Hsum & l1 & l2 & Hres & F1 & F2).
  fold currentYear in F1, F2. fold currentMonth in F2.
  pose proof (MonthFromTime_range (LocalTime (timeZone env) (now env))) as Hcm.
  fold (getMonth (timeZone env) (now env)) in Hcm. fold currentMonth in Hcm.
  pose proof (Forall2_length _ _ _ F1) as Hl1. rewrite length_seqZ in Hl1.
  pose proof (Forall2_length _ _ _ F2) as Hl2. rewrite length_seqZ in Hl2.
  split; [done|]. split; [rewrite Hres, length_app; lia|].
  (* the entry at position k *)
  assert (∀ k : nat, Z.of_nat k < 12 + (currentMonth + 1) →
            let y := if decide (k < 12)%nat then currentYear - 1 else currentYear in
            let m := if decide (k < 12)%nat then Z.of_nat k else Z.of_nat k - 12 in
            (100 ≤ y ≤ 275759) ∧ (0 ≤ m ≤ 11) ∧
            ∃ e, monthlyData res !! k = Some e ∧
                 date_time_lower e = Some (monthLower y m) ∧
                 date_time_upper e = Some (monthUpper y m)) as Hentry.
  { intros k Hk. cbv zeta. rewrite Hres. case_decide as Hlt.
    - split; [lia|]. split; [lia|].
      destruct (Forall2_lookup_l _ _ _ k (Z.of_nat k) F1) as (e & He & Hf).
      { rewrite lookup_seqZ_lt by lia. f_equal; lia. }
      exists e. rewrite lookup_app_l by lia. split; [done|].
      unfold entry_for in Hf.
      rewrite getMonthTimestamps_value in Hf by (done || lia). by injection Hf.
    - split; [lia|]. split; [lia|].
      destruct (Forall2_lookup_l _ _ _ (k - 12)%nat (Z.of_nat k - 12) F2)
        as (e & He & Hf).
      { rewrite lookup_seqZ_lt by lia. f_equal; lia. }
      exists e. rewrite lookup_app_r by lia. rewrite <- Hl1.
      change (Z.to_nat 12) with 12%nat. split; [done|].
      unfold entry_for in Hf.
      rewrite getMonthTimestamps_value in Hf by (done || lia). by injection Hf. }
  intros k Hk y m.
  destruct (Hentry k Hk) as (Hy & Hm & e & He & Hlo & Hup).
  fold y in Hy, Hlo, Hup. fold m in Hm, Hlo, Hup.
  destruct (monthLower_first y m Hm) as (Hf1 & Hf2 & Hf3).
  destruct (monthUpper_last y m Hm) as (Hu1 & Hu2 & Hu3 & Hnext).
  exists e.
  split; [exact He|]. split; [exact Hlo|]. split; [exact Hup|].
  split; [exact Hf1|]. split; [exact Hf2|]. split; [exact Hf3|].
  split; [exact Hu1|]. split; [exact Hu2|]. split; [exact Hu3|]. split.
  - pose proof (DaysInMonth_range y m).
    unfold monthLower, monthUpper, MakeDate, msPerDay.
    rewrite !MakeDay_month by done. lia.
  - intros e' He'.
    assert (Z.of_nat (k + 1) < 12 + (currentMonth + 1)) as Hk'.
    { apply lookup_lt_Some in He'. rewrite Hres, length_app in He'. lia. }
    destruct (Hentry (k + 1)%nat Hk') as (_ & _ & e2 & He2 & Hlo2 & _).
    rewrite He' in He2. injection He2 as <-.
    rewrite Hlo2, Hnext. f_equal. unfold nextMonth. subst y m.
    repeat case_decide; simpl; try lia; f_equal; lia.
Qed.

Lemma monthly_series_boundaries_witness :
  Z.of_nat (length (monthlyData Samples.page_content_result)) = 12 + (1 + 1).
Proof.
  refine (proj1 (proj2 (monthly_series_boundaries Samples.fetch_page_content 9222 "p1"
            tt Samples.page_content_run.1.1 Samples.page_content_run.1.2
            Samples.page_content_result _ _ _))).
  - vm_compute. split; reflexivity.
  - intros t. simpl. unfold msPerDay. lia.
  - vm_compute. reflexivity.
Defined.


End MonthlySeries.

(** ** Batch orchestrator: order of the results *)

Section BatchOrder.
Import Effects Handlers.

Lemma processProfile_try_profileId env id s s' t r :
  processProfile_try env id s = (s', t, Ok r) → profileId r = id.
Proof.
  unfold processProfile_try. intros H.
  apply bind_Ok_inv in H as (s1 & t1 & [debugPort|] & t2 & _ & H & _).
  - apply bind_Ok_inv in H as (s2 & t3 & [] & t4 & _ & H & _).
    apply bind_Ok_inv in H as (s3 & t5 & tiktokData & t6 & _ & H & _).
    by injection H as _ _ <-.
  - by injection H as _ _ <-.
Qed.

(** Every record that [processProfile] returns is about the profile it
    was called for. *)
Lemma processProfile_profileId env id index retryCount :
  profileId (processProfile env id index retryCount).2 = id.
Proof.
  funelim (processProfile env id index retryCount);
    try rewrite <- Heqcall; simpl; try done.
  - by eapply processProfile_try_profileId.
  - match goal with IH : profileId _ = _ |- _ => rewrite Heq in IH; exact IH end.
Qed.

Lemma length_fold_settle {A} (jobs : list A) completion values :
  length (fold_left (settle jobs) completion values) = length values.
Proof.
  revert values. induction completion as [|j c IH]; intros values; simpl; [done|].
  rewrite IH. unfold settle. destruct (jobs !! j); [apply length_insert|done].
Qed.

Lemma lookup_fold_settle {A} (jobs : list A) completion values k r :
  (k < length values)%nat → jobs !! k = Some r →
  fold_left (settle jobs) completion values !! k =
  if decide (k ∈ completion) then Some (Some r) else values !! k.
Proof.
  revert values. induction completion as [|j c IH]; intros values Hk Hr;
    cbn [fold_left].
  - destruct (decide (k ∈ [])) as [H%elem_of_nil|]; done.
  - rewrite IH; [|unfold settle; destruct (jobs !! j);
                   [by rewrite length_insert|done]|done].
    destruct (decide (k ∈ c)) as [Hin|Hnin];
      destruct (decide (k ∈ j :: c)) as [Hin'|Hnin']; try done.
    + exfalso. apply Hnin'. apply elem_of_cons. by right.
    + apply elem_of_cons in Hin' as [->|?]; [|done].
      unfold settle. by rewrite Hr, list_lookup_insert_eq.
    + unfold settle. destruct (jobs !! j); [|done].
      rewrite list_lookup_insert_ne; [done|].
      intros ->. apply Hnin'. apply elem_of_cons. by left.
Qed.

(** [Promise.all] hands over the values in the order of its promises, in
    whatever order they settle. *)
Lemma promise_all_any_order {A} (jobs : list A) completion :
  completion ≡ₚ seq 0 (length jobs) → promise_all jobs completion = Some jobs.
Proof.
  intros Hperm. unfold promise_all.
  assert (fold_left (settle jobs) completion (replicate (length jobs) None)
          = Some <$> jobs) as ->.
  { apply list_eq. intros k. rewrite list_lookup_fmap.
    destruct (jobs !! k) as [r|] eqn:Hr; simpl.
    - pose proof (lookup_lt_Some _ _ _ Hr) as Hk.
      rewrite (lookup_fold_settle jobs completion _ k r);
        [|by rewrite length_replicate|done].
      rewrite decide_True; [done|].
      rewrite Hperm. apply elem_of_seq. lia.
    - apply lookup_ge_None_2.
      rewrite length_fold_settle, length_replicate.
      by apply lookup_ge_None_1. }
  by apply mapM_fmap_Some.
Qed.

Lemma batchLoop_order env completion profileIds i results sent :
  (∀ j, (j < length profileIds)%nat → (j mod CHUNK_SIZE = 0)%nat →
        completion j ≡ₚ seq 0 (length (take CHUNK_SIZE (drop j profileIds)))) →
  (i mod CHUNK_SIZE = 0)%nat →
  map profileId results = take i profileIds →
  ∃ results' sent',
    batchLoop env completion profileIds i results sent = Some (results', sent') ∧
    map profileId results' = profileIds.
Proof.
  funelim (batchLoop env completion profileIds i results sent);
    intros Hperm Hmod Hres; try rewrite <- Heqcall.
  - exists results, sent. split; [done|]. rewrite Hres. apply take_ge. lia.
  - assert (chunkResults =
              imap (λ idx id, (processProfile (env (i + idx)%nat) id (i + idx) 0).2)
                   (take CHUNK_SIZE (drop i profileIds))) as Hchunk.
    { rewrite promise_all_any_order in Heq; [by injection Heq|].
      rewrite length_imap. by apply Hperm. }
    apply H; [done| |].
    { rewrite <- (Nat.Div0.mod_add i 1 CHUNK_SIZE) in Hmod.
      by rewrite Nat.mul_1_l in Hmod. }
    rewrite map_app, Hres, <- take_take_drop. f_equal.
    rewrite Hchunk. apply list_eq. intros k.
    change (map profileId ?l) with (profileId <$> l).
    rewrite list_lookup_fmap, list_lookup_imap.
    destruct (take CHUNK_SIZE (drop i profileIds) !! k) as [id|]; simpl; [|done].
    f_equal. apply processProfile_profileId.
  - exfalso. rewrite promise_all_any_order in Heq; [done|].
    rewrite length_imap. by apply Hperm.
Qed.

(** C9.  For every list of profile IDs, and in whatever order the
    concurrent jobs of each chunk finish ([completion i] is any
    arrangement of the jobs of the chunk that starts at position [i]),
    the batch orchestrator returns a results array with one record per
    input ID, in the order of the input list. *)
Theorem batch_results_in_input_order
    (env : nat → nat → AttemptEnv) (completion : nat → list nat)
    (profileIds : list string) :
  (∀ i, (i < length profileIds)%nat → (i mod CHUNK_SIZE = 0)%nat →
        completion i ≡ₚ seq 0 (length (take CHUNK_SIZE (drop i profileIds)))) →
  ∃ results sent,
    batch_fetch_tiktok env completion profileIds = Some (results, sent) ∧
    map profileId results = profileIds ∧
    length results = length profileIds.
Proof.
  intros Hperm.
  destruct (batchLoop_order env completion profileIds 0 [] [] Hperm eq_refl eq_refl)
    as (results & sent & Hrun & Hids).
  exists results, sent. split; [done|]. split; [done|].
  apply (f_equal length) in Hids. by rewrite length_map in Hids.
Qed.

Lemma batch_results_in_input_order_witness :
  ∃ results sent,
    batch_fetch_tiktok
      (λ _ _, Samples.attempt_with Samples.start_denied Samples.fetch_nothing_found)
      (λ i, if decide (i = 0)%nat then [2; 0; 1]%nat else [0]%nat)
      ["a"; "b"; "c"; "d"] = Some (results, sent) ∧
    map profileId results = ["a"; "b"; "c"; "d"] ∧
    length results = 4%nat.
Proof.
  apply (batch_results_in_input_order
           (λ _ _, Samples.attempt_with Samples.start_denied Samples.fetch_nothing_found)
           (λ i, if decide (i = 0)%nat then [2; 0; 1]%nat else [0]%nat)
           ["a"; "b"; "c"; "d"]).
  intros i Hi Hmod. simpl in Hi.
  destruct i as [|[|[|[|i]]]]; try discriminate Hmod; simpl; try lia.
  - apply (Permutation_cons_append [0; 1]%nat 2%nat).
  - done.
Defined.

End BatchOrder.

(** ** Traces *)

Section TraceFacts.
Import Effects.
Context {S : Type}.
Implicit Types (P : event → Prop).

Lemma emits_ret {A} P (a : A) : emits (S:=S) P (mret a).
Proof. intros s. constructor. Qed.

Lemma emits_throw {A} P e : emits (S:=S) (A:=A) P (throw e).
Proof. intros s. constructor. Qed.

Lemma emits_get P : emits (S:=S) P get.
Proof. intros s. constructor. Qed.

Lemma emits_modify P f : emits (S:=S) P (modify f).
Proof. intros s. constructor. Qed.

Lemma emits_emit P ev : P ev → emits (S:=S) P (emit ev).
Proof. intros H s. by repeat constructor. Qed.

Lemma emits_call {A} P ev (answer : outcome A) : P ev → emits (S:=S) P (call ev answer).
Proof. intros H s. by repeat constructor. Qed.

Lemma emits_bind {A B} P (m : M S A) (k : A → M S B) :
  emits P m → (∀ a, emits P (k a)) → emits P (m ≫= k).
Proof.
  intros Hm Hk s. rewrite bind_run. specialize (Hm s).
  destruct (m s) as [[s1 t1] [a|e]]; [|done].
  specialize (Hk a s1). destruct (k a s1) as [[s2 t2] r].
  unfold trace_of in *. simpl in *. by apply Forall_app.
Qed.

Lemma emits_try_catch {A} P (m : M S A) (h : error → M S A) :
  emits P m → (∀ e, emits P (h e)) → emits P (try_catch m h).
Proof.
  intros Hm Hh s. unfold try_catch. specialize (Hm s).
  destruct (m s) as [[s1 t1] [a|e]]; [done|].
  specialize (Hh e s1). destruct (h e s1) as [[s2 t2] r].
  unfold trace_of in *. simpl in *. by apply Forall_app.
Qed.

Lemma emits_attempt P (m : M S unit) : emits P m → emits P (attempt m).
Proof. intros Hm. apply emits_try_catch; [done|]. intros e. apply emits_ret. Qed.

Lemma emits_invoke {S' A} P (m : M S' A) (l : S') :
  emits P m → emits (S:=S) P (invoke m l).
Proof.
  intros Hm s. unfold invoke. specialize (Hm l).
  by destruct (m l) as [[s1 t1] r].
Qed.

Lemma emits_mapM {A B} P (f : A → M S B) (l : list A) :
  (∀ x, emits P (f x)) → emits P (mapM f l).
Proof.
  intros Hf. induction l as [|x l IH]; simpl.
  - apply emits_ret.
  - apply emits_bind; [done|]. intros y.
    apply emits_bind; [done|]. intros k. apply emits_ret.
Qed.

Lemma emits_weaken {A} P (Q : event → Prop) (m : M S A) :
  (∀ e, P e → Q e) → emits P m → emits Q m.
Proof. intros H Hm s. eapply Forall_impl; [apply Hm|done]. Qed.

End TraceFacts.

(** One step of a proof that all calls of a computation satisfy a property:
  split the computation at its outermost construct. *)
Ltac emits_step :=
first
  [ apply emits_ret | apply emits_throw | apply emits_get | apply emits_modify
  | apply emits_emit | apply emits_call
  | apply emits_attempt | apply emits_invoke | apply emits_mapM; intros ?
  | apply emits_try_catch; [|intros ?]
  | apply emits_bind; [|intros ?]
  | match goal with
    | |- Effects.emits _ (if ?b then _ else _) => destruct b
    | |- Effects.emits _ (match ?x with _ => _ end) => destruct x
    | |- Effects.emits _ (let '(_, _) := ?x in _) => destruct x
    end ].

Ltac solve_emits := repeat emits_step; try done; try naive_solver.


(** ** Session extraction and the stop request *)

Section FetchFacts.
Import JsString Effects Fast.

Lemma emits_poll {S} P rounds sellerInfo :
  P EvEvaluate → P (EvSleep 1000) → emits (S:=S) P (poll rounds sellerInfo).
Proof.
  intros H1 H2. revert sellerInfo.
  induction rounds as [|c rounds IH]; intros [info|]; simpl; solve_emits.
Qed.

(** The polling loop neither reads nor changes the variables of its
    caller, and it never throws. *)
Lemma poll_any_state {S} rounds sellerInfo (s : S) :
  ∃ r, poll rounds sellerInfo s
       = (s, trace_of (poll (S:=unit) rounds sellerInfo tt), Ok r) ∧
       result_of (poll (S:=unit) rounds sellerInfo tt) = Ok r.
Proof.
  revert sellerInfo.
  induction rounds as [|c rounds IH]; intros [info|]; simpl; eauto.
  destruct (isClosed c); [eauto|].
  destruct (if includes (href (currentUrl c)) "seller_id="
            then extractSellerIdFromUrl (currentUrl c) else None); [eauto|].
  rewrite !bind_run. unfold try_catch, call.
  destruct (pageData c) as [[d|]|e]; simpl; eauto;
    rewrite !bind_run; unfold emit; simpl;
    destruct (IH (deliver (responsesDuringSleep c)
                    (deliver (responsesDuringEvaluate c) None))) as (r & -> & Hr);
    unfold result_of, trace_of in *;
    destruct (poll (S:=unit) rounds _ ()) as [[u t] o]; simpl in *; subst o; eauto.
Qed.

Lemma poll_run {S} env (s : S) :
  poll (cycles env) (deliver (responsesDuringNavigation env) None) s
  = (s, trace_of (pollRun env), Ok (foundSeller env)).
Proof.
  destruct (poll_any_state (cycles env)
              (deliver (responsesDuringNavigation env) None) s) as (r & -> & Hr).
  unfold foundSeller, pollRun. by rewrite Hr.
Qed.

(** The [catch] block of the extraction never throws. *)
Lemma classify_keeps msg l :
  l_sellerId (classify msg l) = l_sellerId l ∧
  l_oecSellerId (classify msg l) = l_oecSellerId l ∧
  cookies (classify msg l) = cookies l.
Proof. unfold classify. repeat case_match; done. Qed.

Lemma cleanup_total env e l :
  ∃ l' t, cleanup env e l = (l', t, Ok tt) ∧
          l_sellerId l' = l_sellerId l ∧ l_oecSellerId l' = l_oecSellerId l ∧
          cookies l' = cookies l.
Proof.
  destruct (classify_keeps (message e) l) as (H1 & H2 & H3).
  unfold cleanup, attempt, try_catch, call, emit, modify, get.
  unfold mbind, M_bind, mret, M_ret. cbn beta iota.
  generalize dependent (classify (message e) l). intros l0 H1 H2 H3.
  destruct (page l0), (browser l0), (cleanupPageClose env) as [[]|e']; simpl; eauto 10.
Qed.

Lemma extraction_total env debugPort l :
  ∃ l' t, try_catch (extract env debugPort) (cleanup env) l = (l', t, Ok tt).
Proof.
  unfold try_catch. destruct (extract env debugPort l) as [[l1 t1] [[]|e]]; [eauto|].
  destruct (cleanup_total env e l1) as (l' & t & -> & _). eauto.
Qed.

(** Whatever happens during extraction, the stop request is sent. *)
Lemma fetch_sends_stop {S} env debugPort profileId (s : S) :
  EvStop profileId ∈ trace_of (fetchTikTokDataFast env debugPort profileId s).
Proof.
  unfold fetchTikTokDataFast, invoke, fetchTikTokDataFast_body.
  rewrite bind_run.
  destruct (extraction_total env debugPort initial) as (l' & t & ->).
  rewrite bind_run. unfold attempt at 1, try_catch at 1, call at 1.
  destruct (stopAnswer env) as [[]|e]; simpl;
    match goal with
    | |- context [ (get ≫= ?k) ?x ] => destruct ((get ≫= k) x) as [[l2 t2] r]
    end; unfold trace_of; simpl;
    rewrite elem_of_app; right; apply elem_of_cons; by left.
Qed.

(** A run of [fetchTikTokDataFast] starts no profile. *)
Lemma fetch_not_started {S} env debugPort profileId :
  emits (S:=S) not_started (fetchTikTokDataFast env debugPort profileId).
Proof.
  unfold fetchTikTokDataFast, fetchTikTokDataFast_body, extract, cleanup,
    directClient, fetchMonth.
  repeat (emits_step || apply emits_poll); done.
Qed.

Lemma fetch_no_start {S} env debugPort profileId :
  emits (S:=S) (λ e, is_start e = false) (fetchTikTokDataFast env debugPort profileId).
Proof.
  unfold fetchTikTokDataFast, fetchTikTokDataFast_body, extract, cleanup,
    directClient, fetchMonth.
  repeat (emits_step || apply emits_poll); done.
Qed.

(** The answer to the stop request does not matter. *)
Lemma fetch_ignores_stop_answer {S} a env debugPort profileId (s : S) :
  fetchTikTokDataFast (with_stopAnswer a env) debugPort profileId s
  = fetchTikTokDataFast env debugPort profileId s.
Proof.
  unfold fetchTikTokDataFast, invoke, fetchTikTokDataFast_body.
  rewrite !(bind_run (try_catch _ _)).
  change (extract (with_stopAnswer a env)) with (extract env).
  change (cleanup (with_stopAnswer a env)) with (cleanup env).
  destruct (try_catch (extract env debugPort) (cleanup env) initial)
    as [[l1 t1] [[]|e]]; [|done].
  rewrite !(bind_run (attempt _)). unfold attempt, try_catch, call.
  change (stopAnswer (with_stopAnswer a env)) with a.
  destruct a as [[]|ea], (stopAnswer env) as [[]|eb]; simpl; reflexivity.
Qed.

End FetchFacts.

(** ** Start, stop and retry in the batch orchestrator *)

Section BatchJobs.
Import JsString Effects Handlers.

Lemma sts_not_started id t : Forall not_started t → started_then_stopped id t.
Proof.
  induction 1 as [|e t He Ht IH]; simpl; [done|].
  split; [|done]. by destruct e.
Qed.

Lemma sts_app id t1 t2 :
  started_then_stopped id t1 → started_then_stopped id t2 →
  started_then_stopped id (t1 ++ t2).
Proof.
  induction t1 as [|e t1 IH]; simpl; [done|].
  intros [He H1] H2. split; [|by apply IH].
  destruct e; try done. intros E. apply elem_of_app. left. by apply He.
Qed.

Lemma sts_started id t0 port t :
  Forall not_started t0 → EvStop id ∈ t → Forall not_started t →
  started_then_stopped id ((t0 ++ [EvStarted id port]) ++ t).
Proof.
  intros H0 Hstop Ht. rewrite <- app_assoc.
  apply sts_app; [by apply sts_not_started|]. simpl.
  split; [done|]. by apply sts_not_started.
Qed.

Lemma sts_split id t t1 port t2 :
  started_then_stopped id t → t = t1 ++ EvStarted id port :: t2 → EvStop id ∈ t2.
Proof.
  intros H ->. induction t1 as [|e t1 IH]; simpl in H.
  - destruct H as [H _]. by apply H.
  - destruct H as [_ H]. by apply IH.
Qed.

Lemma count_starts_app t1 t2 :
  count_starts (t1 ++ t2) = (count_starts t1 + count_starts t2)%nat.
Proof. unfold count_starts. by rewrite List.filter_app, length_app. Qed.

Lemma count_starts_none t : Forall (λ e, is_start e = false) t → count_starts t = 0%nat.
Proof.
  unfold count_starts. induction 1 as [|e t He Ht IH]; simpl; [done|].
  by rewrite He.
Qed.

(** The calls of "start the profile": one start request, then possibly a
    status request; the mark [EvStarted] comes last, and only when a port
    was obtained. *)
Lemma startProfile_cases {S} env id m1 m2 m3 (s : S) :
  ∃ t r, startProfile env id m1 m2 m3 s = (s, t, r) ∧ count_starts t = 1%nat ∧
    ((∃ debugPort t0, r = Ok (Some debugPort) ∧ t = t0 ++ [EvStarted id debugPort] ∧
                      Forall not_started t0) ∨
     ((∀ debugPort, r ≠ Ok (Some debugPort)) ∧ Forall not_started t)).
Proof.
  unfold startProfile, try_catch, call, emit, throw.
  unfold mbind, M_bind, mret, M_ret. cbn beta iota.
  destruct (startAnswer env) as [response|e]; cbn beta iota.
  - destruct (negb (code response =? 1) || negb (started response)); simpl.
    + eexists _, _. split; [reflexivity|]. split; [reflexivity|].
      right. split; [done|]. by repeat constructor.
    + eexists _, _. split; [reflexivity|]. split; [reflexivity|].
      left. exists (port response), [EvStart id]. split; [done|]. split; [done|].
      by repeat constructor.
  - destruct (decide (status e = Some 409)) as [E|E]; cbn beta iota.
    + destruct (statusAnswer env) as [[p|]|e']; cbn beta iota.
      * destruct (negb (p =? 0)); simpl.
        -- eexists _, _. split; [reflexivity|]. split; [reflexivity|].
           left. exists p, [EvStart id; EvStatus id]. split; [done|].
           split; [done|]. by repeat constructor.
        -- eexists _, _. split; [reflexivity|]. split; [reflexivity|].
           right. split; [done|]. by repeat constructor.
      * eexists _, _. split; [reflexivity|]. split; [reflexivity|].
        right. split; [done|]. by repeat constructor.
      * eexists _, _. split; [reflexivity|]. split; [reflexivity|].
        right. split; [done|]. by repeat constructor.
    + destruct (decide (status e = Some 400)) as [E'|E']; simpl.
      * eexists _, _. split; [reflexivity|]. split; [reflexivity|].
        right. split; [done|]. by repeat constructor.
      * eexists _, _. split; [reflexivity|]. split; [reflexivity|].
        right. split; [done|]. by repeat constructor.
Qed.

(** One attempt: a single start request, and a stop request after the
    point at which a port was obtained. *)
Lemma processProfile_try_run env id :
  ∃ t r, processProfile_try env id tt = (tt, t, r) ∧
         started_then_stopped id t ∧ count_starts t = 1%nat.
Proof.
  unfold processProfile_try. rewrite bind_run.
  destruct (startProfile_cases (start env) id "Start failed"
              "Profile running but no port available"
              "Profile conflict (409) - could not get port" tt)
    as (t & r & -> & Hcount & [(debugPort & t0 & -> & -> & Hns)|[Hno Hns]]).
  - rewrite bind_run. unfold emit at 1. cbn beta iota. rewrite bind_run.
    pose proof (fetch_sends_stop (fetch env) debugPort id tt) as Hstop.
    pose proof (fetch_not_started (fetch env) debugPort id tt) as Hfetch.
    pose proof (fetch_no_start (fetch env) debugPort id tt) as Hfetch'.
    destruct (Fast.fetchTikTokDataFast (fetch env) debugPort id tt)
      as [[[] tf] [d|e]]; unfold trace_of in *; simpl in *; rewrite ?app_nil_r;
      (eexists _, _; split; [reflexivity|]; split;
       [ apply sts_started; [done| |by constructor];
         apply elem_of_cons; by right
       | rewrite count_starts_app, Hcount;
         change (EvSleep 3000 :: tf) with ([EvSleep 3000] ++ tf);
         rewrite count_starts_app, (count_starts_none tf) by done; done ]).
  - destruct r as [[debugPort|]|e]; [by destruct (Hno debugPort)| |];
      simpl; rewrite ?app_nil_r;
      (eexists _, _; split; [reflexivity|]; split;
       [by apply sts_not_started|done]).
Qed.

Lemma processProfile_try_trace env id :
  started_then_stopped id (trace_of (processProfile_try env id tt)) ∧
  count_starts (trace_of (processProfile_try env id tt)) = 1%nat.
Proof. by destruct (processProfile_try_run env id) as (t & r & -> & H1 & H2). Qed.

Lemma stopAfterError_trace env id : stopAfterError env id = [EvStop id].
Proof.
  unfold stopAfterError, attempt, try_catch, call.
  by destruct (cleanupStop env) as [[]|e].
Qed.

(** [processProfile], one level unfolded. *)
Lemma processProfile_unfold env id index retryCount :
  processProfile env id index retryCount =
  match processProfile_try (env retryCount) id tt with
  | (_, t, Ok r) => (t, r)
  | (_, t, Throw e) =>
      if notRetried (Effects.message e)
      then (t ++ [EvStop id], failure id (Effects.message e))
      else if decide (retryCount < MAX_RETRIES)%nat
      then let '(t', r) := processProfile env id index (Datatypes.S retryCount) in
           (t ++ [EvStop id; EvSleep 5000] ++ t', r)
      else (t ++ [EvStop id], failure id (Effects.message e))
  end.
Proof.
  funelim (processProfile env id index retryCount); try rewrite <- Heqcall;
    repeat match goal with
           | H : processProfile_try _ _ _ = _ |- _ => rewrite H; clear H
           | H : notRetried _ = _ |- _ => rewrite H; clear H
           | H : decide _ = _ |- _ => rewrite H; clear H
           | H : processProfile _ _ _ _ = (_, _) |- _ => rewrite H; clear H
           end; rewrite ?stopAfterError_trace; done.
Qed.

Lemma processProfile_sts env id index retryCount :
  started_then_stopped id (processProfile env id index retryCount).1.
Proof.
  funelim (processProfile env id index retryCount); try rewrite <- Heqcall;
    rewrite ?stopAfterError_trace; simpl.
  - pose proof (processProfile_try_trace (env retryCount) id) as [H _].
    by rewrite Heq in H.
  - pose proof (processProfile_try_trace (env retryCount) id) as [H _].
    rewrite Heq0 in H. apply sts_app; [done|]. simpl. done.
  - pose proof (processProfile_try_trace (env retryCount) id) as [H _].
    rewrite Heq1 in H. apply sts_app; [done|]. simpl. done.
  - pose proof (processProfile_try_trace (env retryCount) id) as [H0 _].
    rewrite Heq2 in H0. rewrite Heq in Hind. simpl in Hind.
    apply sts_app; [done|]. simpl. done.
Qed.

Lemma processProfile_try_ignores_stops a b env id :
  processProfile_try (with_stops a b env) id tt = processProfile_try env id tt.
Proof.
  unfold processProfile_try. rewrite !bind_run.
  change (start (with_stops a b env)) with (start env).
  destruct (startProfile _ _ _ _ _ _) as [[u t] [[debugPort|]|e]]; [|done|done].
  rewrite !(bind_run (emit _)). unfold emit. cbn beta iota.
  rewrite !(bind_run (Fast.fetchTikTokDataFast _ _ _)).
  change (fetch (with_stops a b env)) with (Fast.with_stopAnswer a (fetch env)).
  by rewrite fetch_ignores_stop_answer.
Qed.

Lemma processProfile_ignores_stops (a b : nat → outcome unit) env id index retryCount :
  processProfile (λ k, with_stops (a k) (b k) (env k)) id index retryCount
  = processProfile env id index retryCount.
Proof.
  funelim (processProfile env id index retryCount); try rewrite <- Heqcall;
    rewrite processProfile_unfold, processProfile_try_ignores_stops;
    rewrite ?stopAfterError_trace;
    repeat match goal with
           | H : processProfile_try _ _ _ = _ |- _ => rewrite H; clear H
           | H : notRetried _ = _ |- _ => rewrite H; clear H
           | H : decide _ = _ |- _ => rewrite H; clear H
           end; try done.
  rewrite Hind, Heq. done.
Qed.

Lemma emits_try_finally {S A} P (m : M S A) (release : M S unit) :
  emits P m → emits P release → emits P (try_finally m release).
Proof.
  intros Hm Hr s. unfold try_finally. specialize (Hm s).
  destruct (m s) as [[s1 t1] r]. specialize (Hr s1).
  destruct (release s1) as [[s2 t2] [[]|e]];
    unfold trace_of in *; simpl in *; by apply Forall_app.
Qed.

Lemma emits_clickLoginButton {S} P env selectors :
  (∀ sel, P (EvQuery sel)) → (∀ sel, P (EvClick sel)) →
  emits (S:=S) P (TiktokLogin.clickLoginButton env selectors).
Proof.
  intros H1 H2. induction selectors as [|sel rest IH]; simpl; solve_emits.
Qed.

(** The login handler sends no stop request. *)
Lemma login_tiktok_no_stop store env id name :
  emits (λ e, ∀ id', e ≠ EvStop id') (login_tiktok store env id name).
Proof.
  unfold login_tiktok, startProfile, TiktokLogin.loginTikTokSeller,
    TiktokLogin.loginFlow, TiktokLogin.openAndSubmit, TiktokLogin.afterSubmit,
    TiktokLogin.submitCode, TiktokLogin.get2FACode.
  repeat (emits_step || apply emits_try_finally || apply emits_clickLoginButton);
    done.
Qed.

(** C2, as amended.  In the batch orchestrator every point at which a job
    obtained a debug port (from the start request or, after a 409, from
    the status request) is followed by a stop request for that profile
    before the job returns, on every path; and the answers to the stop
    requests, failures included, change neither the calls made nor the
    record returned.  The single-profile login handler is different: it
    sends no stop request at all. *)
Theorem stop_after_start_in_batch
    (env : nat → AttemptEnv) (id : string) (index : nat)
    (a b : nat → outcome unit)
    (store : list CredentialsReader.ProfileCredentials) (lenv : LoginJobEnv)
    (name : option string) (used : gset Z) :
  (∀ t1 debugPort t2,
     (processProfile env id index 0).1 = t1 ++ EvStarted id debugPort :: t2 →
     EvStop id ∈ t2) ∧
  processProfile (λ k, with_stops (a k) (b k) (env k)) id index 0
    = processProfile env id index 0 ∧
  (∀ e, e ∈ trace_of (login_tiktok store lenv id name used) → ∀ id', e ≠ EvStop id').
Proof.
  split; [|split].
  - intros t1 debugPort t2 Ht.
    by eapply sts_split; [apply processProfile_sts|].
  - apply processProfile_ignores_stops.
  - intros e He. pose proof (login_tiktok_no_stop store lenv id name used) as H.
    rewrite Forall_forall in H. by apply H.
Qed.

(** C2, as stated, fails for the login handler: the profile is started on
    port 9222, the login ends in its two-factor state, and no stop request
    is ever sent. *)
Lemma login_leaves_profile_running :
  let run := login_tiktok Samples.store Samples.login_job "p1" None ∅ in
  EvStarted "p1" 9222 ∈ trace_of run ∧
  EvStop "p1" ∉ trace_of run ∧
  result_of run = Ok (TiktokLogin.pending "2FA required - please enter code manually").
Proof.
  cbv zeta. split; [|split].
  - apply (bool_decide_unpack _). vm_compute. exact I.
  - apply (bool_decide_unpack _). vm_compute. exact I.
  - vm_compute. reflexivity.
Qed.

(** C3, as amended.  A job whose start request is answered with 400
    returns the "skipped" record at once: one start request, no stop, no
    retry.  A job whose first attempt fails with an error whose text
    carries neither "Skipped" nor "in use" is retried exactly once, after
    the stop request and a pause of 5000 ms; it makes two start requests in
    all, and when the second attempt fails as well the job returns the
    failure record with the text of that error.  A job whose first attempt
    fails with an error whose text does carry "Skipped" or "in use" is not
    retried, whatever the cause of the error: after the stop request it
    returns the failure record with that text.  No job makes more than two
    start requests. *)
Theorem denied_skipped_transient_retried_once
    (env : nat → AttemptEnv) (id : string) (index : nat)
    (e : error) (t0 : list event) (e0 : error) :
  (startAnswer (start (env 0%nat)) = Throw e → status e = Some 400 →
     processProfile env id index 0 = ([EvStart id], failure id skippedMessage)) ∧
  (processProfile_try (env 0%nat) id tt = (tt, t0, Throw e0) →
     notRetried (Effects.message e0) = false →
     count_starts (processProfile env id index 0).1 = 2%nat ∧
     processProfile env id index 0 =
       match processProfile_try (env 1%nat) id tt with
       | (_, t1, Ok r) => (t0 ++ [EvStop id; EvSleep 5000] ++ t1, r)
       | (_, t1, Throw e1) =>
           (t0 ++ [EvStop id; EvSleep 5000] ++ t1 ++ [EvStop id],
            failure id (Effects.message e1))
       end) ∧
  (processProfile_try (env 0%nat) id tt = (tt, t0, Throw e0) →
     notRetried (Effects.message e0) = true →
     count_starts (processProfile env id index 0).1 = 1%nat ∧
     processProfile env id index 0
       = (t0 ++ [EvStop id], failure id (Effects.message e0))) ∧
  (count_starts (processProfile env id index 0).1 ≤ 2)%nat.
Proof.
  assert (∀ k, processProfile env id index (Datatypes.S k) =
               match processProfile_try (env (Datatypes.S k)) id tt with
               | (_, t1, Ok r) => (t1, r)
               | (_, t1, Throw e1) => (t1 ++ [EvStop id], failure id (Effects.message e1))
               end) as Hlast.
  { intros k. rewrite processProfile_unfold.
    destruct (processProfile_try _ id tt) as [[u t1] [r|e1]]; [done|].
    destruct (notRetried _); [done|].
    destruct (decide _) as [Hlt|]; [|done]. unfold MAX_RETRIES in Hlt. lia. }
  split; [|split; [|split]].
  - intros Hstart Hstatus. rewrite processProfile_unfold.
    unfold processProfile_try, startProfile, try_catch, call.
    rewrite !bind_run. rewrite Hstart. cbn beta iota zeta.
    rewrite Hstatus. simpl. done.
  - intros Htry Hnot. rewrite processProfile_unfold, Htry, Hnot.
    rewrite decide_True by (unfold MAX_RETRIES; lia).
    rewrite Hlast.
    destruct (processProfile_try_run (env 0%nat) id) as (t & r & Ht & _ & Hc0).
    rewrite Htry in Ht. injection Ht as <- <-.
    destruct (processProfile_try_run (env 1%nat) id) as (t1 & r1 & -> & _ & Hc1).
    destruct r1 as [r1|e1]; simpl.
    + split; [|done]. rewrite count_starts_app, Hc0.
      change (EvStop id :: EvSleep 5000 :: t1) with ([EvStop id; EvSleep 5000] ++ t1).
      by rewrite count_starts_app, Hc1.
    + split; [|done]. rewrite count_starts_app, Hc0.
      change (EvStop id :: EvSleep 5000 :: t1 ++ [EvStop id])
        with ([EvStop id; EvSleep 5000] ++ t1 ++ [EvStop id]).
      by rewrite !count_starts_app, Hc1.
  - intros Htry Hnot. rewrite processProfile_unfold, Htry, Hnot.
    destruct (processProfile_try_run (env 0%nat) id) as (t & r & Ht & _ & Hc0).
    rewrite Htry in Ht. injection Ht as <- <-.
    split; [|done]. cbn [fst]. by rewrite count_starts_app, Hc0.
  - rewrite processProfile_unfold.
    destruct (processProfile_try_run (env 0%nat) id) as (t & r & -> & _ & Hc0).
    destruct r as [r|e']; cbn [fst]; [lia|].
    destruct (notRetried _); cbn [fst].
    + rewrite count_starts_app, Hc0. cbn. lia.
    + rewrite decide_True by (unfold MAX_RETRIES; lia). rewrite Hlast.
      destruct (processProfile_try_run (env 1%nat) id) as (t1 & r1 & -> & _ & Hc1).
      destruct r1 as [r1|e1]; cbn [fst].
      * rewrite count_starts_app, Hc0.
        rewrite (count_starts_app [EvStop id; EvSleep 5000] t1), Hc1. cbn. lia.
      * rewrite count_starts_app, Hc0.
        rewrite (count_starts_app [EvStop id; EvSleep 5000] (t1 ++ [EvStop id])).
        rewrite count_starts_app, Hc1. cbn. lia.
Qed.

Lemma denied_skipped_transient_retried_once_witness :
  processProfile (λ _, Samples.attempt_with Samples.start_denied
                         Samples.fetch_nothing_found) "p1" 0 0
    = ([EvStart "p1"], failure "p1" skippedMessage) ∧
  (processProfile (λ _, Samples.attempt_with Samples.start_refused
                          Samples.fetch_nothing_found) "p1" 0 0).2
    = failure "p1" "connect ECONNREFUSED 127.0.0.1:2268".
Proof.
  split.
  - refine (proj1 (denied_skipped_transient_retried_once
              (λ _, Samples.attempt_with Samples.start_denied Samples.fetch_nothing_found)
              "p1" 0 (Error "Request failed with status code 400" (Some 400))
              [] (mkError "")) _ _); reflexivity.
  - pose proof (proj1 (proj2 (denied_skipped_transient_retried_once
              (λ _, Samples.attempt_with Samples.start_refused Samples.fetch_nothing_found)
              "p1" 0 (mkError "") [EvStart "p1"]
              (Error "connect ECONNREFUSED 127.0.0.1:2268" None)))) as H.
    destruct H as [_ ->]; [reflexivity|reflexivity|reflexivity].
Defined.

(** C3, as stated, fails for a failure that is no 400 and whose text
    happens to contain "in use".  The start request fails without an HTTP
    answer; the job is not retried: it makes one start request and, after
    the stop request, returns the failure record with the text of that
    error. *)
Lemma in_use_failure_not_retried :
  let env := λ _ : nat,
    Samples.attempt_with Samples.start_socket_error Samples.fetch_nothing_found in
  (∃ e, startAnswer (start (env 0%nat)) = Throw e ∧ status e = None) ∧
  processProfile env "p1" 0 0
    = ([EvStart "p1"; EvStop "p1"], failure "p1" "socket hang up: address in use") ∧
  count_starts (processProfile env "p1" 0 0).1 = 1%nat.
Proof.
  cbv zeta. split; [by eexists|]. split; reflexivity.
Qed.

End BatchJobs.

(** ** Extraction without a result *)

Section ExtractionTimeout.
Import JsString Effects Fast.

Lemma extract_times_out env debugPort l :
  extractionTimesOut env →
  extract env debugPort l =
    (set_page (set_browser l),
     [EvConnect debugPort; EvNewPage; EvGoto financeUrl; EvSleep 2000]
       ++ trace_of (pollRun env),
     Throw (mkError timeoutMessage)).
Proof.
  intros (Hc & Hn & Hg & Hf). unfold extract.
  rewrite bind_run. unfold call at 1. rewrite Hc. cbn beta iota.
  rewrite bind_run. unfold modify at 1. cbn beta iota.
  rewrite bind_run. unfold call at 1. rewrite Hn. cbn beta iota.
  rewrite bind_run. unfold modify at 1. cbn beta iota.
  rewrite bind_run. unfold call at 1. rewrite Hg. cbn beta iota.
  rewrite bind_run. unfold emit at 1. cbn beta iota.
  rewrite bind_run, poll_run, Hf. unfold throw. cbn beta iota.
  by rewrite app_nil_r.
Qed.

Lemma fetch_times_out {S} env debugPort id (s : S) :
  extractionTimesOut env →
  fetchTikTokDataFast env debugPort id s =
    (s,
     [EvConnect debugPort; EvNewPage; EvGoto financeUrl; EvSleep 2000]
       ++ trace_of (pollRun env) ++ [EvPageClose; EvDisconnect; EvStop id],
     Throw (mkError "Failed to extract seller_id or cookies")).
Proof.
  intros Hto. unfold fetchTikTokDataFast, invoke, fetchTikTokDataFast_body.
  rewrite bind_run. unfold try_catch at 1.
  rewrite (extract_times_out env debugPort initial Hto).
  generalize (trace_of (pollRun env)). intros tp.
  unfold cleanup, attempt, try_catch, call, emit, modify, get, throw.
  unfold mbind, M_bind, mret, M_ret. cbn beta iota.
  destruct (cleanupPageClose env) as [[]|e1], (stopAnswer env) as [[]|e2];
    simpl; rewrite <- ?app_assoc; reflexivity.
Qed.

Lemma try_times_out a id :
  Handlers.obtainsPort a id → extractionTimesOut (Handlers.fetch a) →
  ∃ t, Handlers.processProfile_try a id tt
       = (tt, t, Throw (mkError extractionFailed)) ∧ EvStop id ∈ t.
Proof.
  intros [debugPort Hport] Hto. unfold Handlers.processProfile_try.
  rewrite bind_run.
  destruct (startProfile_cases (Handlers.start a) id "Start failed"
              "Profile running but no port available"
              "Profile conflict (409) - could not get port" tt)
    as (t & r & Hs & _).
  rewrite Hs in Hport |- *. unfold result_of in Hport. simpl in Hport. subst r.
  rewrite bind_run. unfold emit at 1. cbn beta iota.
  rewrite bind_run, (fetch_times_out _ _ _ _ Hto).
  eexists. split; [reflexivity|].
  rewrite !elem_of_app, !elem_of_cons. tauto.
Qed.

(** C4, as amended.  When the extraction finds no seller identifier
    before its deadline, the fetch ends with the error "Failed to extract
    seller_id or cookies" (the text of the timeout is only logged), after
    it has released the page and sent the stop request for the profile,
    and it calls no data API.  A batch job in which this happens in both
    of its attempts returns success:false with that message, and the stop
    request was sent. *)
Theorem extraction_timeout_result {S} (env : FetchEnv) (debugPort : Z) (id : string)
    (s : S) (jobs : nat → Handlers.AttemptEnv) (index : nat) :
  (extractionTimesOut env →
     fetchTikTokDataFast env debugPort id s =
       (s,
        [EvConnect debugPort; EvNewPage; EvGoto financeUrl; EvSleep 2000]
          ++ trace_of (pollRun env) ++ [EvPageClose; EvDisconnect; EvStop id],
        Throw (mkError "Failed to extract seller_id or cookies"))) ∧
  ((∀ k, Handlers.obtainsPort (jobs k) id ∧
         extractionTimesOut (Handlers.fetch (jobs k))) →
     (Handlers.processProfile jobs id index 0).2
       = Handlers.failure id "Failed to extract seller_id or cookies" ∧
     Handlers.success (Handlers.processProfile jobs id index 0).2 = false ∧
     EvStop id ∈ (Handlers.processProfile jobs id index 0).1).
Proof.
  split; [apply fetch_times_out|].
  intros Hjobs.
  destruct (Hjobs 0%nat) as [Hp0 Ht0]. destruct (Hjobs 1%nat) as [Hp1 Ht1].
  destruct (try_times_out _ id Hp0 Ht0) as (t0 & Htry0 & Hstop0).
  destruct (try_times_out _ id Hp1 Ht1) as (t1 & Htry1 & Hstop1).
  rewrite processProfile_unfold, Htry0.
  change (Handlers.notRetried (message (mkError extractionFailed))) with false.
  cbn beta iota. rewrite decide_True by (unfold Handlers.MAX_RETRIES; lia).
  rewrite processProfile_unfold, Htry1.
  change (Handlers.notRetried (message (mkError extractionFailed))) with false.
  cbn beta iota. rewrite decide_False by (unfold Handlers.MAX_RETRIES; lia).
  cbn. split; [done|]. split; [done|].
  rewrite !elem_of_app. by left.
Qed.

Lemma extraction_timeout_result_witness :
  result_of (fetchTikTokDataFast Samples.fetch_nothing_found 9222 "p1" tt)
    = Throw (mkError "Failed to extract seller_id or cookies") ∧
  (Handlers.processProfile
     (λ _, Samples.attempt_with Samples.start_ok Samples.fetch_nothing_found)
     "p1" 0 0).2
    = Handlers.failure "p1" "Failed to extract seller_id or cookies".
Proof.
  pose proof (extraction_timeout_result Samples.fetch_nothing_found 9222 "p1" tt
                (λ _, Samples.attempt_with Samples.start_ok Samples.fetch_nothing_found)
                0) as [H1 H2].
  split.
  - rewrite H1; [reflexivity|]. repeat split; reflexivity.
  - apply H2. intros k. split.
    + exists 9222. reflexivity.
    + repeat split; reflexivity.
Defined.

(** C4, as stated, fails: no identifier is found before the deadline, and
    the error that the fetch ends with, and that the batch job records, is
    not the timeout message. *)
Lemma timeout_message_not_reported :
  extractionTimesOut Samples.fetch_nothing_found ∧
  ∃ e, result_of (fetchTikTokDataFast Samples.fetch_nothing_found 9222 "p1" tt)
       = Throw e ∧
       message e ≠ timeoutMessage ∧
       includes (message e) "Timeout" = false ∧
       includes (message e) "timeout" = false ∧
       Handlers.message
         (Handlers.processProfile
            (λ _, Samples.attempt_with Samples.start_ok Samples.fetch_nothing_found)
            "p1" 0 0).2 = message e.
Proof.
  split; [repeat split; reflexivity|].
  exists (mkError "Failed to extract seller_id or cookies").
  split; [vm_compute; reflexivity|]. split; [discriminate|].
  split; [vm_compute; reflexivity|]. split; vm_compute; reflexivity.
Qed.

End ExtractionTimeout.

(** ** Where the identifiers of a session come from *)

Section SessionSource.
Import JsString Effects Fast.

Lemma is_empty_false s : is_empty s = false ↔ s ≠ EmptyString.
Proof. by destruct s. Qed.

(** The URL strategies accept a URL only when it carries both identifiers. *)
Lemma extractSellerIdFromUrl_Some u info :
  extractSellerIdFromUrl u = Some info →
  has_param "seller_id" u = true ∧ has_param "oec_seller_id" u = true ∧
  sellerId info ≠ EmptyString ∧ oecSellerId info ≠ EmptyString.
Proof.
  unfold extractSellerIdFromUrl, has_param.
  destruct (searchParams u) as [params|]; [|done].
  destruct (searchParams_get "seller_id" params) as [s|]; [|done].
  destruct (searchParams_get "oec_seller_id" params) as [o|]; [|done].
  destruct (is_empty s) eqn:Hs, (is_empty o) eqn:Ho; simpl; try done.
  intros [= <-]. simpl. by rewrite <- !is_empty_false.
Qed.

Lemma deliver_source responses sellerInfo info :
  deliver responses sellerInfo = Some info →
  sellerInfo = Some info ∨
  ∃ u, u ∈ responses ∧ extractSellerIdFromUrl u = Some info.
Proof.
  unfold deliver. revert sellerInfo.
  induction responses as [|u responses IH]; intros sellerInfo; simpl; [by left|].
  intros H. apply IH in H as [H|(u' & Hin & Hu')].
  - unfold onResponse in H. destruct sellerInfo as [i|]; [by left|].
    destruct (_ && _); [|done]. right. exists u. split; [apply elem_of_cons; by left|done].
  - right. exists u'. split; [apply elem_of_cons; by right|done].
Qed.

(** The seller that the polling loop ends with was already known, or comes
    from a URL with both identifiers, or from the page content, which
    holds one identifier that is used for both fields. *)
Lemma poll_source rounds sellerInfo info :
  result_of (poll (S:=unit) rounds sellerInfo tt) = Ok (Some info) →
  sellerInfo = Some info ∨
  (∃ u, u ∈ flat_map (λ c, currentUrl c :: responsesDuringEvaluate c
                                        ++ responsesDuringSleep c) rounds ∧
        extractSellerIdFromUrl u = Some info) ∨
  (∃ c d, c ∈ rounds ∧ pageData c = Ok (Some d) ∧
          info = {| sellerId := id d; oecSellerId := id d |}).
Proof.
  revert sellerInfo.
  induction rounds as [|c rounds IH]; intros [i|]; cbn [poll];
    try (intros [= ->]; by left); try done.
  destruct (isClosed c); [done|].
  (* what the rest of the loop can find *)
  assert (result_of (poll (S:=unit) rounds
                       (deliver (responsesDuringSleep c)
                          (deliver (responsesDuringEvaluate c) None)) tt)
          = Ok (Some info) →
          None = Some info ∨
          (∃ u, u ∈ flat_map (λ c, currentUrl c :: responsesDuringEvaluate c
                                                ++ responsesDuringSleep c)
                             (c :: rounds) ∧
                extractSellerIdFromUrl u = Some info) ∨
          (∃ c0 d, c0 ∈ c :: rounds ∧ pageData c0 = Ok (Some d) ∧
                   info = {| sellerId := id d; oecSellerId := id d |})) as Hrest.
  { intros H. apply IH in H as [H|[(u' & Hin & Hu')|(c' & d & Hin & Hd' & ->)]].
    - right. left. apply deliver_source in H as [H|(u' & Hin & Hu')].
      + apply deliver_source in H as [H|(u' & Hin & Hu')]; [done|].
        exists u'. split; [|done]. cbn [flat_map]. set_solver.
      + exists u'. split; [|done]. cbn [flat_map]. set_solver.
    - right. left. exists u'. split; [|done]. cbn [flat_map]. set_solver.
    - right. right. exists c', d. split; [set_solver|done]. }
  assert (∀ d, pageData c = Ok (Some d) →
               Some {| sellerId := id d; oecSellerId := id d |} = Some info →
               None = Some info ∨
               (∃ u, u ∈ flat_map (λ c, currentUrl c :: responsesDuringEvaluate c
                                                     ++ responsesDuringSleep c)
                                  (c :: rounds) ∧
                     extractSellerIdFromUrl u = Some info) ∨
               (∃ c0 d, c0 ∈ c :: rounds ∧ pageData c0 = Ok (Some d) ∧
                        info = {| sellerId := id d; oecSellerId := id d |})) as Hpage.
  { intros d Hd [= <-]. right. right. exists c, d. split; [set_solver|done]. }
  destruct (if includes (href (currentUrl c)) "seller_id="
            then extractSellerIdFromUrl (currentUrl c) else None) as [i|] eqn:Hu.
  - intros [= ->]. right. left. exists (currentUrl c). split.
    + cbn [flat_map]. set_solver.
    + by destruct (includes _ _).
  - clear Hu. rewrite bind_run. unfold try_catch, call.
    revert Hrest Hpage.
    destruct (pageData c) as [[d|]|e]; cbn beta iota; intros Hrest Hpage.
    + unfold result_of. simpl. intros [= H]. apply (Hpage d eq_refl). by rewrite H.
    + unfold mbind, M_bind, emit, mret, M_ret. cbn beta iota. revert Hrest.
      destruct (poll (S:=unit) rounds _ ()) as [[u t] o]. unfold result_of. simpl.
      intros Hrest. exact Hrest.
    + unfold mbind, M_bind, emit, mret, M_ret. cbn beta iota. revert Hrest.
      destruct (poll (S:=unit) rounds _ ()) as [[u t] o]. unfold result_of. simpl.
      intros Hrest. exact Hrest.
Qed.

Lemma foundSeller_source env info :
  foundSeller env = Some info →
  (∃ u, u ∈ observedUrls env ∧ extractSellerIdFromUrl u = Some info) ∨
  (∃ c d, c ∈ cycles env ∧ pageData c = Ok (Some d) ∧
          info = {| sellerId := id d; oecSellerId := id d |}).
Proof.
  unfold foundSeller, pollRun, observedUrls.
  destruct (result_of _) as [r|e] eqn:Hr; [|done]. intros ->.
  apply poll_source in Hr as [H|[(u & Hin & Hu)|H]].
  - apply deliver_source in H as [H|(u & Hin & Hu)]; [done|].
    left. exists u. split; [|done]. apply elem_of_app. by left.
  - left. exists u. split; [|done]. apply elem_of_app. by right.
  - by right.
Qed.

(** The variables after the [try] block: no seller, or the seller that the
    polling loop found. *)
Lemma extract_locals env debugPort l0 t0 r0 :
  extract env debugPort initial = (l0, t0, r0) →
  l_sellerId l0 = EmptyString ∨
  ∃ info, foundSeller env = Some info ∧
          l_sellerId l0 = sellerId info ∧ l_oecSellerId l0 = oecSellerId info.
Proof.
  unfold extract.
  rewrite bind_run. unfold call at 1.
  destruct (connect env) as [[]|e]; cbn beta iota; [|intros [= <- _ _]; by left].
  rewrite bind_run. unfold modify at 1. cbn beta iota.
  rewrite bind_run. unfold call at 1.
  destruct (newPage env) as [[]|e]; cbn beta iota; [|intros [= <- _ _]; by left].
  rewrite bind_run. unfold modify at 1. cbn beta iota.
  rewrite bind_run. unfold call at 1.
  destruct (goto env) as [[]|e]; cbn beta iota; [|intros [= <- _ _]; by left].
  rewrite bind_run. unfold emit at 1. cbn beta iota.
  rewrite bind_run, poll_run. cbn beta iota.
  destruct (foundSeller env) as [info|]; [|intros [= <- _ _]; by left].
  rewrite bind_run. unfold modify at 1. cbn beta iota.
  rewrite bind_run. unfold call at 1.
  destruct (cookiesAnswer env) as [cs|e]; cbn beta iota;
    [|intros [= <- _ _]; right; by exists info].
  rewrite bind_run. unfold modify at 1. cbn beta iota.
  rewrite bind_run. unfold call at 1.
  destruct (pageClose env) as [[]|e]; cbn beta iota;
    intros [= <- _ _]; right; by exists info.
Qed.

Lemma extraction_locals env debugPort l1 t1 r1 :
  try_catch (extract env debugPort) (cleanup env) initial = (l1, t1, r1) →
  l_sellerId l1 = EmptyString ∨
  ∃ info, foundSeller env = Some info ∧
          l_sellerId l1 = sellerId info ∧ l_oecSellerId l1 = oecSellerId info.
Proof.
  unfold try_catch.
  destruct (extract env debugPort initial) as [[l0 t0] [[]|e]] eqn:He.
  - intros [= <- _ _]. by eapply extract_locals.
  - destruct (cleanup_total env e l0) as (l' & t & -> & H1 & H2 & _).
    intros [= <- _ _]. rewrite H1, H2. by eapply extract_locals.
Qed.

Lemma attempt_call {S} ev (answer : outcome unit) (s : S) :
  attempt (call ev answer) s = (s, [ev], Ok tt).
Proof. unfold attempt, try_catch, call. by destruct answer as [[]|e]. Qed.

Lemma extraction_no_api env debugPort :
  emits (λ e, ∀ a b, e ≠ EvStatApi a b)
        (try_catch (extract env debugPort) (cleanup env)).
Proof.
  unfold extract, cleanup. repeat (emits_step || apply emits_poll); done.
Qed.

Lemma directClient_stat {S} env seller oec :
  emits (S:=S) (λ e, ∀ a b, e = EvStatApi a b → a = oec ∧ b = seller)
        (directClient env seller oec).
Proof.
  unfold directClient, fetchMonth. repeat emits_step; try done.
  by intros a b [= <- <-].
Qed.

(** C5, as amended.  Whenever a session is handed to the direct data client
    (its first request is sent), both identifier fields are non-empty, and
    either they are the two query parameters [seller_id] and
    [oec_seller_id] of one URL that the run saw, both present and
    non-empty, or they are both the single seller id that the page content
    held. *)
Theorem session_identifiers {S} (env : FetchEnv) (debugPort : Z) (profileId : string)
    (s : S) (oec seller : string) :
  EvStatApi oec seller ∈ trace_of (fetchTikTokDataFast env debugPort profileId s) →
  seller ≠ EmptyString ∧ oec ≠ EmptyString ∧
  ((∃ u, u ∈ observedUrls env ∧
         has_param "seller_id" u = true ∧ has_param "oec_seller_id" u = true ∧
         extractSellerIdFromUrl u = Some {| sellerId := seller; oecSellerId := oec |}) ∨
   (∃ c d, c ∈ cycles env ∧ pageData c = Ok (Some d) ∧
           seller = id d ∧ oec = id d)).
Proof.
  unfold fetchTikTokDataFast, invoke, fetchTikTokDataFast_body.
  rewrite bind_run.
  pose proof (extraction_no_api env debugPort initial) as Hnone.
  destruct (try_catch (extract env debugPort) (cleanup env) initial)
    as [[l1 t1] r1] eqn:Hx.
  apply extraction_locals in Hx. unfold trace_of in Hnone. simpl in Hnone.
  rewrite Forall_forall in Hnone.
  destruct r1 as [[]|e]; [|unfold trace_of; simpl; intros H; by destruct (Hnone _ H oec seller)].
  rewrite bind_run, attempt_call. cbn beta iota.
  rewrite bind_run. unfold get at 1. cbn beta iota.
  destruct (is_empty (l_sellerId l1)) eqn:Hs; cbn [orb].
  { destruct (negb _); unfold trace_of, throw; simpl;
      intros H; apply elem_of_app in H as [H|H];
      [by destruct (Hnone _ H oec seller)| |by destruct (Hnone _ H oec seller)|];
      (apply elem_of_cons in H as [H|H]; [done|]); by apply elem_of_nil in H. }
  destruct ((length (cookies l1) =? 0)%nat).
  { destruct (negb _); unfold trace_of, throw; simpl;
      intros H; apply elem_of_app in H as [H|H];
      [by destruct (Hnone _ H oec seller)| |by destruct (Hnone _ H oec seller)|];
      (apply elem_of_cons in H as [H|H]; [done|]); by apply elem_of_nil in H. }
  pose proof (directClient_stat env (l_sellerId l1) (l_oecSellerId l1) l1) as Hstat.
  destruct (directClient env (l_sellerId l1) (l_oecSellerId l1) l1) as [[l2 t2] r2].
  unfold trace_of in *. simpl in *. rewrite Forall_forall in Hstat.
  intros H. apply elem_of_app in H as [H|H]; [by destruct (Hnone _ H oec seller)|].
  apply elem_of_cons in H as [H|H]; [done|].
  destruct (Hstat _ H oec seller eq_refl) as [-> ->].
  apply is_empty_false in Hs.
  destruct Hx as [Hx|(info & Hfound & Hsid & Hoec)]; [done|].
  apply foundSeller_source in Hfound
    as [(u & Hin & Hu)|(c & d & Hin & Hd & ->)].
  - destruct (extractSellerIdFromUrl_Some u info Hu) as (H1 & H2 & H3 & H4).
    rewrite Hsid, Hoec. split; [done|]. split; [done|]. left. exists u.
    split; [done|]. split; [done|]. split; [done|]. by destruct info.
  - simpl in Hsid, Hoec. rewrite Hoec, <- Hsid. split; [done|]. split; [done|].
    right. exists c, d. by rewrite Hsid.
Qed.

Lemma session_identifiers_witness :
  EvStatApi "7495" "7495" ∈ trace_of Samples.page_content_run ∧
  ("7495" : string) ≠ EmptyString.
Proof.
  assert (EvStatApi "7495" "7495" ∈ trace_of Samples.page_content_run) as H.
  { apply (bool_decide_unpack _). vm_compute. exact I. }
  split; [exact H|].
  exact (proj1 (session_identifiers Samples.fetch_page_content 9222 "p1" tt
                  "7495" "7495" H)).
Defined.

(** C5, as stated, fails: no URL of the run carries [seller_id] or
    [oec_seller_id]; the page content holds one seller id; the run still
    makes a session, with that id in both fields, sends the requests of
    the direct data client with it, and returns a result. *)
Lemma session_from_one_identifier :
  forallb (λ u, negb (has_param "seller_id" u) && negb (has_param "oec_seller_id" u))
          (observedUrls Samples.fetch_page_content) = true ∧
  EvStatApi "7495" "7495" ∈ trace_of Samples.page_content_run ∧
  (∃ r, result_of Samples.page_content_run = Ok r ∧
        result_sellerId r = "7495" ∧ result_oecSellerId r = "7495").
Proof.
  split; [vm_compute; reflexivity|]. split.
  - apply (bool_decide_unpack _). vm_compute. exact I.
  - exists Samples.page_content_result. vm_compute. done.
Qed.

End SessionSource.

(** ** Login automaton: the two-factor state *)

Section TwoFactor.
Import JsString Effects TiktokLogin.

Lemma openAndSubmit_no_form env debugPort credentials :
  emits (λ e, e ≠ EvTwoFactorForm) (openAndSubmit env debugPort credentials).
Proof.
  unfold openAndSubmit.
  repeat (emits_step || apply emits_clickLoginButton); done.
Qed.

Ltac not_in_trace H :=
  exfalso; repeat (apply elem_of_cons in H as [H|H]; [discriminate H|]);
  by apply elem_of_nil in H.

(** After the credentials were submitted: when the two-factor input shows
    up and there is no secret or no code, the flow ends in the manual-entry
    state; it does not throw. *)
Lemma afterSubmit_two_factor env credentials (browser : bool) :
  EvTwoFactorForm ∈ trace_of (afterSubmit env credentials browser) →
  truthy (twoFactorSecret credentials) = false ∨ noCode env →
  result_of (afterSubmit env credentials browser)
    = Ok (pending "2FA required - please enter code manually").
Proof.
  unfold afterSubmit, noCode, get2FACode, try_catch, call, emit.
  unfold mbind, M_bind, mret, M_ret. cbn beta iota.
  destruct (waitTwoFactorInput env) as [[]|e]; cbn beta iota.
  - intros _ Hno.
    destruct (twoFactorSecret credentials) as [secret|]; [|reflexivity].
    destruct (is_empty secret) eqn:Hs; cbn [negb]; [reflexivity|].
    destruct Hno as [Hno|Hno]; [simpl in Hno; by rewrite Hs in Hno|].
    destruct (totp env) as [[c|]|e]; cbn beta iota; try reflexivity.
    rewrite Hno. reflexivity.
  - intros Hin _. unfold trace_of in Hin.
    destruct (includes (urlFinal env) "homepage" || includes (urlFinal env) "dashboard"
              || includes (urlFinal env) "seller-us.tiktok.com/homepage");
      [simpl in Hin; not_in_trace Hin|].
    destruct (includes (urlFinal env) "login"); [|simpl in Hin; not_in_trace Hin].
    destruct (errorText env) as [[m|]|e']; simpl in Hin;
      try destruct (negb (is_empty m)); simpl in Hin; not_in_trace Hin.
Qed.

(** C6.  In the login automaton, when the two-factor input appears and
    either no TOTP secret is configured or the TOTP service gives no code,
    the login returns success:true with requires2FA:true and the message
    that asks for manual entry; it does not return a failure. *)
Theorem two_factor_without_code {S} (env : LoginEnv) (debugPort : Z)
    (credentials : LoginCredentials) (s : S) :
  EvTwoFactorForm ∈ trace_of (loginTikTokSeller env debugPort credentials s) →
  truthy (twoFactorSecret credentials) = false ∨ noCode env →
  result_of (loginTikTokSeller env debugPort credentials s)
    = Ok {| success := true;
            message := "2FA required - please enter code manually";
            requires2FA := Some true |}.
Proof.
  unfold loginTikTokSeller, invoke, loginFlow, try_catch.
  rewrite bind_run.
  pose proof (openAndSubmit_no_form env debugPort credentials false) as Hpre.
  destruct (openAndSubmit env debugPort credentials false) as [[b1 t1] r1].
  unfold trace_of in Hpre. simpl in Hpre. rewrite Forall_forall in Hpre.
  destruct r1 as [[r|]|e].
  - unfold trace_of. simpl. rewrite app_nil_r. intros Hin. by destruct (Hpre _ Hin).
  - pose proof (afterSubmit_two_factor env credentials b1) as Hpost.
    destruct (afterSubmit env credentials b1) as [[b2 t2] r2].
    unfold trace_of, result_of in *. simpl in Hpost.
    assert (EvTwoFactorForm ∈ t1 ++ t2 → EvTwoFactorForm ∈ t2) as Hsplit.
    { intros [Hin|Hin]%elem_of_app; [by destruct (Hpre _ Hin)|done]. }
    destruct r2 as [r|e]; simpl.
    + intros Hin Hno. by apply Hpost; [apply Hsplit|].
    + intros Hin Hno. exfalso.
      assert (EvTwoFactorForm ∈ t2) as Hin2.
      { apply Hsplit. revert Hin. unfold get, mbind, M_bind, mret, M_ret, emit.
        destruct b2; simpl; rewrite ?app_nil_r; intros Hin; [|exact Hin].
        apply elem_of_app in Hin as [Hin|Hin]; [exact Hin|not_in_trace Hin]. }
      by specialize (Hpost Hin2 Hno).
  - unfold get, mbind, M_bind, mret, M_ret, emit. unfold trace_of.
    destruct b1; simpl; rewrite ?app_nil_r; intros Hin;
      try (apply elem_of_app in Hin as [Hin|Hin]; [|not_in_trace Hin]);
      by destruct (Hpre _ Hin).
Qed.

Lemma two_factor_without_code_witness :
  result_of (loginTikTokSeller Samples.login_two_factor 9222
               Samples.credentials_without_secret tt)
    = Ok {| success := true;
            message := "2FA required - please enter code manually";
            requires2FA := Some true |}.
Proof.
  apply (two_factor_without_code Samples.login_two_factor 9222
           Samples.credentials_without_secret tt).
  - apply (bool_decide_unpack _). vm_compute. exact I.
  - left. reflexivity.
Defined.

End TwoFactor.


(** ** The fetch: order of its calls, and when it succeeds *)

Section FetchOrder.
Import JsString Json JsDate Effects Fast Calls Session.

Lemma extraction_browser_only env debugPort :
  emits (λ e, is_browser_call e || is_sleep e = true)
        (try_catch (extract env debugPort) (cleanup env)).
Proof.
  unfold extract, cleanup. repeat (emits_step || apply emits_poll); done.
Qed.

Lemma directClient_requests_only {S} env seller oec :
  emits (S:=S) (λ e, is_data_request e = true) (directClient env seller oec).
Proof. unfold directClient, fetchMonth. repeat emits_step; done. Qed.

Lemma fetch_trace_shape {S} env debugPort profileId (s : S) :
  ∃ before after r,
    fetchTikTokDataFast env debugPort profileId s
      = (s, before ++ EvStop profileId :: after, r) ∧
    Forall (λ e, is_browser_call e || is_sleep e = true) before ∧
    Forall (λ e, is_data_request e = true) after.
Proof.
  unfold fetchTikTokDataFast, invoke, fetchTikTokDataFast_body.
  rewrite bind_run.
  pose proof (extraction_browser_only env debugPort initial) as Hbefore.
  destruct (extraction_total env debugPort initial) as (l1 & t1 & Hx).
  rewrite Hx in Hbefore |- *. unfold trace_of in Hbefore. simpl in Hbefore.
  cbn beta iota.
  rewrite bind_run, attempt_call. cbn beta iota.
  rewrite bind_run. unfold get at 1. cbn beta iota.
  exists t1.
  destruct (is_empty (l_sellerId l1) || (length (cookies l1) =? 0)%nat).
  - exists []. destruct (negb _); unfold throw; simpl; eexists; by repeat split.
  - pose proof (directClient_requests_only env (l_sellerId l1) (l_oecSellerId l1) l1)
      as Hafter.
    destruct (directClient env (l_sellerId l1) (l_oecSellerId l1) l1) as [[l2 t2] r2].
    exists t2, r2. unfold trace_of in *. simpl in *. by repeat split.
Qed.

(** X1.  Every run of [fetchTikTokDataFast] sends exactly one stop request for
    its profile.  All it does before is to drive the browser and to wait;
    all it does after is to send requests of the direct data client. *)
Theorem fetch_stops_between_browser_and_requests {S} (env : FetchEnv)
    (debugPort : Z) (profileId : string) (s : S) :
  ∃ before after,
    trace_of (fetchTikTokDataFast env debugPort profileId s)
      = before ++ EvStop profileId :: after ∧
    Forall (λ e, is_browser_call e || is_sleep e = true) before ∧
    Forall (λ e, is_data_request e = true) after.
Proof.
  destruct (fetch_trace_shape env debugPort profileId s)
    as (before & after & r & -> & H1 & H2).
  by exists before, after.
Qed.

(** The variables after the [try]/[catch] of the extraction, by the answers
    of the outside world. *)
Lemma extract_session env debugPort l0 t0 r0 :
  extract env debugPort initial = (l0, t0, r0) →
  (∃ info cs, connect env = Ok tt ∧ newPage env = Ok tt ∧ goto env = Ok tt ∧
              foundSeller env = Some info ∧ cookiesAnswer env = Ok cs ∧
              l_sellerId l0 = sellerId info ∧ l_oecSellerId l0 = oecSellerId info ∧
              cookies l0 = cs) ∨
  (cookies l0 = [] ∧ lastNetworkError l0 = EmptyString ∧
   ((∃ err, extractionFailsWith env err ∧ r0 = Throw err) ∨
    (extractionTimesOut env ∧ r0 = Throw (mkError timeoutMessage)))).
Proof.
  unfold extract, extractionFailsWith, extractionTimesOut.
  rewrite bind_run. unfold call at 1.
  destruct (connect env) as [[]|e]; cbn beta iota;
    [|intros [= <- _ <-]; right; naive_solver].
  rewrite bind_run. unfold modify at 1. cbn beta iota.
  rewrite bind_run. unfold call at 1.
  destruct (newPage env) as [[]|e]; cbn beta iota;
    [|intros [= <- _ <-]; right; naive_solver].
  rewrite bind_run. unfold modify at 1. cbn beta iota.
  rewrite bind_run. unfold call at 1.
  destruct (goto env) as [[]|e]; cbn beta iota;
    [|intros [= <- _ <-]; right; naive_solver].
  rewrite bind_run. unfold emit at 1. cbn beta iota.
  rewrite bind_run, poll_run. cbn beta iota.
  destruct (foundSeller env) as [info|]; [|intros [= <- _ <-]; right; naive_solver].
  rewrite bind_run. unfold modify at 1. cbn beta iota.
  rewrite bind_run. unfold call at 1.
  destruct (cookiesAnswer env) as [cs|e]; cbn beta iota;
    [|intros [= <- _ <-]; right; naive_solver].
  rewrite bind_run. unfold modify at 1. cbn beta iota.
  rewrite bind_run. unfold call at 1.
  destruct (pageClose env) as [[]|e]; cbn beta iota;
    intros [= <- _ _]; left; by exists info, cs.
Qed.

Lemma cleanup_network env e l :
  ∃ l' t, cleanup env e l = (l', t, Ok tt) ∧
          l_sellerId l' = l_sellerId l ∧ l_oecSellerId l' = l_oecSellerId l ∧
          cookies l' = cookies l ∧
          lastNetworkError l' = lastNetworkError (classify (message e) l).
Proof.
  unfold cleanup, attempt, try_catch, call, emit, modify, get.
  unfold mbind, M_bind, mret, M_ret. cbn beta iota.
  destruct (classify_keeps (message e) l) as (H1 & H2 & H3).
  generalize dependent (classify (message e) l). intros l0 H1 H2 H3.
  destruct (page l0), (browser l0), (cleanupPageClose env) as [[]|e']; simpl; eauto 10.
Qed.

(** What [fetchTikTokDataFast] returns, from the variables that the
    extraction leaves. *)
Lemma fetch_after_extraction {S} env debugPort profileId (s : S) l1 t1 :
  try_catch (extract env debugPort) (cleanup env) initial = (l1, t1, Ok tt) →
  result_of (fetchTikTokDataFast env debugPort profileId s) =
  if is_empty (l_sellerId l1) || (length (cookies l1) =? 0)%nat
  then Throw (mkError (if negb (is_empty (lastNetworkError l1))
                       then lastNetworkError l1 else extractionFailed))
  else result_of (directClient env (l_sellerId l1) (l_oecSellerId l1) l1).
Proof.
  intros Hx. unfold fetchTikTokDataFast, invoke, fetchTikTokDataFast_body.
  rewrite bind_run, Hx. cbn beta iota.
  rewrite bind_run, attempt_call. cbn beta iota.
  rewrite bind_run. unfold get at 1. cbn beta iota.
  destruct (is_empty (l_sellerId l1) || (length (cookies l1) =? 0)%nat).
  - by destruct (negb _).
  - by destruct (directClient env (l_sellerId l1) (l_oecSellerId l1) l1) as [[l2 t2] r2].
Qed.

(** The direct data client fails only when its first request fails. *)
Lemma directClient_result {S} env seller oec (s : S) :
  match statApi env with
  | Ok finance =>
      ∃ r, result_of (directClient env seller oec s) = Ok r ∧
           result_sellerId r = seller ∧ result_oecSellerId r = oec ∧
           financeData r = finance ∧
           paymentData r = match paymentApi env with Ok d => Some d | Throw _ => None end ∧
           Fast.onHoldAmount (summary r)
             = or_default (path ["data"; "to_settle_amount_stat"; "amount";
                                 "format_with_symbol"] finance) "N/A" ∧
           Fast.sumAmount (summary r)
             = match paymentApi env with
               | Ok d => or_default (path ["data"; "sum_amount"; "format_with_symbol"] d) "N/A"
               | Throw _ => JStr "N/A"
               end ∧
           monthly (summary r) = Fast.monthlyData r
  | Throw e => result_of (directClient env seller oec s) = Throw e
  end.
Proof.
  unfold directClient. rewrite bind_run. unfold call at 1.
  destruct (statApi env) as [finance|e]; [|done]. cbn beta iota zeta.
  rewrite bind_run. unfold try_catch at 1. rewrite bind_run. unfold call at 1.
  destruct (mapM_fetchMonth env seller oec (getFullYear (timeZone env) (now env) - 1)
              (seqZ 0 12) s) as (ta & es1 & E1 & _).
  destruct (mapM_fetchMonth env seller oec (getFullYear (timeZone env) (now env))
              (seqZ 0 (getMonth (timeZone env) (now env) + 1)) s) as (tb & es2 & E2 & _).
  destruct (paymentApi env) as [d|e]; unfold mret at 1 2, M_ret at 1 2; cbn beta iota;
    rewrite bind_run, E1; cbn beta iota; rewrite bind_run, E2; cbn beta iota;
    eexists; (split; [reflexivity|]); simpl; done.
Qed.

Lemma classify_label msg l :
  lastNetworkError (classify msg l) =
  if includes msg "ERR_PROXY_CONNECTION_FAILED" then "⚠ Proxy dead/unavailable"
  else if includes msg "ERR_TIMED_OUT" then "⚠ Network timeout"
  else if includes msg "ERR_CONNECTION_REFUSED" then "⚠ Connection refused"
  else if includes msg "ERR_NAME_NOT_RESOLVED" then "⚠ DNS resolution failed"
  else lastNetworkError l.
Proof. unfold classify. repeat case_match; done. Qed.

Lemma extraction_session env debugPort l1 t1 r1 :
  try_catch (extract env debugPort) (cleanup env) initial = (l1, t1, r1) →
  (∃ info cs, connect env = Ok tt ∧ newPage env = Ok tt ∧ goto env = Ok tt ∧
              foundSeller env = Some info ∧ cookiesAnswer env = Ok cs ∧
              l_sellerId l1 = sellerId info ∧ l_oecSellerId l1 = oecSellerId info ∧
              cookies l1 = cs) ∨
  (cookies l1 = [] ∧
   ((∃ err, extractionFailsWith env err ∧
            lastNetworkError l1 = lastNetworkError (classify (message err) initial)) ∨
    (extractionTimesOut env ∧ lastNetworkError l1 = EmptyString))).
Proof.
  unfold try_catch.
  destruct (extract env debugPort initial) as [[l0 t0] r0] eqn:He.
  apply extract_session in He.
  destruct r0 as [[]|e].
  - intros [= <- _ _].
    destruct He as [He|(Hc & Hn & [(err & _ & Hr)|(_ & Hr)])]; [by left|done..].
  - destruct (cleanup_network env e l0) as (l' & t & -> & H1 & H2 & H3 & H4).
    intros [= <- _ _]. rewrite H1, H2, H3, H4.
    destruct He as [He|(Hc & Hn & [(err & Herr & [= ->])|(Hout & [= ->])])];
      [by left|right; split; [done|]..].
    + left. exists err. split; [done|]. by rewrite !classify_label, Hn.
    + right. split; [done|]. by rewrite classify_label, Hn.
Qed.

Lemma fetch_Ok_iff {S} (env : FetchEnv) (debugPort : Z) (profileId : string)
    (s : S) :
  (∃ r, result_of (fetchTikTokDataFast env debugPort profileId s) = Ok r) ↔
  sessionObtained env ∧ ∃ finance, statApi env = Ok finance.
Proof.
  destruct (extraction_total env debugPort initial) as (l1 & t1 & Hx).
  rewrite (fetch_after_extraction env debugPort profileId s l1 t1 Hx).
  apply extraction_session in Hx.
  pose proof (directClient_result env (l_sellerId l1) (l_oecSellerId l1) l1) as Hd.
  unfold sessionObtained.
  destruct Hx as [(info & cs & H1 & H2 & H3 & H4 & H5 & H6 & H7 & H8)|(Hc & Hx)].
  - destruct (is_empty (l_sellerId l1)) eqn:Hs; cbn [orb].
    { split; [by intros [r Hr]|].
      intros [(_ & _ & _ & info' & cs' & Hf & Hne & _) _].
      rewrite H4 in Hf. injection Hf as <-. rewrite H6 in Hs.
      by apply is_empty_false in Hne; rewrite Hne in Hs. }
    destruct (length (cookies l1) =? 0)%nat eqn:Hl.
    { split; [by intros [r Hr]|].
      intros [(_ & _ & _ & info' & cs' & _ & _ & Hf & Hne) _].
      rewrite H5 in Hf. injection Hf as <-. rewrite H8 in Hl.
      apply Nat.eqb_eq in Hl. by destruct cs. }
    destruct (statApi env) as [finance|e].
    + destruct Hd as (r & -> & _). split; [|by eauto].
      intros _. split; [|by eauto]. repeat (split; [done|]).
      exists info, cs. rewrite <- H6. apply is_empty_false in Hs.
      repeat (split; [done|]). intros ->. by rewrite H8 in Hl.
    + rewrite Hd. split; [by intros [r Hr]|]. by intros [_ [finance Hf]].
  - rewrite Hc. rewrite orb_true_r. split; [by intros [r Hr]|].
    intros [(H1 & H2 & H3 & info & cs & H4 & H5 & H6 & H7) _].
    unfold extractionFailsWith, extractionTimesOut in Hx.
    destruct Hx as [(err & Hx & _)|((_ & _ & _ & Hx) & _)]; [|congruence].
    destruct Hx as [Hx|[(_ & Hx)|[(_ & _ & Hx)|(_ & _ & _ & _ & Hx)]]]; congruence.
Qed.

(** X2.  A fetch returns a result exactly when the extraction obtains a session
    and the first request of the direct data client is answered.  Neither
    the answer to [page.close()], nor the answer to the stop request, nor
    the answers to the payment and monthly requests matter. *)
Theorem fetch_succeeds_iff {S} (env : FetchEnv) (debugPort : Z) (profileId : string)
    (s : S) :
  (∃ r, result_of (fetchTikTokDataFast env debugPort profileId s) = Ok r) ↔
  sessionObtained env ∧ ∃ finance, statApi env = Ok finance.
Proof. apply fetch_Ok_iff. Qed.

Lemma truthy_or_default v fallback :
  fallback ≠ EmptyString → truthy (or_default v fallback) = true.
Proof.
  intros H. unfold or_default. destruct v as [x|].
  - destruct (truthy x) eqn:Hx; [done|]. simpl. by destruct fallback.
  - simpl. by destruct fallback.
Qed.

(** X3.  The result of a fetch: the two identifiers are those of the seller
    that the extraction found; the finance data is the body of the first
    answer; a failed payment request leaves [paymentData] null and the sum
    "N/A"; the two amounts of the summary are never empty (a missing or
    empty amount is replaced by "N/A"); the summary carries the same
    monthly series as the result. *)
Theorem fetch_result_fields {S} (env : FetchEnv) (debugPort : Z) (profileId : string)
    (s : S) (r : TikTokFinanceResult) :
  result_of (fetchTikTokDataFast env debugPort profileId s) = Ok r →
  ∃ info finance,
    foundSeller env = Some info ∧ statApi env = Ok finance ∧
    result_sellerId r = sellerId info ∧ result_oecSellerId r = oecSellerId info ∧
    financeData r = finance ∧
    paymentData r = match paymentApi env with Ok d => Some d | Throw _ => None end ∧
    (paymentData r = None → Fast.sumAmount (summary r) = JStr "N/A") ∧
    truthy (Fast.onHoldAmount (summary r)) = true ∧
    truthy (Fast.sumAmount (summary r)) = true ∧
    monthly (summary r) = Fast.monthlyData r.
Proof.
  destruct (extraction_total env debugPort initial) as (l1 & t1 & Hx).
  rewrite (fetch_after_extraction env debugPort profileId s l1 t1 Hx).
  apply extraction_session in Hx.
  pose proof (directClient_result env (l_sellerId l1) (l_oecSellerId l1) l1) as Hd.
  destruct Hx as [(info & cs & H1 & H2 & H3 & H4 & H5 & H6 & H7 & H8)|(Hc & Hx)];
    [|by rewrite Hc, orb_true_r].
  destruct (is_empty (l_sellerId l1) || (length (cookies l1) =? 0)%nat); [done|].
  destruct (statApi env) as [finance|e]; [|by rewrite Hd].
  destruct Hd as (r' & -> & E1 & E2 & E3 & E4 & E5 & E6 & E7).
  intros [= <-]. exists info, finance.
  rewrite E1, E2, E5, E6. repeat (split; [done|]).
  split; [|split; [by apply truthy_or_default|split; [|done]]].
  - rewrite E4. by destruct (paymentApi env).
  - destruct (paymentApi env); [by apply truthy_or_default|done].
Qed.

Lemma fetch_result_fields_witness :
  ∃ info finance,
    foundSeller Samples.fetch_page_content = Some info ∧
    statApi Samples.fetch_page_content = Ok finance ∧
    result_sellerId Samples.page_content_result = sellerId info.
Proof.
  destruct (fetch_result_fields Samples.fetch_page_content 9222 "p1" tt
              Samples.page_content_result)
    as (info & finance & H1 & H2 & H3 & _).
  - vm_compute. reflexivity.
  - by exists info, finance.
Defined.

(** X4.  When connecting, opening the page, navigating or reading the cookies
    fails, the fetch throws a new error (one without an HTTP status); its
    text is the label of the first of the four network markers that the
    text of the failure contains, and the generic text when it contains
    none. *)
Theorem network_failure_report {S} (env : FetchEnv) (debugPort : Z) (profileId : string)
    (s : S) (err : error) :
  extractionFailsWith env err →
  ∃ e, result_of (fetchTikTokDataFast env debugPort profileId s) = Throw e ∧
       status e = None ∧
       Effects.message e =
         if includes (Effects.message err) "ERR_PROXY_CONNECTION_FAILED"
         then "⚠ Proxy dead/unavailable"
         else if includes (Effects.message err) "ERR_TIMED_OUT"
         then "⚠ Network timeout"
         else if includes (Effects.message err) "ERR_CONNECTION_REFUSED"
         then "⚠ Connection refused"
         else if includes (Effects.message err) "ERR_NAME_NOT_RESOLVED"
         then "⚠ DNS resolution failed"
         else "Failed to extract seller_id or cookies".
Proof.
  intros Hfail.
  destruct (extraction_total env debugPort initial) as (l1 & t1 & Hx).
  rewrite (fetch_after_extraction env debugPort profileId s l1 t1 Hx).
  apply extraction_session in Hx.
  assert (∀ err', extractionFailsWith env err' → err' = err) as Hsame.
  { unfold extractionFailsWith in *. intros err' H'.
    destruct Hfail as [H|[(? & H)|[(? & ? & H)|(? & ? & ? & ? & H)]]];
      destruct H' as [H'|[(? & H')|[(? & ? & H')|(? & ? & ? & ? & H')]]];
      congruence. }
  unfold extractionFailsWith, extractionTimesOut in *.
  destruct Hx as [(info & cs & H1 & H2 & H3 & H4 & H5 & _)|(Hc & Hx)].
  { destruct Hfail as [H|[(? & H)|[(? & ? & H)|(? & ? & ? & ? & H)]]]; congruence. }
  rewrite Hc, orb_true_r.
  destruct Hx as [(err' & Herr & Hn)|((H1 & H2 & H3 & H4) & _)].
  - rewrite (Hsame err' Herr) in Hn. rewrite Hn, classify_label.
    eexists. split; [reflexivity|]. split; [done|]. simpl.
    repeat case_match; done.
  - destruct Hfail as [H|[(? & H)|[(? & ? & H)|(? & ? & ? & [info Hi] & H)]]];
      congruence.
Qed.

Lemma network_failure_report_witness :
  ∃ e, result_of (fetchTikTokDataFast MoreSamples.fetch_proxy_down 9222 "p1" tt)
         = Throw e ∧
       Effects.message e = "⚠ Proxy dead/unavailable".
Proof.
  destruct (network_failure_report MoreSamples.fetch_proxy_down 9222 "p1" tt
              (mkError "net::ERR_PROXY_CONNECTION_FAILED at https://seller-us.tiktok.com/finance/bills"))
    as (e & H1 & _ & H2).
  - right. right. left. repeat split; reflexivity.
  - exists e. split; [exact H1|]. rewrite H2. reflexivity.
Defined.

End FetchOrder.

(** ** The login automaton: what it does to the browser *)

Section LoginDiscipline.
Import JsString Effects TiktokLogin Calls.
Context {S : Type}.

Lemma disc_ret {A} (final : A → bool) (a : A) :
  final a = false → disconnects_on (S:=S) final (mret a).
Proof. intros H s. split; [done|]. simpl. rewrite H. constructor. Qed.

Lemma disc_throw {A} (final : A → bool) e : disconnects_on (S:=S) final (throw e).
Proof. intros s. split; [done|]. constructor. Qed.

Lemma disc_get (final : S → bool) :
  (∀ s, final s = false) → disconnects_on (S:=S) final get.
Proof. intros H s. split; [done|]. simpl. rewrite H. constructor. Qed.

Lemma disc_emit ev :
  is_disconnect ev = false → disconnects_on (S:=S) (λ _, false) (emit ev).
Proof. intros H s. split; [done|]. simpl. by repeat constructor. Qed.

Lemma disc_call {A} ev (answer : outcome A) :
  is_disconnect ev = false → disconnects_on (S:=S) (λ _, false) (call ev answer).
Proof.
  intros H s. split; [done|]. unfold call, result_of, trace_of. simpl.
  destruct answer; by repeat constructor.
Qed.

(** The last statements of a path: [await browser.disconnect(); return r]. *)
Lemma disc_return {A} (final : A → bool) (a : A) :
  final a = true → disconnects_on (S:=S) final (emit EvDisconnect;; mret a).
Proof.
  intros H s. split; [done|]. simpl. rewrite H. exists []. by split.
Qed.

Lemma ends_disconnected_app t1 t2 :
  Forall (λ e, is_disconnect e = false) t1 → ends_disconnected t2 →
  ends_disconnected (t1 ++ t2).
Proof.
  intros H1 (t0 & -> & H2). exists (t1 ++ t0). split; [by rewrite app_assoc|].
  by apply Forall_app.
Qed.

Lemma disc_bind {A B} (final : A → bool) (final' : B → bool)
    (m : M S A) (k : A → M S B) :
  disconnects_on final m →
  (∀ a, final a = true → ∃ b, k a = mret b ∧ final' b = true) →
  (∀ a, final a = false → disconnects_on final' (k a)) →
  disconnects_on final' (m ≫= k).
Proof.
  intros Hm Hdone Hk s. rewrite bind_run. specialize (Hm s).
  destruct (m s) as [[s1 t1] [a|e]]; unfold locals_of, result_of, trace_of in *;
    simpl in *; [|done].
  destruct Hm as [-> Hm]. destruct (final a) eqn:Ha.
  - destruct (Hdone a Ha) as (b & -> & Hb). simpl. rewrite Hb, app_nil_r. done.
  - specialize (Hk a Ha s). destruct (k a s) as [[s2 t2] r].
    unfold locals_of, result_of, trace_of in Hk. simpl in *.
    destruct Hk as [-> Hk]. split; [done|].
    destruct r as [b|e]; [destruct (final' b)|];
      by (apply ends_disconnected_app || apply Forall_app).
Qed.

(** Sequencing after a part that never ends the function. *)
Lemma disc_seq {A B} (final' : B → bool) (m : M S A) (k : A → M S B) :
  disconnects_on (λ _, false) m → (∀ a, disconnects_on final' (k a)) →
  disconnects_on final' (m ≫= k).
Proof. intros Hm Hk. eapply disc_bind; [exact Hm|done|auto]. Qed.

Lemma disc_try_catch {A} (final : A → bool) (m : M S A) (h : error → M S A) :
  disconnects_on final m → (∀ e, disconnects_on final (h e)) →
  disconnects_on final (try_catch m h).
Proof.
  intros Hm Hh s. unfold try_catch. specialize (Hm s).
  destruct (m s) as [[s1 t1] [a|e]]; unfold locals_of, result_of, trace_of in *;
    simpl in *; [done|].
  destruct Hm as [-> Hm]. specialize (Hh e s). destruct (h e s) as [[s2 t2] r].
  unfold locals_of, result_of, trace_of in Hh. simpl in *. destruct Hh as [-> Hh]. split; [done|].
  destruct r as [b|e']; [destruct (final b)|];
    by (apply ends_disconnected_app || apply Forall_app).
Qed.

End LoginDiscipline.

Ltac disc_step :=
first
  [ apply disc_return; reflexivity
  | apply disc_ret; reflexivity
  | apply disc_throw
  | apply disc_emit; reflexivity
  | apply disc_call; reflexivity
  | apply disc_try_catch; [|intros ?]
  | apply disc_seq; [|intros ?]
  | match goal with
    | |- Calls.disconnects_on _ (if ?b then _ else _) => destruct b
    | |- Calls.disconnects_on _ (match ?x with _ => _ end) => destruct x
    end ].

Section LoginBrowser.
Import JsString Effects TiktokLogin Calls.

Lemma disc_clickLoginButton {S} env selectors :
  disconnects_on (S:=S) (λ _, false) (clickLoginButton env selectors).
Proof. induction selectors as [|selector rest IH]; simpl; repeat disc_step; done. Qed.

Lemma disc_get2FACode {S} env secret :
  disconnects_on (S:=S) (λ _, false) (get2FACode env secret).
Proof. unfold get2FACode. repeat disc_step. Qed.

Lemma disc_submitCode {S} env code :
  disconnects_on (S:=S) (λ _, true) (submitCode env code).
Proof. unfold submitCode. repeat disc_step. Qed.

Lemma disc_afterSubmit env credentials :
  disconnects_on (λ _, true) (afterSubmit env credentials).
Proof.
  unfold afterSubmit. apply disc_seq; [repeat disc_step|]. intros [|].
  - apply disc_seq; [repeat disc_step|]. intros _.
    eapply (disc_bind returns).
    + destruct (twoFactorSecret credentials) as [secret|]; [|repeat disc_step].
      destruct (negb (is_empty secret)); [|repeat disc_step].
      apply disc_seq; [apply disc_get2FACode|]. intros [c|]; [|repeat disc_step].
      eapply disc_bind; [apply disc_submitCode|by eauto|done].
    + intros [r|] H; [by eauto|done].
    + intros [r|] H; [done|]. repeat disc_step.
  - cbv zeta.
    match goal with |- disconnects_on _ (if ?b then _ else _) => destruct b end;
      [repeat disc_step|].
    match goal with |- disconnects_on _ (if ?b then _ else _) => destruct b end;
      [|repeat disc_step].
    apply disc_seq; [repeat disc_step|]. intros errorMsg.
    destruct (truthy errorMsg); by apply disc_return.
Qed.

(** [openAndSubmit] after the connection was made. *)
Lemma openAndSubmit_shape env debugPort credentials :
  ∃ rest, disconnects_on returns rest ∧
          openAndSubmit env debugPort credentials
          = (call (EvConnect debugPort) (connect env);; modify (λ _, true);; rest).
Proof.
  eexists. split; [|unfold openAndSubmit; reflexivity].
  apply disc_seq; [repeat disc_step|]. intros n.
  apply disc_seq; [repeat disc_step|]. intros _.
  apply disc_seq; [repeat disc_step|]. intros _.
  apply disc_seq; [repeat disc_step|]. intros _. cbv zeta.
  match goal with |- disconnects_on _ (if ?b then _ else _) => destruct b end;
    [repeat disc_step|].
  eapply (disc_bind returns).
  - apply disc_try_catch; [repeat disc_step|]. intros e. cbv zeta. repeat disc_step.
  - intros [r|] H; [by eauto|done].
  - intros [r|] H; [done|].
    do 6 (apply disc_seq; [repeat disc_step|]; intros _).
    apply disc_seq; [apply disc_clickLoginButton|]. intros clicked.
    repeat disc_step.
Qed.

(** The catch block of [loginTikTokSeller]. *)
Lemma login_handler_run (browser : bool) e :
  (b ← get; (if b : bool then emit EvDisconnect else mret tt);;
   mret (failed (Effects.message e))) browser
  = (browser, if browser then [EvDisconnect] else [], Ok (failed (Effects.message e))).
Proof. by destruct browser. Qed.

(** X5.  Once the browser is reached, every run of [loginTikTokSeller] makes
    exactly one call of [browser.disconnect()], and it is its last call,
    whatever the page answers and on whichever path the login ends. *)
Theorem login_disconnects_once {S} (env : LoginEnv) (debugPort : Z)
    (credentials : LoginCredentials) (s : S) :
  connect env = Ok tt →
  ∃ t, trace_of (loginTikTokSeller env debugPort credentials s)
         = EvConnect debugPort :: t ++ [EvDisconnect] ∧
       Forall (λ e, is_disconnect e = false) t.
Proof.
  intros Hc. unfold loginTikTokSeller, invoke, loginFlow, try_catch.
  destruct (openAndSubmit_shape env debugPort credentials) as (rest & Hrest & ->).
  rewrite bind_run. rewrite bind_run. unfold call at 1. rewrite Hc. cbn beta iota.
  rewrite bind_run. unfold modify at 1. cbn beta iota.
  specialize (Hrest true). destruct (rest true) as [[s1 t1] r1].
  unfold locals_of, result_of, trace_of in Hrest. simpl in Hrest.
  destruct Hrest as [-> Hrest]. cbn beta iota.
  destruct r1 as [[r|]|e]; simpl in Hrest.
  - destruct Hrest as (t0 & -> & H0). unfold trace_of. simpl.
    exists t0. by rewrite !app_nil_r.
  - pose proof (disc_afterSubmit env credentials true) as Hpost.
    destruct (afterSubmit env credentials true) as [[s2 t2] r2].
    unfold locals_of, result_of, trace_of in Hpost. simpl in Hpost.
    destruct Hpost as [-> Hpost]. cbn beta iota.
    destruct r2 as [r|e].
    + destruct Hpost as (t0 & -> & H0). unfold trace_of. simpl.
      exists (t1 ++ t0). split; [by rewrite app_assoc|by apply Forall_app].
    + rewrite login_handler_run. unfold trace_of. simpl.
      exists (t1 ++ t2). split; [done|by apply Forall_app].
  - rewrite login_handler_run. unfold trace_of. simpl.
    exists t1. done.
Qed.

Lemma login_disconnects_once_witness :
  ∃ t, trace_of (loginTikTokSeller Samples.login_two_factor 9222
                   Samples.credentials_without_secret tt)
         = EvConnect 9222 :: t ++ [EvDisconnect] ∧
       Forall (λ e, is_disconnect e = false) t.
Proof.
  apply (login_disconnects_once Samples.login_two_factor 9222
           Samples.credentials_without_secret tt).
  reflexivity.
Defined.

Ltac login_run :=
  unfold loginTikTokSeller, invoke, loginFlow, openAndSubmit, try_catch, call, emit,
    throw, modify, Effects.get, result_of;
  unfold mbind, M_bind, mret, M_ret; cbn beta iota zeta.

Lemma login_result_connect_fails {S} env debugPort credentials (s : S) err :
  connect env = Throw err →
  loginTikTokSeller env debugPort credentials s
  = (s, [EvConnect debugPort], Ok (failed (Effects.message err))).
Proof. intros Hc. login_run. rewrite Hc. reflexivity. Qed.

Lemma login_result_pages_fail {S} env debugPort credentials (s : S) err :
  connect env = Ok tt → pages env = Throw err →
  result_of (loginTikTokSeller env debugPort credentials s)
  = Ok (failed (Effects.message err)).
Proof.
  intros Hc Hp. login_run. rewrite Hc. cbn beta iota. rewrite Hp. reflexivity.
Qed.

Lemma login_result_goto_fails {S} env debugPort credentials (s : S) n err :
  connect env = Ok tt → pages env = Ok n → (n = 0%nat → newPage env = Ok tt) →
  goto env = Throw err →
  result_of (loginTikTokSeller env debugPort credentials s)
  = Ok (failed (Effects.message err)).
Proof.
  intros Hc Hp Hn Hg. login_run. rewrite Hc. cbn beta iota. rewrite Hp. cbn beta iota.
  destruct n as [|n]; cbn [Nat.ltb Nat.leb]; cbn beta iota;
    [rewrite (Hn eq_refl); cbn beta iota|]; rewrite Hg; reflexivity.
Qed.

Lemma login_result_no_form {S} env debugPort credentials (s : S) n err :
  connect env = Ok tt → pages env = Ok n → (n = 0%nat → newPage env = Ok tt) →
  goto env = Ok tt →
  includes (urlAfterNavigate env) "homepage" || includes (urlAfterNavigate env) "dashboard" ||
    (includes (urlAfterNavigate env) "seller-us.tiktok.com" &&
     includes (urlAfterNavigate env) "setup=") = false →
  waitEmailInput env = Throw err →
  result_of (loginTikTokSeller env debugPort credentials s)
  = Ok (if includes (urlAfterWait env) "homepage" || includes (urlAfterWait env) "dashboard" ||
           includes (urlAfterWait env) "setup="
        then ok "Already logged in!"
        else failed "Login form not found and not logged in").
Proof.
  intros Hc Hp Hn Hg Hurl Hw. login_run. rewrite Hc. cbn beta iota. rewrite Hp.
  cbn beta iota.
  destruct n as [|n]; cbn [Nat.ltb Nat.leb]; cbn beta iota;
    [rewrite (Hn eq_refl); cbn beta iota|]; rewrite Hg; cbn beta iota;
    rewrite Hurl; cbn beta iota; rewrite Hw; cbn beta iota;
    destruct (includes (urlAfterWait env) "homepage" ||
              includes (urlAfterWait env) "dashboard" ||
              includes (urlAfterWait env) "setup="); reflexivity.
Qed.

(** X6.  [loginTikTokSeller] never throws: every run returns a result.  What
    a failure becomes depends on the step that fails.  When the browser
    cannot be reached, the result is [success: false] with the text of
    that failure, and nothing else is called.  When the list of pages or
    the navigation to the login page fails, the result is
    [success: false] with the text of that failure.  When the wait for the
    e-mail input fails, the text of the failure is dropped: the result is
    [success: true], "Already logged in!", when the URL of the page then
    names the homepage, the dashboard or a setup, and [success: false]
    with the fixed text "Login form not found and not logged in"
    otherwise. *)
Theorem login_always_returns {S} (env : LoginEnv) (debugPort : Z)
    (credentials : LoginCredentials) (s : S) :
  ∃ r, result_of (loginTikTokSeller env debugPort credentials s) = Ok r ∧
       (∀ err, connect env = Throw err →
               r = failed (Effects.message err) ∧
               trace_of (loginTikTokSeller env debugPort credentials s)
                 = [EvConnect debugPort]) ∧
       (∀ err, connect env = Ok tt → pages env = Throw err →
               r = failed (Effects.message err)) ∧
       (∀ n err, connect env = Ok tt → pages env = Ok n →
                 (n = 0%nat → newPage env = Ok tt) → goto env = Throw err →
                 r = failed (Effects.message err)) ∧
       (∀ n err, connect env = Ok tt → pages env = Ok n →
                 (n = 0%nat → newPage env = Ok tt) → goto env = Ok tt →
                 includes (urlAfterNavigate env) "homepage" ||
                   includes (urlAfterNavigate env) "dashboard" ||
                   (includes (urlAfterNavigate env) "seller-us.tiktok.com" &&
                    includes (urlAfterNavigate env) "setup=") = false →
                 waitEmailInput env = Throw err →
                 r = if includes (urlAfterWait env) "homepage" ||
                        includes (urlAfterWait env) "dashboard" ||
                        includes (urlAfterWait env) "setup="
                     then ok "Already logged in!"
                     else failed "Login form not found and not logged in").
Proof.
  assert (∃ r, result_of (loginTikTokSeller env debugPort credentials s) = Ok r)
    as [r Hr].
  { unfold loginTikTokSeller, invoke, loginFlow, try_catch.
    destruct (openAndSubmit_shape env debugPort credentials) as (rest & _ & ->).
    rewrite bind_run. rewrite bind_run. unfold call at 1.
    destruct (connect env) as [[]|e]; cbn beta iota.
    - rewrite bind_run. unfold modify at 1. cbn beta iota.
      destruct (rest true) as [[s1 t1] [[r|]|e]]; cbn beta iota.
      + by eexists.
      + destruct (afterSubmit env credentials s1) as [[s2 t2] [r|e]]; cbn beta iota.
        * by eexists.
        * rewrite login_handler_run. by eexists.
      + rewrite login_handler_run. by eexists.
    - rewrite login_handler_run. by eexists. }
  exists r. split; [exact Hr|]. split; [|split; [|split]].
  - intros err Hc.
    rewrite (login_result_connect_fails env debugPort credentials s err Hc) in Hr |- *.
    injection Hr as <-. done.
  - intros err Hc Hp.
    rewrite (login_result_pages_fail env debugPort credentials s err Hc Hp) in Hr.
    by injection Hr as <-.
  - intros n err Hc Hp Hn Hg.
    rewrite (login_result_goto_fails env debugPort credentials s n err Hc Hp Hn Hg) in Hr.
    by injection Hr as <-.
  - intros n err Hc Hp Hn Hg Hurl Hw.
    rewrite (login_result_no_form env debugPort credentials s n err Hc Hp Hn Hg Hurl Hw)
      in Hr.
    by injection Hr as <-.
Qed.

(** The continuation of a bind runs only with a value that its first
    part returned. *)
Lemma emits_bind_ok {S A B} P (m : M S A) (k : A → M S B) :
  emits P m → (∀ a, (∃ s, result_of (m s) = Ok a) → emits P (k a)) →
  emits P (m ≫= k).
Proof.
  intros Hm Hk s. rewrite bind_run. specialize (Hm s).
  destruct (m s) as [[s1 t1] [a|e]] eqn:Hms; [|done].
  assert (emits P (k a)) as Hka.
  { apply Hk. exists s. by rewrite Hms. }
  specialize (Hka s1). destruct (k a s1) as [[s2 t2] r].
  unfold trace_of in *. simpl in *. by apply Forall_app.
Qed.

Lemma get2FACode_code {S} env secret (s : S) c :
  result_of (get2FACode env secret s) = Ok (Some c) → totp env = Ok (Some c).
Proof.
  unfold get2FACode, try_catch, call. rewrite bind_run.
  destruct (totp env) as [[c'|]|e]; simpl; try done.
  destruct (negb (is_empty c')); simpl; by intros [= ->].
Qed.

Lemma login_typing {S} env debugPort credentials :
  emits (S:=S) (Typing.typed_by env credentials)
        (loginTikTokSeller env debugPort credentials).
Proof.
  unfold loginTikTokSeller, loginFlow.
  apply emits_invoke. apply emits_try_catch; [|intros e; solve_emits].
  apply emits_bind; [|intros [r|]].
  - unfold openAndSubmit.
    repeat first
      [ apply emits_clickLoginButton
      | match goal with
        | |- emits _ (call (EvType "#email_input" _) _ ≫= _) =>
            apply emits_bind_ok; [|intros [] [s0 Hok]]
        end
      | emits_step ]; try done.
    + intros sel txt [= <- <-]. by left.
    + intros sel txt [= <- <-]. right. left.
      unfold call, result_of in Hok. simpl in Hok. by rewrite Hok.
  - solve_emits.
  - unfold afterSubmit.
    apply emits_bind; [solve_emits|]. intros [|]; [|cbv zeta; solve_emits].
    apply emits_bind; [solve_emits|]. intros _.
    apply emits_bind; [|intros [r|]; solve_emits].
    unfold Typing.typed_by.
    destruct (twoFactorSecret credentials) as [secret|] eqn:Hsecret; [|solve_emits].
    destruct (is_empty secret) eqn:Hempty; [solve_emits|]. cbn [negb].
    apply emits_bind_ok; [unfold get2FACode; solve_emits|].
    intros [c|] [s0 Hok]; [|solve_emits].
    apply get2FACode_code in Hok.
    unfold submitCode. repeat emits_step; try done.
    intros sel txt [= <- <-]. right. right. split; [done|]. split; [done|].
    exists secret. split; [done|]. by destruct secret.
Qed.

(** X7.  All that [loginTikTokSeller] ever types: the e-mail address into the
    e-mail input; the password into the password input, and only after the
    e-mail address was typed without a failure; and into the two-factor
    input the code that the TOTP service returned for the secret of the
    credentials. *)
Theorem login_types_only_credentials {S} (env : LoginEnv) (debugPort : Z)
    (credentials : LoginCredentials) (s : S) (selector text : string) :
  EvType selector text ∈ trace_of (loginTikTokSeller env debugPort credentials s) →
  (selector = "#email_input" ∧ text = email credentials) ∨
  (selector = "#email_password_input" ∧ text = password credentials ∧
   typeEmail env = Ok tt) ∨
  (selector = twoFAInputSelector ∧ totp env = Ok (Some text) ∧
   ∃ secret, twoFactorSecret credentials = Some secret ∧ secret ≠ EmptyString).
Proof.
  intros Hin.
  pose proof (login_typing env debugPort credentials s) as H.
  rewrite Forall_forall in H. by apply (H _ Hin).
Qed.

Lemma login_types_only_credentials_witness :
  ("#email_input" : string) = "#email_input" ∧
  ("a@x.com" : string) = email Samples.credentials_without_secret ∨
  ("#email_input" : string) = "#email_password_input" ∧
  ("a@x.com" : string) = password Samples.credentials_without_secret ∧
  typeEmail Samples.login_two_factor = Ok tt ∨
  ("#email_input" : string) = twoFAInputSelector ∧
  totp Samples.login_two_factor = Ok (Some "a@x.com") ∧
  ∃ secret, twoFactorSecret Samples.credentials_without_secret = Some secret ∧
            secret ≠ EmptyString.
Proof.
  apply (login_types_only_credentials Samples.login_two_factor 9222
           Samples.credentials_without_secret tt "#email_input" "a@x.com").
  apply (bool_decide_unpack _). vm_compute. exact I.
Defined.

End LoginBrowser.

(** ** The login handler: window slot and port *)

Section LoginHandler.
Import JsString Effects WindowSlots Handlers Calls.

Lemma loginTikTokSeller_run {S} env debugPort credentials (s : S) :
  ∃ t r, TiktokLogin.loginTikTokSeller env debugPort credentials s
         = (s, EvConnect debugPort :: t, Ok r).
Proof.
  unfold TiktokLogin.loginTikTokSeller, invoke, TiktokLogin.loginFlow, try_catch.
  destruct (openAndSubmit_shape env debugPort credentials) as (rest & _ & ->).
  rewrite bind_run. rewrite bind_run. unfold call at 1.
  destruct (TiktokLogin.connect env) as [[]|e]; cbn beta iota.
  - rewrite bind_run. unfold modify at 1. cbn beta iota.
    destruct (rest true) as [[s1 t1] [[r|]|e]]; cbn beta iota.
    + simpl. eauto.
    + destruct (TiktokLogin.afterSubmit env credentials s1) as [[s2 t2] [r|e]];
        cbn beta iota; [|rewrite login_handler_run]; simpl; eauto.
    + rewrite login_handler_run. simpl. eauto.
  - rewrite login_handler_run. simpl. eauto.
Qed.

Lemma loginTikTokSeller_any_state {S} env debugPort credentials (s : S) :
  TiktokLogin.loginTikTokSeller env debugPort credentials s
  = (s, trace_of (TiktokLogin.loginTikTokSeller (S:=unit) env debugPort credentials tt),
     result_of (TiktokLogin.loginTikTokSeller (S:=unit) env debugPort credentials tt)).
Proof.
  unfold TiktokLogin.loginTikTokSeller, invoke.
  by destruct (TiktokLogin.loginFlow env debugPort credentials false) as [[b t] r].
Qed.

Lemma startProfile_no_connect {S} env id m1 m2 m3 :
  emits (S:=S) (λ e, ∀ p, e ≠ EvConnect p) (startProfile env id m1 m2 m3).
Proof. unfold startProfile. solve_emits. Qed.

Lemma startProfile_no_typing {S} env id m1 m2 m3 :
  emits (S:=S) (λ e, ∀ sel text, e ≠ EvType sel text) (startProfile env id m1 m2 m3).
Proof. unfold startProfile. solve_emits. Qed.

(** The two ways in which the login handler ends: without a login, the
    set of window positions untouched; or with a login on the port that
    the control plane reported, with the credentials of the chosen row,
    between taking and releasing a position. *)
Lemma login_tiktok_cases store env id name (U : gset Z) :
  (∃ t msg, login_tiktok store env id name U = (U, t, Ok (TiktokLogin.failed msg)) ∧
            Forall (λ e, ∀ p, e ≠ EvConnect p) t ∧
            Forall (λ e, ∀ sel text, e ≠ EvType sel text) t) ∨
  (∃ c t0 debugPort,
     Typing.chosen store id name = Some c ∧
     login_tiktok store env id name U
     = (releaseWindowPosition (getNextWindowPosition U).1 (getNextWindowPosition U).2,
        t0 ++ EvStarted id debugPort :: EvSleep 3000
           :: trace_of (TiktokLogin.loginTikTokSeller (S:=unit) (login env) debugPort
                          (Typing.credentialsOf c) tt),
        result_of (TiktokLogin.loginTikTokSeller (S:=unit) (login env) debugPort
                     (Typing.credentialsOf c) tt)) ∧
     Forall (λ e, ∀ p, e ≠ EvConnect p) t0 ∧
     Forall (λ e, ∀ sel text, e ≠ EvType sel text) t0).
Proof.
  unfold login_tiktok, try_catch. cbv zeta.
  change (match
            match name with
            | Some n =>
                if is_empty n then None
                else CredentialsReader.getCredentialsByProfileName store n
            | None => None
            end
          with
          | Some c => Some c
          | None => CredentialsReader.getCredentialsByProfileId store id
          end) with (Typing.chosen store id name).
  destruct (Typing.chosen store id name) as [c|];
    [|left; eexists _, _; split; [reflexivity|split; constructor]].
  rewrite bind_run.
  pose proof (startProfile_no_connect (loginStart env) id "Failed to start profile"
                "Could not get port from running profile"
                "Profile conflict - could not get port" U) as Hnone.
  pose proof (startProfile_no_typing (loginStart env) id "Failed to start profile"
                "Could not get port from running profile"
                "Profile conflict - could not get port" U) as Hnotype.
  destruct (startProfile_cases (loginStart env) id "Failed to start profile"
              "Could not get port from running profile"
              "Profile conflict - could not get port" U)
    as (t & r & Hs & _ & Hr).
  rewrite Hs in Hnone, Hnotype |- *. unfold trace_of in Hnone, Hnotype.
  simpl in Hnone, Hnotype. cbn beta iota.
  destruct Hr as [(debugPort & t0 & -> & -> & _)|[Hr _]].
  - right. cbn beta iota.
    rewrite bind_run. unfold emit at 1. cbn beta iota.
    rewrite bind_run. unfold get at 1. cbn beta iota.
    destruct (getNextWindowPosition U) as [windowIndex used'].
    rewrite bind_run. unfold modify at 1. cbn beta iota.
    unfold try_finally.
    change {| TiktokLogin.email := CredentialsReader.email c;
              TiktokLogin.password := CredentialsReader.password c;
              TiktokLogin.twoFactorSecret := CredentialsReader.twoFactorSecret c |}
      with (Typing.credentialsOf c).
    rewrite loginTikTokSeller_any_state.
    destruct (loginTikTokSeller_run (login env) debugPort (Typing.credentialsOf c) tt)
      as (tl & r & Hl).
    rewrite Hl. unfold modify, trace_of, result_of. cbn beta iota. simpl.
    exists c, t0, debugPort. rewrite <- !app_assoc. simpl.
    split; [done|]. split; [by rewrite Hl, app_nil_r|].
    apply Forall_app in Hnone. apply Forall_app in Hnotype.
    by destruct Hnone, Hnotype.
  - left. destruct r as [[p|]|e]; [by destruct (Hr p)|..]; cbn beta iota; simpl.
    + eexists _, _. split; [by rewrite app_nil_r|done].
    + eexists _, _. split; [by rewrite app_nil_r|done].
Qed.

Lemma login_tiktok_run store env id name (U : gset Z) :
  (∃ t msg, login_tiktok store env id name U = (U, t, Ok (TiktokLogin.failed msg)) ∧
            Forall (λ e, ∀ p, e ≠ EvConnect p) t) ∨
  (∃ t0 debugPort tl r,
     login_tiktok store env id name U
     = (releaseWindowPosition (getNextWindowPosition U).1 (getNextWindowPosition U).2,
        t0 ++ EvStarted id debugPort :: EvSleep 3000 :: EvConnect debugPort :: tl,
        Ok r) ∧
     Forall (λ e, ∀ p, e ≠ EvConnect p) t0).
Proof.
  destruct (login_tiktok_cases store env id name U)
    as [(t & msg & H & Hn & _)|(c & t0 & debugPort & _ & H & Hn & _)].
  - left. by exists t, msg.
  - right.
    destruct (loginTikTokSeller_run (login env) debugPort (Typing.credentialsOf c) tt)
      as (tl & r & Hl).
    rewrite Hl in H. by exists t0, debugPort, tl, r.
Qed.

Lemma take_and_release (U : gset Z) :
  releaseWindowPosition (getNextWindowPosition U).1 (getNextWindowPosition U).2
  = if decide (grid ⊆ U) then U ∖ {[0]} else U.
Proof.
  unfold getNextWindowPosition, releaseWindowPosition.
  destruct (scan U 0 MAX_WINDOWS) as [i|] eqn:Hscan; simpl.
  - apply scan_some in Hscan as (Hi & Hn & _).
    rewrite decide_False.
    + apply set_eq. intros x. rewrite elem_of_difference, elem_of_union,
        !elem_of_singleton. split; [intros [[->|H] Hx]; done|].
      intros H. split; [by right|]. by intros ->.
    + intros Hsub. apply Hn, Hsub, elem_of_grid. lia.
  - rewrite decide_True; [done|].
    intros j Hj. apply elem_of_grid in Hj.
    eapply scan_none; [exact Hscan|]. lia.
Qed.

(** X8.  The login handler and the set of window positions.  When a position
    of the grid is free, the set is after the handler what it was before,
    on every path: the position taken for the login is given back, also
    when the login fails.  When no login is attempted the set is never
    touched.  When all positions of the grid are taken and a login is
    attempted, the handler works at position 0 and removes 0 from the set
    when it ends, although another login holds it. *)
Theorem login_tiktok_window_slot
    (sessionCredentials : list CredentialsReader.ProfileCredentials)
    (env : LoginJobEnv) (id : string) (profileName : option string) (U : gset Z) :
  (¬ grid ⊆ U →
   locals_of (login_tiktok sessionCredentials env id profileName U) = U) ∧
  ((∀ p, EvConnect p ∉ trace_of (login_tiktok sessionCredentials env id profileName U)) →
   locals_of (login_tiktok sessionCredentials env id profileName U) = U) ∧
  (grid ⊆ U →
   (∃ p, EvConnect p ∈ trace_of (login_tiktok sessionCredentials env id profileName U)) →
   locals_of (login_tiktok sessionCredentials env id profileName U) = U ∖ {[0]}).
Proof.
  destruct (login_tiktok_run sessionCredentials env id profileName U)
    as [(t & msg & -> & Hnone)|(t0 & debugPort & tl & r & -> & Hnone)];
    unfold locals_of, trace_of; simpl.
  - split; [done|]. split; [done|]. intros _ [p Hp].
    rewrite Forall_forall in Hnone. by destruct (Hnone _ Hp p).
  - rewrite take_and_release. split; [|split].
    + intros H. by rewrite decide_False.
    + intros H. exfalso. apply (H debugPort).
      apply elem_of_app. right. rewrite !elem_of_cons. auto.
    + intros H _. by rewrite decide_True.
Qed.

Lemma login_tiktok_window_slot_witness :
  locals_of (login_tiktok Samples.store Samples.login_job "p1" None grid)
  = grid ∖ {[0]}.
Proof.
  apply (login_tiktok_window_slot Samples.store Samples.login_job "p1" None grid).
  - done.
  - exists 9222. apply (bool_decide_unpack _). vm_compute. exact I.
Defined.

(** X9.  The login handler never throws, and it reports a success only after
    the control plane reported a port for the profile and the login ran in
    the browser on that port. *)
Theorem login_tiktok_returns
    (sessionCredentials : list CredentialsReader.ProfileCredentials)
    (env : LoginJobEnv) (id : string) (profileName : option string) (U : gset Z) :
  ∃ r, result_of (login_tiktok sessionCredentials env id profileName U) = Ok r ∧
       (TiktokLogin.success r = true →
        ∃ debugPort t1 t2,
          trace_of (login_tiktok sessionCredentials env id profileName U)
          = t1 ++ EvStarted id debugPort :: EvSleep 3000 :: EvConnect debugPort :: t2).
Proof.
  destruct (login_tiktok_run sessionCredentials env id profileName U)
    as [(t & msg & -> & Hnone)|(t0 & debugPort & tl & r & -> & Hnone)];
    unfold result_of, trace_of; simpl.
  - eexists. split; [reflexivity|]. done.
  - exists r. split; [done|]. intros _. by exists debugPort, t0, tl.
Qed.

Lemma chosen_row store id name c :
  Typing.chosen store id name = Some c →
  (∃ n, name = Some n ∧ n ≠ EmptyString ∧
        Sheet.first_with
          (λ x, Sheet.same_name (CredentialsReader.profileName x) n) store c) ∨
  ((∀ n, name = Some n →
         n = EmptyString ∨
         ∀ x, x ∈ store → ¬ Sheet.same_name (CredentialsReader.profileName x) n) ∧
   Sheet.first_with (λ x, CredentialsReader.profileId x = trim id) store c).
Proof.
  unfold Typing.chosen.
  assert (CredentialsReader.getCredentialsByProfileId store id = Some c →
          Sheet.first_with (λ x, CredentialsReader.profileId x = trim id) store c)
    as Hid.
  { intros Hf. by apply (lookup_by_id store id). }
  destruct name as [n|].
  - destruct (is_empty n) eqn:Hn.
    + intros Hf. right. split; [|by apply Hid].
      intros n' [= <-]. left. by destruct n.
    + destruct (CredentialsReader.getCredentialsByProfileName store n) as [c'|] eqn:Hname.
      * intros [= <-]. left. exists n. split; [done|].
        by apply (lookup_by_name store n) in Hname.
      * intros Hf. right. split; [|by apply Hid].
        intros n' [= <-]. by apply (proj1 (proj1 (lookup_by_name store n))).
  - intros Hf. right. split; [|by apply Hid]. by intros n' [= ].
Qed.

(** X10.  All that the login handler types into the page belongs to one row
    of the session store, the same for the whole run and determined by the
    store and the request alone: the first row, in the order of the store,
    whose name is the requested name up to letter case and surrounding
    blanks or, when no row has that name (or the name is empty, or no name
    was given), the first row whose identifier is the trimmed requested
    identifier.  The handler types the e-mail address of that row
    into the e-mail input, the password of that row into the password
    input, and into the two-factor input the code that the TOTP service
    returned for the secret of that row, and nothing else; when there is
    no such row it types nothing.  Names and identifiers, stored and
    requested, are ASCII text. *)
Theorem login_tiktok_types_stored_credentials
    (sessionCredentials : list CredentialsReader.ProfileCredentials)
    (env : LoginJobEnv) (id : string) (profileName : option string) (U : gset Z) :
  Sheet.plain_store sessionCredentials = true →
  is_ascii id = true →
  (∀ n, profileName = Some n → is_ascii n = true) →
  match Typing.chosen sessionCredentials id profileName with
  | None =>
      ∀ selector text,
        EvType selector text
          ∉ trace_of (login_tiktok sessionCredentials env id profileName U)
  | Some c =>
      ((∃ n, profileName = Some n ∧ n ≠ EmptyString ∧
             Sheet.first_with
               (λ x, Sheet.same_name (CredentialsReader.profileName x) n)
               sessionCredentials c) ∨
       ((∀ n, profileName = Some n →
              n = EmptyString ∨
              ∀ x, x ∈ sessionCredentials →
                   ¬ Sheet.same_name (CredentialsReader.profileName x) n) ∧
        Sheet.first_with (λ x, CredentialsReader.profileId x = trim id)
          sessionCredentials c)) ∧
      ∀ selector text,
        EvType selector text
          ∈ trace_of (login_tiktok sessionCredentials env id profileName U) →
        (selector = "#email_input" ∧ text = CredentialsReader.email c) ∨
        (selector = "#email_password_input" ∧ text = CredentialsReader.password c) ∨
        (selector = TiktokLogin.twoFAInputSelector ∧
         TiktokLogin.totp (login env) = Ok (Some text) ∧
         ∃ secret, CredentialsReader.twoFactorSecret c = Some secret ∧
                   secret ≠ EmptyString)
  end.
Proof.
  intros _ _ _.
  destruct (login_tiktok_cases sessionCredentials env id profileName U)
    as [(t & msg & -> & _ & Hn)|(c & t0 & debugPort & Hc & -> & _ & Hn)];
    unfold trace_of at 1; simpl.
  - assert (∀ selector text, EvType selector text ∉ t) as Hnone.
    { intros selector text Hin. rewrite Forall_forall in Hn.
      by destruct (Hn _ Hin selector text). }
    destruct (Typing.chosen sessionCredentials id profileName) as [c|] eqn:Hc;
      [|done].
    split; [by apply chosen_row|]. intros selector text Hin.
    by destruct (Hnone selector text).
  - rewrite Hc. split; [by apply chosen_row|]. intros selector text Hin.
    apply elem_of_app in Hin as [Hin|Hin].
    { rewrite Forall_forall in Hn. by destruct (Hn _ Hin selector text). }
    apply elem_of_cons in Hin as [Hin|Hin]; [done|].
    apply elem_of_cons in Hin as [Hin|Hin]; [done|].
    pose proof (login_typing (login env) debugPort (Typing.credentialsOf c) tt) as H.
    rewrite Forall_forall in H.
    destruct (H _ Hin selector text eq_refl) as [[-> ->]|[(-> & -> & _)|(-> & Ht & Hs)]];
      auto.
Qed.

Lemma login_tiktok_types_stored_credentials_witness :
  (("#email_password_input" : string) = "#email_input" ∧ ("pw1" : string) = "a@x.com") ∨
  (("#email_password_input" : string) = "#email_password_input" ∧
   ("pw1" : string) = "pw1").
Proof.
  pose proof (login_tiktok_types_stored_credentials Samples.store Samples.login_job
                "p1" (Some "shop one") ∅ eq_refl eq_refl
                ltac:(by intros n [= <-])) as H.
  change (Typing.chosen Samples.store "p1" (Some "shop one"))
    with (Some {| CredentialsReader.profileId := "p1";
                  CredentialsReader.profileName := "Shop One";
                  CredentialsReader.email := "a@x.com";
                  CredentialsReader.password := "pw1";
                  CredentialsReader.twoFactorSecret := None |}) in H.
  destruct H as [_ H].
  destruct (H "#email_password_input" "pw1")
    as [Hcase|[Hcase|(_ & _ & secret & Hs & _)]].
  - apply (bool_decide_unpack _). vm_compute. exact I.
  - by left.
  - by right.
  - discriminate Hs.
Defined.

End LoginHandler.

(** ** Starting many profiles one after another *)

Section RunAllFacts.
Import JsString Effects Calls RunAllProfiles.

Lemma startOne_run {S} env profileId (s : S) :
  ∃ r, startOne env profileId s = (s, [EvStart profileId], Ok r) ∧
       id r = profileId ∧
       (success r = true ↔
        ∃ d, startAnswer env = Ok d ∧ Handlers.code d = 1 ∧ Handlers.started d = true) ∧
       (∀ d, startAnswer env = Ok d → success r = true → port r = Some (Handlers.port d)).
Proof.
  unfold startOne, try_catch. rewrite bind_run. unfold call.
  destruct (startAnswer env) as [d|e]; cbn beta iota.
  - destruct (Handlers.code d =? 1) eqn:Hc; simpl.
    + destruct (Handlers.started d) eqn:Hs; simpl.
      * eexists. split; [reflexivity|]. simpl. split; [done|]. split.
        -- split; [|done]. intros _. exists d. apply Z.eqb_eq in Hc. done.
        -- by intros d' [= <-] _.
      * eexists. split; [reflexivity|]. simpl. split; [done|]. split; [|done].
        split; [done|]. intros (d' & [= <-] & _ & H). congruence.
    + eexists. split; [reflexivity|]. simpl. split; [done|]. split; [|done].
      split; [done|]. intros (d' & [= <-] & H & _). apply Z.eqb_neq in Hc. done.
  - eexists. split; [reflexivity|]. simpl. split; [done|]. split; [|done].
    split; [done|]. by intros (d' & H & _).
Qed.

Lemma loop_run {S} env delayMs total rest : ∀ i results (s : S),
  total = (i + length rest)%nat →
  ∃ rs t,
    loop env delayMs total i rest results s = (s, t, Ok (results ++ rs)) ∧
    map id rs = rest ∧
    List.filter is_start t = map EvStart rest ∧
    List.filter is_sleep t = replicate (length rest - 1) (EvSleep delayMs) ∧
    count is_progress t = (2 * length rest)%nat ∧
    ∀ k r, rs !! k = Some r →
           (success r = true ↔
            ∃ d, startAnswer (env (i + k)%nat) = Ok d ∧ Handlers.code d = 1 ∧
                 Handlers.started d = true).
Proof.
  induction rest as [|profileId rest IH]; intros i results s Htotal; simpl.
  - exists [], []. rewrite app_nil_r. repeat split; done.
  - rewrite bind_run. unfold emit at 1. cbn beta iota.
    rewrite bind_run.
    destruct (startOne_run (env i) profileId s) as (r & -> & Hid & Hok & _).
    cbn beta iota. rewrite bind_run. unfold emit at 1. cbn beta iota.
    simpl in Htotal.
    destruct (IH (i + 1)%nat (results ++ [r]) s ltac:(lia))
      as (rs & t & Hrun & Hids & Hstarts & Hsleeps & Hprog & Hrs).
    rewrite bind_run.
    destruct (Z.of_nat i <? Z.of_nat total - 1) eqn:Hlast;
      [unfold emit at 1|unfold mret at 1, M_ret at 1];
      cbn beta iota; rewrite Hrun; cbn beta iota;
      eexists (r :: rs), _; rewrite <- app_assoc;
      (split; [reflexivity|]); simpl; rewrite Hid, Hids, Hstarts, Hsleeps;
      (split; [done|]); (split; [done|]).
    + apply Z.ltb_lt in Hlast. split.
      { destruct rest as [|x rest']; simpl in *; [lia|]. by rewrite Nat.sub_0_r. }
      split.
      { unfold count in *. simpl. rewrite Hprog. lia. }
      intros [|k] r' Hk; simpl in Hk.
      * injection Hk as <-. by rewrite Nat.add_0_r.
      * rewrite (Hrs k r' Hk). by replace (i + 1 + k)%nat with (i + Datatypes.S k)%nat by lia.
    + apply Z.ltb_ge in Hlast. split.
      { destruct rest as [|x rest']; simpl in *; [done|lia]. }
      split.
      { unfold count in *. simpl. rewrite Hprog. lia. }
      intros [|k] r' Hk; simpl in Hk.
      * injection Hk as <-. by rewrite Nat.add_0_r.
      * rewrite (Hrs k r' Hk). by replace (i + 1 + k)%nat with (i + Datatypes.S k)%nat by lia.
Qed.

(** X11.  [run-all-profiles] never throws and never stops early: it sends one
    start request per profile, in the order of the input, whatever the
    answers; it returns one entry per profile, in that order; it pauses
    [delayMs] between two profiles and not after the last; it sends two
    progress messages per profile; and entry [k] reports a success exactly
    when the control plane answered the start of profile [k] with code 1
    and [success]. *)
Theorem run_all_profiles_sequential {S} (env : nat → RunEnv) (profileIds : list string)
    (delayMs : Z) (s : S) :
  ∃ results,
    result_of (run_all_profiles env profileIds delayMs s) = Ok results ∧
    map id results = profileIds ∧
    List.filter is_start (trace_of (run_all_profiles env profileIds delayMs s))
      = map EvStart profileIds ∧
    List.filter is_sleep (trace_of (run_all_profiles env profileIds delayMs s))
      = replicate (length profileIds - 1) (EvSleep delayMs) ∧
    count is_progress (trace_of (run_all_profiles env profileIds delayMs s))
      = (2 * length profileIds)%nat ∧
    ∀ k r, results !! k = Some r →
           (success r = true ↔
            ∃ d, startAnswer (env k) = Ok d ∧ Handlers.code d = 1 ∧
                 Handlers.started d = true).
Proof.
  unfold run_all_profiles.
  destruct (loop_run env delayMs (length profileIds) profileIds 0 [] s eq_refl)
    as (rs & t & -> & H1 & H2 & H3 & H4 & H5).
  exists rs. unfold result_of, trace_of. simpl. done.
Qed.

End RunAllFacts.

(** ** Start one profile and fetch its data *)

Section RunAndFetchFacts.
Import JsString Effects Calls Handlers RunAndFetch.

Lemma count_app p t1 t2 : count p (t1 ++ t2) = (count p t1 + count p t2)%nat.
Proof. unfold count. by rewrite List.filter_app, length_app. Qed.

Lemma count_none p t : Forall (λ e, p e = false) t → count p t = 0%nat.
Proof.
  unfold count. induction 1 as [|e t He Ht IH]; simpl; [done|]. by rewrite He.
Qed.

Lemma startProfile_no_stop {S} env id m1 m2 m3 :
  emits (S:=S) (λ e, is_stop e = false) (startProfile env id m1 m2 m3).
Proof. unfold startProfile. solve_emits. Qed.

Lemma run_and_fetch_run {S} (env : AutoEnv) (profileId : string) (s : S) :
  ∃ t r, run_and_fetch_tiktok env profileId s = (s, t, Ok r) ∧
         started_then_stopped profileId t ∧
         (count is_stop t ≤ 1)%nat ∧
         (success r = true →
          ∃ debugPort data,
            port r = Some debugPort ∧ tiktokData r = Some data ∧
            EvStarted profileId debugPort ∈ t ∧ EvStop profileId ∈ t) ∧
         (∀ e, startAnswer (start env) = Throw e → status e = Some 400 →
               r = inUse ∧ t = [EvStart profileId]).
Proof.
  unfold run_and_fetch_tiktok, try_catch. rewrite bind_run.
  pose proof (startProfile_no_stop (start env) profileId "Start failed"
                "Profile running but no port available"
                "Profile conflict (409) - could not get port" s) as Hnostop.
  assert (∀ e, startAnswer (start env) = Throw e → status e = Some 400 →
               startProfile (start env) profileId "Start failed"
                 "Profile running but no port available"
                 "Profile conflict (409) - could not get port" s
               = (s, [EvStart profileId], Ok None)) as H400.
  { intros e He Hst. unfold startProfile, try_catch. rewrite bind_run.
    unfold call. rewrite He. cbn beta iota. rewrite Hst. reflexivity. }
  destruct (startProfile_cases (start env) profileId "Start failed"
              "Profile running but no port available"
              "Profile conflict (409) - could not get port" s)
    as (t & r & Hs & _ & Hr).
  rewrite Hs in Hnostop, H400 |- *. unfold trace_of in Hnostop. simpl in Hnostop.
  cbn beta iota.
  destruct Hr as [(debugPort & t0 & -> & -> & Ht0)|[Hr Hns]].
  - cbn beta iota. rewrite bind_run. unfold emit at 1. cbn beta iota.
    rewrite bind_run.
    destruct (fetch_trace_shape (fetch env) debugPort profileId s)
      as (before & after & rf & -> & Hb & Ha).
    assert (started_then_stopped profileId
              ((t0 ++ [EvStarted profileId debugPort])
               ++ EvSleep 3000 :: before ++ EvStop profileId :: after)) as Hsts.
    { apply sts_started; [done| |].
      - apply elem_of_cons. right. apply elem_of_app. right. apply elem_of_cons. by left.
      - constructor; [done|]. apply Forall_app. split.
        + eapply Forall_impl; [exact Hb|]. by intros [].
        + constructor; [done|]. eapply Forall_impl; [exact Ha|]. by intros []. }
    assert (count is_stop ((t0 ++ [EvStarted profileId debugPort])
               ++ EvSleep 3000 :: before ++ EvStop profileId :: after) = 1%nat) as Hone.
    { rewrite count_app, (count_none _ _ Hnostop).
      change (EvSleep 3000 :: before ++ EvStop profileId :: after)
        with ([EvSleep 3000] ++ before ++ [EvStop profileId] ++ after).
      rewrite !count_app.
      rewrite (count_none is_stop before), (count_none is_stop after); [done|..].
      - eapply Forall_impl; [exact Ha|]. by intros [].
      - eapply Forall_impl; [exact Hb|]. by intros []. }
    assert (EvStarted profileId debugPort
              ∈ (t0 ++ [EvStarted profileId debugPort])
                ++ EvSleep 3000 :: before ++ EvStop profileId :: after) as Hin1.
    { rewrite !elem_of_app, elem_of_cons. auto. }
    assert (EvStop profileId
              ∈ (t0 ++ [EvStarted profileId debugPort])
                ++ EvSleep 3000 :: before ++ EvStop profileId :: after) as Hin2.
    { rewrite !elem_of_app, !elem_of_cons, elem_of_app, elem_of_cons. auto 10. }
    assert (∀ e, startAnswer (start env) = Throw e → status e = Some 400 → False)
      as Hno400.
    { intros e He Hst. specialize (H400 e He Hst). injection H400 as H1 H2.
      discriminate H2. }
    destruct rf as [data|e]; cbn beta iota; simpl;
      rewrite ?app_nil_r; eexists _, _; (split; [reflexivity|]);
      (split; [exact Hsts|]); (split; [by rewrite Hone|]); simpl.
    + split; [by eauto 10|]. intros e He Hst. by destruct (Hno400 e He Hst).
    + split; [done|]. intros e' He Hst. by destruct (Hno400 e' He Hst).
  - assert (count is_stop t = 0%nat) as Hzero by by apply count_none.
    destruct r as [[p|]|e]; [by destruct (Hr p)|..]; cbn beta iota;
      simpl; rewrite ?app_nil_r;
      eexists _, _; (split; [reflexivity|]);
      (split; [by apply sts_not_started|]); (split; [by rewrite Hzero; lia|]); simpl.
    + split; [done|]. intros e He Hst. specialize (H400 e He Hst).
      injection H400 as ->. done.
    + split; [done|]. intros e' He Hst. specialize (H400 e' He Hst). done.
Qed.

(** X12.  [run-and-fetch-tiktok] never throws.  Whenever it obtained a port
    for the profile, from the start request or after a 409 from the status
    request, a stop request for the profile follows, whether the fetch
    succeeds or fails; it sends at most one stop request; it reports a
    success only with the port and the data of a fetch that stopped the
    profile; and when the control plane answers the start request with
    400 it does nothing more than that one request. *)
Theorem run_and_fetch_stops_profile {S} (env : AutoEnv) (profileId : string) (s : S) :
  ∃ r, result_of (run_and_fetch_tiktok env profileId s) = Ok r ∧
       started_then_stopped profileId (trace_of (run_and_fetch_tiktok env profileId s)) ∧
       (count is_stop (trace_of (run_and_fetch_tiktok env profileId s)) ≤ 1)%nat ∧
       (success r = true →
        ∃ debugPort data,
          port r = Some debugPort ∧ tiktokData r = Some data ∧
          EvStarted profileId debugPort
            ∈ trace_of (run_and_fetch_tiktok env profileId s) ∧
          EvStop profileId ∈ trace_of (run_and_fetch_tiktok env profileId s)) ∧
       (∀ e, startAnswer (start env) = Throw e → status e = Some 400 →
             r = inUse ∧
             trace_of (run_and_fetch_tiktok env profileId s) = [EvStart profileId]).
Proof.
  destruct (run_and_fetch_run env profileId s) as (t & r & -> & H).
  by exists r.
Qed.

End RunAndFetchFacts.

(** ** Logging in to many profiles one after another *)

Section BatchLoginFacts.
Import JsString Effects Calls BatchLogin.

Lemma batch_loop_run {S} env profiles : ∀ i results (s : S),
  ∃ rs,
    loop env i profiles results s
    = (s,
       concat (imap (λ k p,
                 trace_of (TiktokLogin.loginTikTokSeller (S:=unit) (env (i + k)%nat)
                             (port p) (credentials p) tt) ++ [EvSleep 2000]) profiles),
       Ok (results ++ rs)) ∧
    length rs = length profiles ∧
    ∀ k p, profiles !! k = Some p →
      ∃ lr, result_of (TiktokLogin.loginTikTokSeller (S:=unit) (env (i + k)%nat)
                         (port p) (credentials p) tt) = Ok lr ∧
            rs !! k = Some {| profileId := id p;
                              success := TiktokLogin.success lr;
                              message := TiktokLogin.message lr |}.
Proof.
  induction profiles as [|profile rest IH]; intros i results s; simpl.
  - exists []. rewrite app_nil_r. by repeat split.
  - rewrite bind_run, loginTikTokSeller_any_state.
    destruct (loginTikTokSeller_run (env i) (port profile) (credentials profile) tt)
      as (tl & lr & Hl).
    rewrite Nat.add_0_r, Hl. unfold trace_of, result_of. simpl.
    rewrite bind_run. unfold emit at 1. cbn beta iota.
    destruct (IH (i + 1)%nat (results ++ [resultOf profile lr]) s)
      as (rs & -> & Hlen & Hrs).
    exists (resultOf profile lr :: rs). rewrite <- !app_assoc. simpl.
    split; [|split; [by rewrite Hlen|]].
    + do 6 f_equal. apply imap_ext. intros k p _. simpl.
      by replace (i + 1 + k)%nat with (i + Datatypes.S k)%nat by lia.
    + intros [|k] p Hp; simpl in Hp.
      * injection Hp as <-. exists lr. rewrite Nat.add_0_r, Hl. done.
      * destruct (Hrs k p Hp) as (lr' & H1 & H2). exists lr'.
        replace (i + Datatypes.S k)%nat with (i + 1 + k)%nat by lia. done.
Qed.

(** X13.  [batchLoginTikTok] never throws.  It logs in to the profiles strictly
    one after another in the order of the input, each login followed by a
    pause of two seconds, the last one too; a failed login does not stop
    the loop; and entry [k] of its result carries the identifier of
    profile [k] with the [success] and the [message] of its login.  The
    [requires2FA] field of a login is dropped: a login that waits for a
    manual code is reported as a success. *)
Theorem batch_login_sequential {S} (env : nat → TiktokLogin.LoginEnv)
    (profiles : list Profile) (s : S) :
  ∃ results,
    result_of (batchLoginTikTok env profiles s) = Ok results ∧
    trace_of (batchLoginTikTok env profiles s)
    = concat (imap (λ k p,
                trace_of (TiktokLogin.loginTikTokSeller (S:=unit) (env k)
                            (port p) (credentials p) tt) ++ [EvSleep 2000]) profiles) ∧
    length results = length profiles ∧
    ∀ k p, profiles !! k = Some p →
      ∃ lr, result_of (TiktokLogin.loginTikTokSeller (S:=unit) (env k)
                         (port p) (credentials p) tt) = Ok lr ∧
            results !! k = Some {| profileId := id p;
                                   success := TiktokLogin.success lr;
                                   message := TiktokLogin.message lr |}.
Proof.
  unfold batchLoginTikTok.
  destruct (batch_loop_run env profiles 0 [] s) as (rs & -> & Hlen & Hrs).
  exists rs. unfold result_of, trace_of. simpl. done.
Qed.

End BatchLoginFacts.

(** ** The fetch through the page *)

(** Closes a goal from a membership in a list that does not hold the
    element. *)
Ltac absurd_member H :=
  exfalso; repeat (apply elem_of_cons in H as [H|H]; [discriminate H|]);
  by apply elem_of_nil in H.

Section FinanceDataFacts.
Import JsString Json Effects Calls FinanceData.

(** What the shared variables hold comes from the responses seen. *)
Lemma run_source (seen : list step) :
  let v := fold_left run seen initialVars in
  (∀ info, sellerInfo v = Some info → ∃ r, Arrives r ∈ seen ∧ names_seller r info) ∧
  (∀ j, financeApiData v = Some j → ∃ r, Parsed r ∈ seen ∧ carries_finance r j) ∧
  (∀ value, settled v = Some value →
     (∃ r, Arrives r ∈ seen ∧
           names_seller r {| Fast.sellerId := sellerId value;
                             Fast.oecSellerId := oecSellerId value |}) ∧
     (∃ r, Parsed r ∈ seen ∧ carries_finance r (financeData value))).
Proof.
  induction seen as [|st seen IH] using rev_ind; cbv zeta.
  - simpl. by repeat split.
  - rewrite fold_left_app. cbn [fold_left].
    cbv zeta in IH. destruct IH as (IH1 & IH2 & IH3).
    assert (∀ x : step, x ∈ seen → x ∈ seen ++ [st]) as Hmono.
    { intros x Hx. apply elem_of_app. by left. }
    assert (st ∈ seen ++ [st]) as Hlast.
    { apply elem_of_app. right. apply elem_of_cons. by left. }
    generalize dependent (fold_left run seen initialVars). intros v IH1 IH2 IH3.
    destruct st as [r|r]; cbn [run].
    + unfold onArrival. destruct (sellerInfo v) as [info|] eqn:Hinfo.
      { split; [|split].
        - intros info' H. rewrite Hinfo in H. destruct (IH1 _ H) as (r' & Hr' & Hn).
          exists r'. auto.
        - intros j H. destruct (IH2 _ H) as (r' & Hr' & Hn). exists r'. auto.
        - intros value H. destruct (IH3 _ H) as [(r1 & H1 & H1') (r2 & H2 & H2')].
          split; [exists r1|exists r2]; auto. }
      destruct (includes (Fast.href (url r)) "seller-us.tiktok.com") eqn:E1; cbn [andb];
        [destruct (includes (Fast.href (url r)) "seller_id=") eqn:E2;
         [destruct (Fast.extractSellerIdFromUrl (url r)) as [extracted|] eqn:E3|]|];
        cbn [sellerInfo financeApiData settled]; rewrite ?Hinfo.
      * split; [|split].
        -- intros info [= <-]. exists r. by repeat split.
        -- intros j H. destruct (IH2 _ H) as (r' & Hr' & Hn). exists r'. auto.
        -- intros value H. destruct (IH3 _ H) as [(r1 & H1 & H1') (r2 & H2 & H2')].
           split; [exists r1|exists r2]; auto.
      * split; [done|split].
        -- intros j H. destruct (IH2 _ H) as (r' & Hr' & Hn). exists r'. auto.
        -- intros value H. destruct (IH3 _ H) as [(r1 & H1 & H1') (r2 & H2 & H2')].
           split; [exists r1|exists r2]; auto.
      * split; [done|split].
        -- intros j H. destruct (IH2 _ H) as (r' & Hr' & Hn). exists r'. auto.
        -- intros value H. destruct (IH3 _ H) as [(r1 & H1 & H1') (r2 & H2 & H2')].
           split; [exists r1|exists r2]; auto.
      * split; [done|split].
        -- intros j H. destruct (IH2 _ H) as (r' & Hr' & Hn). exists r'. auto.
        -- intros value H. destruct (IH3 _ H) as [(r1 & H1 & H1') (r2 & H2 & H2')].
           split; [exists r1|exists r2]; auto.
    + assert ((∀ info, sellerInfo v = Some info →
                 ∃ r0, Arrives r0 ∈ seen ++ [Parsed r] ∧ names_seller r0 info) ∧
              (∀ j, financeApiData v = Some j →
                 ∃ r0, Parsed r0 ∈ seen ++ [Parsed r] ∧ carries_finance r0 j) ∧
              (∀ value, settled v = Some value →
                 (∃ r0, Arrives r0 ∈ seen ++ [Parsed r] ∧
                        names_seller r0 {| Fast.sellerId := sellerId value;
                                           Fast.oecSellerId := oecSellerId value |}) ∧
                 (∃ r0, Parsed r0 ∈ seen ++ [Parsed r] ∧
                        carries_finance r0 (financeData value)))) as Hkeep.
      { split; [|split].
        - intros info H. destruct (IH1 _ H) as (r' & Hr' & Hn). exists r'. auto.
        - intros j H. destruct (IH2 _ H) as (r' & Hr' & Hn). exists r'. auto.
        - intros value H. destruct (IH3 _ H) as [(r1 & H1 & H1') (r2 & H2 & H2')].
          split; [exists r1|exists r2]; auto. }
      unfold onParsed. destruct (wantsBody r) eqn:Hw; [|exact Hkeep].
      destruct (body r) as [jsonData|e] eqn:Hb; [|exact Hkeep].
      destruct (path amountPath jsonData) as [amount|] eqn:Hp; [|exact Hkeep].
      assert (carries_finance r jsonData) as Hc.
      { unfold carries_finance. by rewrite Hp. }
      destruct Hkeep as (K1 & K2 & K3). cbv zeta.
      destruct (sellerInfo v) as [info|] eqn:Hinfo.
      * unfold resolve. cbn [settled sellerInfo financeApiData].
        destruct (settled v) as [old|] eqn:Hold;
          cbn [settled sellerInfo financeApiData]; rewrite ?Hinfo.
        -- split; [exact K1|]. split; [|exact K3].
           intros j [= <-]. by exists r.
        -- split; [exact K1|]. split; [intros j [= <-]; by exists r|].
           intros value [= <-]. cbn [sellerId oecSellerId financeData].
           split; [|by exists r].
           destruct (K1 info eq_refl) as (r1 & H1 & H1'). exists r1.
           split; [done|]. by destruct info.
      * cbn [settled sellerInfo financeApiData].
        split; [done|]. split; [|exact K3]. intros j [= <-]. by exists r.
Qed.

Lemma path_of_object names j :
  names ≠ [] → path names j ≠ None → truthy j = true.
Proof.
  unfold path. destruct names as [|name rest]; [done|]. intros _. simpl.
  destruct j; try done;
    (assert (fold_left (λ acc name0, Json.get name0 acc) rest None = None) as ->;
     [by induction rest|done]).
Qed.

Lemma fetchTikTokFinanceData_run {S} env debugPort (s : S) :
  fetchTikTokFinanceData env debugPort s =
  match connect env with
  | Throw e => (s, [EvConnect debugPort], Throw e)
  | Ok _ =>
    match newPage env with
    | Throw e => (s, [EvConnect debugPort; EvNewPage], Throw e)
    | Ok _ =>
      match goto env with
      | Throw e =>
          (s, [EvConnect debugPort; EvNewPage; EvGoto Fast.financeUrl], Throw e)
      | Ok _ =>
        match dataPromise (steps env) with
        | Throw e =>
            (s, [EvConnect debugPort; EvNewPage; EvGoto Fast.financeUrl], Throw e)
        | Ok value =>
          match pageClose env with
          | Throw e =>
              (s, [EvConnect debugPort; EvNewPage; EvGoto Fast.financeUrl; EvPageClose],
               Throw e)
          | Ok _ =>
              (s, [EvConnect debugPort; EvNewPage; EvGoto Fast.financeUrl; EvPageClose;
                   EvDisconnect], Ok value)
          end
        end
      end
    end
  end.
Proof.
  unfold fetchTikTokFinanceData, try_catch, call, emit, throw.
  unfold mbind, M_bind, mret, M_ret. cbn beta iota.
  destruct (connect env) as [[]|e1]; [|done].
  destruct (newPage env) as [[]|e2]; [|done].
  destruct (goto env) as [[]|e3]; [|done].
  destruct (dataPromise (steps env)) as [value|e4]; [|done].
  destruct (pageClose env) as [[]|e5]; done.
Qed.

(** X14.  Whenever [fetchTikTokFinanceData] returns a result, its two
    identifiers are the [seller_id] and [oec_seller_id] of a response of
    the network whose URL has the host of the seller center and both
    parameters; and its finance data is either the placeholder of the
    timer, or the parsed body of a response of the on-hold statistics
    request ([amount_stat_type=1], content type JSON) in which the amount
    to settle is defined. *)
Theorem finance_result_source {S} (env : FinanceEnv) (debugPort : Z) (s : S)
    (value : FinanceResult) :
  result_of (fetchTikTokFinanceData env debugPort s) = Ok value →
  (∃ r, Arrives r ∈ steps env ∧
        names_seller r {| Fast.sellerId := sellerId value;
                          Fast.oecSellerId := oecSellerId value |}) ∧
  (financeData value = placeholder ∨
   ∃ r, Parsed r ∈ steps env ∧ carries_finance r (financeData value)).
Proof.
  rewrite fetchTikTokFinanceData_run.
  destruct (connect env) as [[]|e1]; [|done].
  destruct (newPage env) as [[]|e2]; [|done].
  destruct (goto env) as [[]|e3]; [|done].
  destruct (dataPromise (steps env)) as [value'|e4] eqn:Hp; [|done].
  destruct (pageClose env) as [[]|e5]; [|done].
  unfold result_of. simpl. intros [= ->].
  unfold dataPromise in Hp. cbv zeta in Hp.
  destruct (run_source (steps env)) as (H1 & H2 & H3). cbv zeta in H1, H2, H3.
  destruct (settled (fold_left run (steps env) initialVars)) as [value'|] eqn:Hs.
  - injection Hp as ->. destruct (H3 value eq_refl) as [Ha Hb]. split; [done|by right].
  - unfold onTimeout in Hp.
    destruct (sellerInfo (fold_left run (steps env) initialVars)) as [info|]; [|done].
    injection Hp as <-. cbn [sellerId oecSellerId financeData].
    destruct (H1 info eq_refl) as (r & Hr & Hn).
    split; [exists r; split; [done|by destruct info]|].
    destruct (financeApiData (fold_left run (steps env) initialVars)) as [j|];
      [|by left].
    destruct (H2 j eq_refl) as (r' & Hr' & Hc).
    assert (truthy j = true) as ->.
    { destruct Hc as (_ & _ & Hpath).
      apply (path_of_object amountPath); [by unfold amountPath|done]. }
    right. by exists r'.
Qed.

Lemma finance_result_source_witness :
  ∃ r, Arrives r ∈ steps MoreSamples.finance_late_seller ∧
       names_seller r {| Fast.sellerId := "7495"; Fast.oecSellerId := "7496" |}.
Proof.
  refine (proj1 (finance_result_source MoreSamples.finance_late_seller 9222 tt
                   {| sellerId := "7495"; oecSellerId := "7496";
                      financeData := match body MoreSamples.statResponse with
                                     | Ok j => j
                                     | Throw _ => JNull
                                     end |} _)).
  vm_compute. reflexivity.
Defined.

Lemma fetch_tiktok_data_run {S} (env : FinanceEnv) (debugPort : Z) (s : S) :
  ∃ t r, fetch_tiktok_data env debugPort s = (s, t, Ok r) ∧
       (success r = true →
        t = [EvSleep 2000; EvConnect debugPort; EvNewPage; EvGoto Fast.financeUrl;
             EvPageClose; EvDisconnect]) ∧
       (success r = false →
        EvDisconnect ∉ t ∧
        (EvPageClose ∈ t → ∃ e, pageClose env = Throw e ∧ message r = Effects.message e)) ∧
       Forall (λ e, is_stop e = false) t ∧
       (connect env = Ok tt → newPage env = Ok tt → goto env = Ok tt →
        (∀ x info, Arrives x ∈ steps env → ¬ names_seller x info) →
        r = {| success := false; data := None; message := timeoutMessage |}).
Proof.
  unfold fetch_tiktok_data, try_catch. rewrite bind_run. unfold emit at 1.
  cbn beta iota. rewrite bind_run, fetchTikTokFinanceData_run.
  destruct (connect env) as [[]|e1] eqn:H1.
  2: { eexists _, _. split; [reflexivity|]. simpl.
       split; [done|]. split; [|split; [by repeat constructor|done]].
       intros _. split; intros H; absurd_member H. }
  destruct (newPage env) as [[]|e2] eqn:H2.
  2: { eexists _, _. split; [reflexivity|]. simpl.
       split; [done|]. split; [|split; [by repeat constructor|done]].
       intros _. split; intros H; absurd_member H. }
  destruct (goto env) as [[]|e3] eqn:H3.
  2: { eexists _, _. split; [reflexivity|]. simpl.
       split; [done|]. split; [|split; [by repeat constructor|done]].
       intros _. split; intros H; absurd_member H. }
  destruct (dataPromise (steps env)) as [value|e4] eqn:Hp.
  - assert (∃ x info, Arrives x ∈ steps env ∧ names_seller x info) as (x & info & Hx & Hn).
    { unfold dataPromise in Hp. cbv zeta in Hp.
      destruct (run_source (steps env)) as (K1 & _ & K3). cbv zeta in K1, K3.
      destruct (settled (fold_left run (steps env) initialVars)) as [v'|] eqn:Hs.
      - destruct (K3 v' eq_refl) as [(x & Hx & Hn) _]. eauto.
      - unfold onTimeout in Hp.
        destruct (sellerInfo (fold_left run (steps env) initialVars)) as [info|];
          [|done].
        destruct (K1 info eq_refl) as (x & Hx & Hn). eauto. }
    destruct (pageClose env) as [[]|e5] eqn:H5.
    + eexists _, _. split; [reflexivity|]. simpl.
      split; [done|]. split; [done|]. split; [by repeat constructor|].
      intros _ _ _ Hnone. by destruct (Hnone x info Hx).
    + eexists _, _. split; [reflexivity|]. simpl.
      split; [done|]. split; [|split; [by repeat constructor|]].
      * intros _. split; [intros H; absurd_member H|]. intros _. by exists e5.
      * intros _ _ _ Hnone. by destruct (Hnone x info Hx).
  - eexists _, _. split; [reflexivity|]. simpl.
    split; [done|]. split; [|split; [by repeat constructor|]].
    + intros _. split; intros H; absurd_member H.
    + intros _ _ _ Hnone. f_equal.
      unfold dataPromise in Hp. cbv zeta in Hp.
      destruct (run_source (steps env)) as (K1 & _ & _). cbv zeta in K1.
      destruct (settled (fold_left run (steps env) initialVars)); [done|].
      unfold onTimeout in Hp.
      destruct (sellerInfo (fold_left run (steps env) initialVars)) as [info|].
      * destruct (K1 info eq_refl) as (x & Hx & Hn). by destruct (Hnone x info Hx).
      * by injection Hp as <-.
Qed.

(** X15.  [fetch-tiktok-data] never throws.  When it reports a success it has
    connected, opened a tab, navigated, closed the tab and disconnected,
    in this order.  When it reports a failure the connection to the
    browser is not closed, and the tab stays open unless closing it was
    what failed.  It never asks the control plane to stop the profile.
    When the browser is reached and the page loads but no response names
    the seller, the result is the failure with the text of the timeout. *)
Theorem fetch_tiktok_data_outcome {S} (env : FinanceEnv) (debugPort : Z) (s : S) :
  ∃ r, result_of (fetch_tiktok_data env debugPort s) = Ok r ∧
       (success r = true →
        trace_of (fetch_tiktok_data env debugPort s)
        = [EvSleep 2000; EvConnect debugPort; EvNewPage; EvGoto Fast.financeUrl;
           EvPageClose; EvDisconnect]) ∧
       (success r = false →
        EvDisconnect ∉ trace_of (fetch_tiktok_data env debugPort s) ∧
        (EvPageClose ∈ trace_of (fetch_tiktok_data env debugPort s) →
         ∃ e, pageClose env = Throw e ∧ message r = Effects.message e)) ∧
       Forall (λ e, is_stop e = false) (trace_of (fetch_tiktok_data env debugPort s)) ∧
       (connect env = Ok tt → newPage env = Ok tt → goto env = Ok tt →
        (∀ x info, Arrives x ∈ steps env → ¬ names_seller x info) →
        r = {| success := false; data := None; message := timeoutMessage |}).
Proof.
  destruct (fetch_tiktok_data_run env debugPort s) as (t & r & -> & H).
  by exists r.
Qed.

End FinanceDataFacts.

(** ** The credential sheet and the session store *)

Section CredentialsMore.
Import JsString Effects CredentialsReader CredentialsSession.

Lemma removeWhiteSpace_trimStart s : removeWhiteSpace (trimStart s) = removeWhiteSpace s.
Proof.
  induction s as [|c s IH]; simpl; [done|].
  destruct (Ascii.is_space c) eqn:E; simpl; rewrite ?E; done.
Qed.

Lemma removeWhiteSpace_trimEnd s : removeWhiteSpace (trimEnd s) = removeWhiteSpace s.
Proof.
  induction s as [|c s IH]; simpl; [done|].
  destruct (trimEnd s) as [|c' s'] eqn:E; simpl in *.
  - destruct (Ascii.is_space c) eqn:Hc; simpl; rewrite ?Hc, <- IH; done.
  - destruct (Ascii.is_space c) eqn:Hc; simpl; rewrite ?Hc, <- IH; done.
Qed.

(** The [trim] of [cleanKey] adds nothing to the removal of all white space. *)
Lemma cleanKey_spelling key : cleanKey key = removeWhiteSpace (toLowerCase key).
Proof.
  unfold cleanKey. rewrite <- trim_toLowerCase. unfold trim.
  by rewrite removeWhiteSpace_trimEnd, removeWhiteSpace_trimStart.
Qed.

Lemma normalizeRow_spelling (r r' : row) : ∀ m : gmap string cell,
  Forall2 (λ kv kv', removeWhiteSpace (toLowerCase kv.1)
                     = removeWhiteSpace (toLowerCase kv'.1) ∧ kv.2 = kv'.2) r r' →
  fold_left (λ normalizedRow kv, <[cleanKey kv.1 := kv.2]> normalizedRow) r m
  = fold_left (λ normalizedRow kv, <[cleanKey kv.1 := kv.2]> normalizedRow) r' m.
Proof.
  intros m H. revert m. induction H as [|kv kv' r r' [Hk Hv] _ IH]; intros m; simpl;
    [done|].
  by rewrite !cleanKey_spelling, Hk, Hv, IH.
Qed.

(** X16.  The headers of the sheet are read without regard to letter case and
    to white space, wherever it stands: two rows whose headers agree once
    they are put in lower case and all white space is deleted, column by
    column, with the same cells, yield the same profile, or both none. *)
Theorem header_spelling_ignored (r r' : row) :
  Forall2 (λ kv kv', removeWhiteSpace (toLowerCase kv.1)
                     = removeWhiteSpace (toLowerCase kv'.1) ∧ kv.2 = kv'.2) r r' →
  parseRow r = parseRow r'.
Proof.
  intros H. unfold parseRow, normalizeRow.
  by rewrite (normalizeRow_spelling r r' ∅ H).
Qed.

Lemma header_spelling_ignored_witness :
  omap parseRow MoreSamples.rows_decorated_headers
  = omap parseRow MoreSamples.rows_plain_headers.
Proof.
  unfold MoreSamples.rows_decorated_headers, MoreSamples.rows_plain_headers.
  cbn [omap list_omap].
  rewrite (header_spelling_ignored
             [("Profile ID", CStr " p1 "); (" NAME ", CStr "Shop One");
              ("E mail", CStr "a@x.com"); ("PassWord", CStr "pw1")]
             [("profileid", CStr " p1 "); ("name", CStr "Shop One");
              ("email", CStr "a@x.com"); ("password", CStr "pw1")]).
  - reflexivity.
  - repeat constructor.
Defined.

Lemma apply_accepted store o :
  apply store o = default store (accepted o).
Proof.
  destruct o as [[rawData|e]|[rawData|e]|c|id]; simpl; try done;
    unfold parseExcelWorkbook; destruct rawData as [|r rows]; try done;
    destruct (omap parseRow (r :: rows)) as [|p ps]; done.
Qed.

(** X17.  The session store after any sequence of loads from a file, loads
    from a buffer, [saveCredentials] and [deleteCredentials], begun with
    the empty store: it holds exactly the valid rows of the last load
    that had one, and nothing when there was none.  Loads do not add up,
    failed loads and the calls of [saveCredentials] and
    [deleteCredentials] change nothing, and the two latter answer
    [false]. *)
Theorem session_is_last_accepted_load (ops : list op) :
  readAllCredentials (session ops) = default [] (last (omap accepted ops)) ∧
  (∀ c, (saveCredentials (session ops) c).1 = false) ∧
  (∀ id, (deleteCredentials (session ops) id).1 = false).
Proof.
  split; [|done]. unfold readAllCredentials, session.
  induction ops as [|o ops IH] using rev_ind; [done|].
  rewrite fold_left_app. cbn [fold_left]. rewrite apply_accepted, IH.
  rewrite omap_app. cbn [omap list_omap].
  destruct (accepted o) as [ps|]; simpl.
  - by rewrite last_snoc.
  - by rewrite app_nil_r.
Qed.

End CredentialsMore.

(** ** When a job of the batch succeeds *)

Section BatchJobOutcome.
Import JsString Effects Session.

Lemma fetch_any_state {S} env debugPort id (s : S) :
  Fast.fetchTikTokDataFast env debugPort id s
  = (s, trace_of (Fast.fetchTikTokDataFast (S:=unit) env debugPort id tt),
     result_of (Fast.fetchTikTokDataFast (S:=unit) env debugPort id tt)).
Proof.
  unfold Fast.fetchTikTokDataFast, invoke.
  by destruct (Fast.fetchTikTokDataFast_body env debugPort id Fast.initial) as [[l t] r].
Qed.

Lemma attempt_success env id :
  (∃ r, result_of (Handlers.processProfile_try env id tt) = Ok r ∧ Handlers.success r = true) ↔
  attemptSucceeds env id.
Proof.
  unfold attemptSucceeds, Handlers.obtainsPort, Handlers.processProfile_try. rewrite bind_run.
  destruct (startProfile_cases (Handlers.start env) id "Start failed"
              "Profile running but no port available"
              "Profile conflict (409) - could not get port" tt)
    as (t & r & -> & _ & Hr). unfold result_of at 2. simpl.
  destruct Hr as [(debugPort & t0 & -> & -> & _)|[Hr _]].
  - rewrite bind_run. unfold emit at 1. cbn beta iota.
    rewrite bind_run.
    pose proof (fetch_Ok_iff (Handlers.fetch env) debugPort id tt) as Hfetch.
    destruct (Fast.fetchTikTokDataFast (Handlers.fetch env) debugPort id tt)
      as [[[] tf] [data|e]]; unfold result_of in *; simpl in *.
    + split.
      * intros _. split; [by exists debugPort|]. apply Hfetch. by eexists.
      * intros _. eexists. split; [reflexivity|done].
    + split; [by intros (r & Hr & _)|].
      intros (_ & Hs & Hf). by destruct (proj2 Hfetch (conj Hs Hf)).
  - destruct r as [[p|]|e]; [by destruct (Hr p)|..]; simpl.
    + split; [by intros (r & [= <-] & Hs)|]. by intros ([p Hp] & _).
    + split; [by intros (r & Hr' & _)|]. by intros ([p Hp] & _).
Qed.

(** X18.  A job of the batch reports a success exactly when its first attempt
    goes through, or its first attempt ends with an error of the kind that
    is tried again (its text has neither "Skipped" nor "in use") and its
    second attempt goes through.  An attempt goes through when a port is
    obtained, the extraction obtains a session and the first request of
    the direct data client is answered. *)
Theorem batch_job_success (env : nat → Handlers.AttemptEnv) (id : string) (index : nat) :
  Handlers.success (Handlers.processProfile env id index 0).2 = true ↔
  attemptSucceeds (env 0%nat) id ∨
  (attemptFailsRetryably (env 0%nat) id ∧ attemptSucceeds (env 1%nat) id).
Proof.
  destruct (Handlers.processProfile env id index 0) as [tr rec] eqn:Hrun.
  rewrite processProfile_unfold in Hrun. cbn [snd].
  pose proof (attempt_success (env 0%nat) id) as H0.
  pose proof (attempt_success (env 1%nat) id) as H1.
  unfold attemptFailsRetryably.
  destruct (Handlers.processProfile_try (env 0%nat) id tt) as [[[] t] [r|e]];
    unfold result_of in H0 |- *; simpl in H0 |- *.
  - injection Hrun as <- <-. split.
    + intros Hs. left. apply H0. by exists r.
    + intros [Hs|[(err & Herr & _) _]]; [|done].
      apply H0 in Hs as (r' & [= <-] & Hs). done.
  - assert (¬ attemptSucceeds (env 0%nat) id) as Hnot.
    { intros Hs. by apply H0 in Hs as (r' & Hr' & _). }
    destruct (Handlers.notRetried (Effects.message e)) eqn:Hretry.
    { injection Hrun as <- <-. simpl.
      split; [done|]. intros [Hs|[(err & [= <-] & Hn) _]]; [done|congruence]. }
    unfold Handlers.MAX_RETRIES in Hrun. destruct (decide (0 < 1)%nat) as [_|Hlt]; [|lia].
    destruct (Handlers.processProfile env id index 1) as [tr' rec'] eqn:Hrun'.
    injection Hrun as <- <-.
    rewrite processProfile_unfold in Hrun'.
    destruct (Handlers.processProfile_try (env 1%nat) id tt) as [[[] t'] [r'|e']];
      unfold result_of in H1; simpl in H1 |- *.
    + injection Hrun' as <- <-. split.
      * intros Hs. right. split; [by exists e|]. apply H1. by exists r'.
      * intros [Hs|[_ Hs]]; [done|]. apply H1 in Hs as (r'' & [= <-] & Hs). done.
    + assert (¬ attemptSucceeds (env 1%nat) id) as Hnot'.
      { intros Hs. by apply H1 in Hs as (r' & Hr' & _). }
      unfold Handlers.MAX_RETRIES in Hrun'.
      destruct (Handlers.notRetried (Effects.message e'));
        [|destruct (decide (1 < 1)%nat) as [Hlt|_]; [lia|]];
        injection Hrun' as <- <-; simpl;
        (split; [done|]); intros [Hs|[_ Hs]]; done.
Qed.

End BatchJobOutcome.

(** ** The progress messages of the batch *)

Section BatchProgress.
Import Effects Calls.

Lemma chunks_step (n i : nat) :
  (i + 3 < n)%nat →
  ((n - i + 2) / 3 - 1 = Datatypes.S ((n - (i + 3) + 2) / 3 - 1))%nat ∧
  ((n - i + 2) / 3 = Datatypes.S ((n - (i + 3) + 2) / 3))%nat.
Proof.
  intros H.
  replace (n - i + 2)%nat with ((n - (i + 3) + 2) + 1 * 3)%nat by lia.
  rewrite Nat.div_add by lia.
  assert (1 ≤ (n - (i + 3) + 2) / 3)%nat.
  { apply Nat.div_le_lower_bound; lia. }
  lia.
Qed.

Lemma chunks_last (n i : nat) :
  (i < n)%nat → (n ≤ i + 3)%nat →
  ((n - i + 2) / 3 = 1)%nat ∧ ((n - (i + 3) + 2) / 3 = 0)%nat.
Proof.
  intros H1 H2. replace (n - (i + 3))%nat with 0%nat by lia.
  split; [|done].
  assert (n - i = 1 ∨ n - i = 2 ∨ n - i = 3)%nat as Hcase by lia.
  destruct Hcase as [Hc|[Hc|Hc]]; by rewrite Hc.
Qed.

Lemma chunk_of (i k : nat) :
  (i mod 3 = 0)%nat → (k < 3)%nat → (3 * ((i + k) / 3) + 3 = i + 3)%nat.
Proof.
  intros Hi Hk. pose proof (Nat.Div0.div_mod i 3) as Hd. rewrite Hi in Hd.
  replace (i + k)%nat with (k + (i / 3) * 3)%nat by lia.
  rewrite Nat.div_add by lia. rewrite (Nat.div_small k 3) by lia. lia.
Qed.

Lemma filter_sleep_progress current total rs :
  List.filter is_sleep (map (Handlers.progressOf current total) rs) = [].
Proof. by induction rs. Qed.

Lemma filter_finished_progress current total rs :
  map announced (List.filter is_finished (map (Handlers.progressOf current total) rs))
  = map (λ r, (Z.of_nat current, Handlers.profileId r)) rs.
Proof.
  induction rs as [|r rs IH]; simpl; [done|].
  destruct (Handlers.success r); simpl; by rewrite IH.
Qed.

Lemma count_progress_progress current total rs :
  count is_progress (map (Handlers.progressOf current total) rs) = length rs.
Proof. unfold count. induction rs as [|r rs IH]; simpl; [done|]. by rewrite IH. Qed.

Lemma batchLoop_progress env completion profileIds i results sent :
  (∀ j, (j < length profileIds)%nat → (j mod Handlers.CHUNK_SIZE = 0)%nat →
        completion j ≡ₚ seq 0 (length (take Handlers.CHUNK_SIZE (drop j profileIds)))) →
  (i mod Handlers.CHUNK_SIZE = 0)%nat →
  map Handlers.profileId results = take i profileIds →
  ∃ results' sent',
    Handlers.batchLoop env completion profileIds i results sent = Some (results', sent') ∧
    List.filter is_sleep sent'
    = List.filter is_sleep sent
      ++ replicate ((length profileIds - i + 2) / 3 - 1) (EvSleep 2000) ∧
    map announced (List.filter is_finished sent')
    = map announced (List.filter is_finished sent)
      ++ imap (λ k id, (Z.of_nat (min (3 * ((i + k) / 3) + 3) (length profileIds)), id))
              (drop i profileIds) ∧
    count is_progress sent'
    = (count is_progress sent
       + ((length profileIds - i + 2) / 3 + (length profileIds - i)))%nat.
Proof.
  funelim (Handlers.batchLoop env completion profileIds i results sent);
    intros Hperm Hmod Hres; try rewrite <- Heqcall.
  - exists results, sent. split; [done|].
    replace (length profileIds - i)%nat with 0%nat by lia.
    rewrite drop_ge by lia. simpl. rewrite !app_nil_r. split; [done|]. split; [done|lia].
  - assert (chunkResults =
              imap (λ idx id, (Handlers.processProfile (env (i + idx)%nat) id (i + idx) 0).2)
                   (take Handlers.CHUNK_SIZE (drop i profileIds))) as Hchunk.
    { rewrite promise_all_any_order in Heq; [by injection Heq|].
      rewrite length_imap. by apply Hperm. }
    assert (map Handlers.profileId chunkResults
            = take Handlers.CHUNK_SIZE (drop i profileIds)) as Hids.
    { rewrite Hchunk. apply list_eq. intros k.
      change (map Handlers.profileId ?l) with (Handlers.profileId <$> l).
      rewrite list_lookup_fmap, list_lookup_imap.
      destruct (take Handlers.CHUNK_SIZE (drop i profileIds) !! k) as [id|]; simpl; [|done].
      f_equal. apply processProfile_profileId. }
    assert (length chunkResults = min 3 (length profileIds - i)) as Hlen.
    { rewrite <- (length_map Handlers.profileId), Hids, length_take, length_drop.
      unfold Handlers.CHUNK_SIZE. lia. }
    assert (length results = i) as Hlenr.
    { rewrite <- (length_map Handlers.profileId), Hres, length_take. lia. }
    destruct H as (results' & sent' & Hrun & Hsleep & Hfin & Hcount); [done| | |].
    { rewrite <- (Nat.Div0.mod_add i 1 Handlers.CHUNK_SIZE) in Hmod.
      by rewrite Nat.mul_1_l in Hmod. }
    { rewrite map_app, Hres, Hids. by rewrite <- take_take_drop. }
    exists results', sent'. split; [done|].
    unfold Handlers.CHUNK_SIZE in *.
    rewrite !List.filter_app, !map_app, filter_sleep_progress,
      filter_finished_progress in *.
    rewrite !count_app, count_progress_progress in Hcount.
    rewrite length_app, Hlenr, Hlen in *.
    split; [|split].
    + rewrite Hsleep. cbn [List.filter is_sleep app]. rewrite <- !app_assoc. f_equal.
      destruct (decide (i + 3 < length profileIds)%nat) as [Hlt|Hge].
      * destruct (chunks_step (length profileIds) i Hlt) as [-> _]. done.
      * destruct (chunks_last (length profileIds) i) as [-> ->]; [lia..|]. done.
    + rewrite Hfin.
      assert (List.filter is_finished
                (if decide (i + 3 < length profileIds)%nat then [EvSleep 2000] else [])
              = []) as ->.
      { case_decide; reflexivity. }
      cbn [List.filter is_finished String.eqb Ascii.eqb Bool.eqb negb map app].
      rewrite app_nil_r, <- !app_assoc. f_equal.
      rewrite <- (take_drop 3 (drop i profileIds)) at 1.
      rewrite imap_app, drop_drop. f_equal.
      * apply list_eq. intros k.
        change (map ?f ?l) with (f <$> l).
        rewrite list_lookup_fmap, list_lookup_imap, <- Hids.
        change (map ?f ?l) with (f <$> l). rewrite list_lookup_fmap.
        destruct (chunkResults !! k) as [r|] eqn:Hk; [|done].
        cbn [fmap option_fmap option_map].
        apply lookup_lt_Some in Hk. rewrite Hlen in Hk.
        do 3 f_equal. rewrite chunk_of by lia. lia.
      * destruct (decide (i + 3 ≤ length profileIds)%nat) as [Hle|Hgt].
        -- apply imap_ext. intros k id _. cbv beta.
           rewrite length_take, length_drop.
           replace (3 `min` (length profileIds - i) + k)%nat with (3 + k)%nat by lia.
           by replace (i + (3 + k))%nat with (i + 3 + k)%nat by lia.
        -- rewrite !drop_ge by (rewrite ?length_drop; lia). done.
    + rewrite Hcount. unfold count at 2 3.
      assert (length (List.filter is_progress
                (if decide (i + 3 < length profileIds)%nat then [EvSleep 2000] else []))
              = 0%nat) as ->.
      { case_decide; reflexivity. }
      cbn [List.filter is_progress length].
      destruct (decide (i + 3 < length profileIds)%nat) as [Hlt|Hge].
      * destruct (chunks_step (length profileIds) i Hlt) as [_ ->]. lia.
      * destruct (chunks_last (length profileIds) i) as [-> ->]; [lia..|]. lia.
  - exfalso. rewrite promise_all_any_order in Heq; [done|].
    rewrite length_imap. by apply Hperm.
Qed.

(** X19.  The messages that [batch-fetch-tiktok] sends to the window, in
    whatever order the jobs of a chunk finish.  It pauses 2000 ms between
    two chunks of three and not after the last chunk.  Every profile is
    announced as done once, in the order of the input, and the counter of
    its message is the number of results at the end of its chunk: the
    profiles of one chunk carry the same counter, and the last message
    carries the total.  With one "running" message per chunk this makes
    one message per chunk and one per profile. *)
Theorem batch_progress_messages
    (env : nat → nat → Handlers.AttemptEnv) (completion : nat → list nat)
    (profileIds : list string) :
  (∀ i, (i < length profileIds)%nat → (i mod Handlers.CHUNK_SIZE = 0)%nat →
        completion i ≡ₚ seq 0 (length (take Handlers.CHUNK_SIZE (drop i profileIds)))) →
  ∃ results sent,
    Handlers.batch_fetch_tiktok env completion profileIds = Some (results, sent) ∧
    List.filter is_sleep sent
    = replicate ((length profileIds + 2) / 3 - 1) (EvSleep 2000) ∧
    map announced (List.filter is_finished sent)
    = imap (λ k id, (Z.of_nat (min (3 * (k / 3) + 3) (length profileIds)), id))
           profileIds ∧
    count is_progress sent = ((length profileIds + 2) / 3 + length profileIds)%nat.
Proof.
  intros Hperm.
  destruct (batchLoop_progress env completion profileIds 0 [] [] Hperm eq_refl eq_refl)
    as (results & sent & Hrun & Hsleep & Hfin & Hcount).
  exists results, sent. split; [done|].
  rewrite Nat.sub_0_r in Hsleep, Hcount. by rewrite drop_0 in Hfin.
Qed.

Lemma batch_progress_messages_witness :
  ∃ results sent,
    Handlers.batch_fetch_tiktok
      (λ _ _, Samples.attempt_with Samples.start_denied Samples.fetch_nothing_found)
      (λ i, if decide (i = 0)%nat then [2; 0; 1]%nat else [0]%nat)
      ["a"; "b"; "c"; "d"] = Some (results, sent) ∧
    List.filter is_sleep sent = [EvSleep 2000] ∧
    map announced (List.filter is_finished sent)
    = [(3, "a"); (3, "b"); (3, "c"); (4, "d")] ∧
    count is_progress sent = 6%nat.
Proof.
  apply (batch_progress_messages
           (λ _ _, Samples.attempt_with Samples.start_denied Samples.fetch_nothing_found)
           (λ i, if decide (i = 0)%nat then [2; 0; 1]%nat else [0]%nat)
           ["a"; "b"; "c"; "d"]).
  intros i Hi Hmod. simpl in Hi.
  destruct i as [|[|[|[|i]]]]; try discriminate Hmod; simpl; try lia.
  - apply (Permutation_cons_append [0; 1]%nat 2%nat).
  - done.
Defined.

End BatchProgress.
